(** * Organising files into year directories

    A shallow embedding of the two programs of the repository,

    - [disk_date_separator.py]   (module [DDS]: [organize_files],
      [cleanup_empty_dirs], [main]) and
    - [folder_year_organiser.py] (module [FYO]: [move_files], [main]),

    over a small model of the file system they act on.

    Modelling conventions.
    - A path is the list of its components below the root directory; the
      empty list is the root.  [Path(...).resolve()] is the identity: paths
      are absolute and normalised, and the tree has no symbolic links.
    - Names are strings over the code points 0..255 (Latin-1).
    - The file system is one volume, a tree of regular files and
      directories.  A directory lists its entries in a fixed order (the
      order [os.scandir] reports them in) and carries one permission bit:
      whether entries may be added to it or removed from it.
    - Time stamps are whole seconds since the epoch and the local time zone
      is UTC.
    - [print] appends a line to the output of the run; the text of a line is
      kept as a constructor with the values that the format string
      interpolates. *)

From Stdlib Require Import List String Ascii ZArith Lia Bool Arith DecimalString.
Import ListNotations.

Open Scope string_scope.
Open Scope list_scope.

(** ** Exceptions and results *)

Inductive exn : Type :=
| FileNotFoundError
| FileExistsError
| NotADirectoryError
| IsADirectoryError
| PermissionError
| DirectoryNotEmpty      (* OSError, errno ENOTEMPTY *)
| DeviceBusy             (* OSError, errno EBUSY *)
| ShutilError            (* shutil.Error, a subclass of OSError *)
| SameFileError          (* shutil.SameFileError *)
| ValueError.

(** [except OSError] catches every exception of the model but [ValueError]. *)
Definition is_OSError (e : exn) : bool :=
  match e with
  | ValueError => false
  | _ => true
  end.

Inductive res (A : Type) : Type :=
| Ok (a : A)
| Raise (e : exn).
Arguments Ok {A} a.
Arguments Raise {A} e.

(** ** Python built-ins used by the programs *)

Module Py.

(** [str(n)] for an integer. *)
Definition str (n : Z) : string := NilZero.string_of_int (Z.to_int n).

(** [c.isdigit()] on the code points 0..255: the ten ASCII digits and the
    superscripts two, three and one (U+00B2, U+00B3, U+00B9). *)
Definition isdigit_char (c : ascii) : bool :=
  let n := nat_of_ascii c in
  (((48 <=? n) && (n <=? 57)) || (n =? 178) || (n =? 179) || (n =? 185))%nat.

Definition is_ascii_digit (c : ascii) : bool :=
  let n := nat_of_ascii c in ((48 <=? n) && (n <=? 57))%nat.

(** [s.isdigit()]: false on the empty string. *)
Definition isdigit (s : string) : bool :=
  match list_ascii_of_string s with
  | [] => false
  | cs => forallb isdigit_char cs
  end.

(** [len(s)]. *)
Definition len (s : string) : nat := String.length s.

(** [datetime.fromtimestamp(t).year]: the proleptic Gregorian year of the
    day that holds second [t]; years outside 1..9999 are refused. *)
Definition year_of_days (days : Z) : Z :=
  (let z := days + 719468 in
   let era := z / 146097 in
   let doe := z - era * 146097 in
   let yoe := (doe - doe / 1460 + doe / 36524 - doe / 146096) / 365 in
   let doy := doe - (365 * yoe + yoe / 4 - yoe / 100) in
   let mp := (5 * doy + 2) / 153 in
   let m := if mp <? 10 then mp + 3 else mp - 9 in
   yoe + era * 400 + (if m <=? 2 then 1 else 0))%Z.

Definition fromtimestamp_year (t : Z) : res Z :=
  let y := year_of_days (t / 86400)%Z in
  if ((1 <=? y) && (y <=? 9999))%Z then Ok y else Raise ValueError.

End Py.

(** ** pathlib *)

Definition path := list string.

Module Path.

Definition eqb (p q : path) : bool :=
  if list_eq_dec string_dec p q then true else false.

(** [p.parent]; the root is its own parent. *)
Definition parent (p : path) : path := removelast p.

(** [p.name]. *)
Definition name (p : path) : string := last p "".

(** [p.relative_to(other)]. *)
Fixpoint relative_to (p other : path) {struct other} : res path :=
  match other with
  | [] => Ok p
  | o :: other' =>
      match p with
      | [] => Raise ValueError
      | c :: p' => if String.eqb o c then relative_to p' other' else Raise ValueError
      end
  end.

End Path.

(** ** The file system *)

Record stat_result : Type := {
  st_birthtime : option Z;   (* present where the platform reports it *)
  st_ctime : Z;
  st_mtime : Z
}.

Inductive platform : Type := Win32 | Posix.

#[warnings="-register-all"]
Inductive node : Type :=
| File (st : stat_result) (data : string)
| Dir (writable : bool) (entries : list (string * node)).

Module Fs.

Fixpoint find_entry (name : string) (es : list (string * node)) : option node :=
  match es with
  | [] => None
  | (k, n) :: es' => if String.eqb k name then Some n else find_entry name es'
  end.

(** Replace the entry called [name], or add it after the others. *)
Fixpoint set_entry (name : string) (n : node) (es : list (string * node))
  : list (string * node) :=
  match es with
  | [] => [(name, n)]
  | (k, m) :: es' =>
      if String.eqb k name then (k, n) :: es' else (k, m) :: set_entry name n es'
  end.

Fixpoint remove_entry (name : string) (es : list (string * node))
  : list (string * node) :=
  match es with
  | [] => []
  | (k, m) :: es' =>
      if String.eqb k name then es' else (k, m) :: remove_entry name es'
  end.

Fixpoint lookup (fs : node) (p : path) : option node :=
  match p with
  | [] => Some fs
  | c :: p' =>
      match fs with
      | Dir _ es =>
          match find_entry c es with
          | Some n => lookup n p'
          | None => None
          end
      | File _ _ => None
      end
  end.

Definition exists_ (fs : node) (p : path) : bool :=
  match lookup fs p with Some _ => true | None => false end.

Definition is_dir (fs : node) (p : path) : bool :=
  match lookup fs p with Some (Dir _ _) => true | _ => false end.

Definition is_file (fs : node) (p : path) : bool :=
  match lookup fs p with Some (File _ _) => true | _ => false end.

Definition is_dir_node (n : node) : bool :=
  match n with Dir _ _ => true | File _ _ => false end.

(** Longest chain of nested directories. *)
Fixpoint height (n : node) : nat :=
  match n with
  | File _ _ => 0
  | Dir _ es => S (list_max (map (fun e => height (snd e)) es))
  end.

(** Run [f] on the directory at [p] (its permission bit and entries) and
    store the entries it returns.  The error for a missing component is
    [FileNotFoundError], for a component that is a regular file
    [NotADirectoryError]. *)
Fixpoint alter_dir (f : bool -> list (string * node) -> res (list (string * node)))
         (fs : node) (p : path) : res node :=
  match fs with
  | File _ _ => Raise NotADirectoryError
  | Dir w es =>
      match p with
      | [] =>
          match f w es with
          | Ok es' => Ok (Dir w es')
          | Raise e => Raise e
          end
      | c :: p' =>
          match find_entry c es with
          | None => Raise FileNotFoundError
          | Some n =>
              match alter_dir f n p' with
              | Ok n' => Ok (Dir w (set_entry c n' es))
              | Raise e => Raise e
              end
          end
      end
  end.

(** [os.stat(p)] for a regular file.  Directories carry no time stamps in
    the model; the programs only stat names that [os.walk] lists as
    non-directories. *)
Definition os_stat (fs : node) (p : path) : res stat_result :=
  match lookup fs p with
  | Some (File st _) => Ok st
  | Some (Dir _ _) => Raise IsADirectoryError
  | None => Raise FileNotFoundError
  end.

(** [os.listdir(p)]. *)
Definition os_listdir (fs : node) (p : path) : res (list string) :=
  match lookup fs p with
  | Some (Dir _ es) => Ok (map fst es)
  | Some (File _ _) => Raise NotADirectoryError
  | None => Raise FileNotFoundError
  end.

(** [os.scandir(p)] as [os.walk] uses it: the names of the directories and
    of the other entries, each in listing order. *)
Definition scandir (fs : node) (p : path) : res (list string * list string) :=
  match lookup fs p with
  | Some (Dir _ es) =>
      Ok (map fst (filter (fun e => is_dir_node (snd e)) es),
          map fst (filter (fun e => negb (is_dir_node (snd e))) es))
  | Some (File _ _) => Raise NotADirectoryError
  | None => Raise FileNotFoundError
  end.

(** [os.rmdir(p)]. *)
Definition os_rmdir (fs : node) (p : path) : res node :=
  match p with
  | [] => Raise DeviceBusy
  | _ :: _ =>
      alter_dir
        (fun w es =>
           match find_entry (Path.name p) es with
           | None => Raise FileNotFoundError
           | Some (File _ _) => Raise NotADirectoryError
           | Some (Dir _ (_ :: _)) => Raise DirectoryNotEmpty
           | Some (Dir _ []) =>
               if w then Ok (remove_entry (Path.name p) es) else Raise PermissionError
           end)
        fs (Path.parent p)
  end.

(** [os.unlink(p)]. *)
Definition os_unlink (fs : node) (p : path) : res node :=
  match p with
  | [] => Raise IsADirectoryError
  | _ :: _ =>
      alter_dir
        (fun w es =>
           match find_entry (Path.name p) es with
           | None => Raise FileNotFoundError
           | Some (Dir _ _) => Raise IsADirectoryError
           | Some (File _ _) =>
               if w then Ok (remove_entry (Path.name p) es) else Raise PermissionError
           end)
        fs (Path.parent p)
  end.

(** Create the regular file [p] or replace its contents: what opening [p]
    for writing and filling it does.  A new entry needs the directory's
    permission, an existing file is rewritten in place. *)
Definition write_file (fs : node) (p : path) (st : stat_result) (data : string)
  : res node :=
  match p with
  | [] => Raise IsADirectoryError
  | _ :: _ =>
      alter_dir
        (fun w es =>
           match find_entry (Path.name p) es with
           | Some (Dir _ _) => Raise IsADirectoryError
           | Some (File _ _) => Ok (set_entry (Path.name p) (File st data) es)
           | None =>
               if w then Ok (set_entry (Path.name p) (File st data) es)
               else Raise PermissionError
           end)
        fs (Path.parent p)
  end.

(** [os.rename(src, dst)] for a regular file [src]: the entry moves with its
    contents and time stamps, replacing a regular file at [dst]; both
    directories must allow the change.  Renaming a file to itself does
    nothing.  (The programs never pass a directory as [src]; the model
    refuses one.) *)
Definition os_rename (fs : node) (src dst : path) : res node :=
  match lookup fs src with
  | None => Raise FileNotFoundError
  | Some (Dir _ _) => Raise IsADirectoryError
  | Some (File st data) =>
      if Path.eqb src dst then Ok fs
      else
        match dst with
        | [] => Raise IsADirectoryError
        | _ :: _ =>
            match
              alter_dir
                (fun w es =>
                   match find_entry (Path.name dst) es with
                   | Some (Dir _ _) => Raise IsADirectoryError
                   | _ =>
                       if w then Ok (set_entry (Path.name dst) (File st data) es)
                       else Raise PermissionError
                   end)
                fs (Path.parent dst)
            with
            | Raise e => Raise e
            | Ok fs1 =>
                match os_unlink fs1 src with
                | Ok fs2 => Ok fs2
                | Raise e => Raise e
                end
            end
        end
  end.

(** [Path(p).mkdir(parents=True, exist_ok=True)]: walk down [p], creating
    what is missing; an existing directory is accepted, a regular file in
    the way is an error. *)
Fixpoint new_dirs (p : path) : node :=
  match p with
  | [] => Dir true []
  | c :: p' => Dir true [(c, new_dirs p')]
  end.

Fixpoint mkdir_p (fs : node) (p : path) : res node :=
  match p with
  | [] =>
      match fs with
      | Dir _ _ => Ok fs
      | File _ _ => Raise FileExistsError
      end
  | c :: p' =>
      match fs with
      | File _ _ => Raise NotADirectoryError
      | Dir w es =>
          match find_entry c es with
          | Some n =>
              match mkdir_p n p' with
              | Ok n' => Ok (Dir w (set_entry c n' es))
              | Raise e => Raise e
              end
          | None =>
              if w then Ok (Dir w (set_entry c (new_dirs p') es))
              else Raise PermissionError
          end
      end
  end.

End Fs.

(** ** Output and the state of a run *)

Inductive message : Type :=
| DoesNotExist (source_dir : path)        (* "Error: Directory '...' does not exist." *)
| NotADirectory (source_dir : path)       (* "Error: '...' is not a directory." *)
| Organizing (source_path : path)         (* "Organizing files in: ..." *)
| DryRunBanner                            (* "DRY RUN: No files will be moved" *)
| SkippingYearDir (dir_name : string)     (* "Skipping year directory: ..." *)
| Found (n : nat)                         (* "Found n files to process" *)
| Moving (src dst : path)                 (* "Moving: ... -> ..." *)
| WouldMove (src dst : path)              (* "[Dry Run] Would move: ... -> ..." *)
| CreationDateError (file_path : path) (e : exn)
                                          (* "Error getting creation date for ...: e" *)
| ProcessingError (file_path : path) (e : exn)
                                          (* "Error processing ...: e" *)
| Completed                               (* "Completed!" *)
| JobCompleted                            (* "Job completed!" *)
| FilesProcessed (n : nat)                (* "Files processed: n" *)
| ErrorsEncountered (n : nat)             (* "Errors encountered: n" *)
| RemovingEmptyDir (rel : path).          (* "Removing empty directory: ..." *)

(** [print(m)] writes to standard output, [print(m, file=sys.stderr)] to
    standard error. *)
Inductive line : Type :=
| Out (m : message)
| Err (m : message).

Record world : Type := {
  fs : node;
  out : list line
}.

Definition print (l : line) (w : world) : world :=
  {| fs := fs w; out := out w ++ [l] |}.

Definition set_fs (w : world) (fs' : node) : world :=
  {| fs := fs'; out := out w |}.

(** ** Code that may raise: a state and exception monad

    A computation takes the state, returns a value or raises, and hands on
    the state it has reached: what was done before an exception stays done. *)

Definition M (S A : Type) : Type := S -> res A * S.

Definition ret {S A : Type} (a : A) : M S A := fun s => (Ok a, s).

Definition raise {S A : Type} (e : exn) : M S A := fun s => (Raise e, s).

Definition bind {S A B : Type} (m : M S A) (k : A -> M S B) : M S B :=
  fun s =>
    match m s with
    | (Ok a, s') => k a s'
    | (Raise e, s') => (Raise e, s')
    end.

Declare Scope py_scope.
Delimit Scope py_scope with py.
Notation "x <- m ;; k" := (bind m (fun x => k))
  (at level 61, m at next level, right associativity) : py_scope.
Notation "m ;;; k" := (bind m (fun _ => k))
  (at level 61, right associativity) : py_scope.

(** A value or exception that does not depend on the state. *)
Definition of_res {S A : Type} (r : res A) : M S A := fun s => (r, s).

(** A system call: it changes the tree or fails and leaves it as it was. *)
Definition syscall (f : node -> res node) : M node unit :=
  fun t =>
    match f t with
    | Ok t' => (Ok tt, t')
    | Raise e => (Raise e, t)
    end.

(** Run file-system code inside a run. *)
Definition on_fs {A : Type} (m : M node A) : M world A :=
  fun w => let '(r, t) := m (fs w) in (r, set_fs w t).

Definition say (l : line) : M world unit := fun w => (Ok tt, print l w).

(** ** shutil *)

Module Shutil.

(** [shutil.copy2(src, dst)]: into [dst] when it is a directory; the copy
    has the contents and the time stamps of [src] and replaces a regular
    file that is there. *)
Definition copy2 (src dst : path) : M node path :=
  fun t =>
    let dst := if Fs.is_dir t dst then dst ++ [Path.name src] else dst in
    if Fs.exists_ t dst && Path.eqb src dst then (Raise SameFileError, t)
    else
      match Fs.lookup t src with
      | None => (Raise FileNotFoundError, t)
      | Some (Dir _ _) => (Raise IsADirectoryError, t)
      | Some (File st data) =>
          match Fs.write_file t dst st data with
          | Ok t' => (Ok dst, t')
          | Raise e => (Raise e, t)
          end
      end.

(** The tail of [shutil.move]: rename, and when the rename fails with an
    [OSError] copy the file and delete the source.  (Sources are regular
    files; for a directory the error of the rename is raised.) *)
Definition rename_or_copy (src real_dst : path) : M node path :=
  fun t =>
    match Fs.os_rename t src real_dst with
    | Ok t' => (Ok real_dst, t')
    | Raise e =>
        if is_OSError e then
          if Fs.is_dir t src then (Raise e, t)
          else
            (_ <- copy2 src real_dst ;;
             syscall (fun t => Fs.os_unlink t src) ;;;
             ret real_dst)%py t
        else (Raise e, t)
    end.

(** [shutil.move(src, dst)]. *)
Definition move (src dst : path) : M node path :=
  fun t =>
    if Fs.is_dir t dst then
      let real_dst := dst ++ [Path.name src] in
      if Fs.exists_ t real_dst then (Raise ShutilError, t)
      else rename_or_copy src real_dst t
    else rename_or_copy src dst t.

End Shutil.

(** ** os.walk

    [os.walk(top, topdown)] lists [top], and visits the sub-directories it
    has listed one after the other; the loop body runs on
    [(top, dirs, nondirs)] before the sub-directories ([topdown]) or after
    them.  A top-down body may take names out of [dirs]: it returns the
    list that is left.  Every directory is listed when the walk reaches it,
    in the state the run is in by then; a directory that cannot be listed
    is passed over.  [fuel] bounds the depth of the walk: [None] means the
    bound was too small, it is not an outcome of the program. *)

Section Walk.

Context {St : Type}.
Variable fs_of : St -> node.

Definition visitor : Type :=
  path -> list string -> list string -> St -> list string * St.

Fixpoint os_walk (fuel : nat) (topdown : bool) (body : visitor)
         (top : path) (st : St) : option St :=
  match Fs.scandir (fs_of st) top with
  | Raise _ => Some st
  | Ok (dirs, nondirs) =>
      match fuel with
      | O => None
      | S fuel' =>
          let descend (acc : option St) (d : string) :=
            match acc with
            | Some s => os_walk fuel' topdown body (top ++ [d]) s
            | None => None
            end in
          if topdown then
            let '(dirs', st1) := body top dirs nondirs st in
            fold_left descend dirs' (Some st1)
          else
            match fold_left descend dirs (Some st) with
            | Some st1 => Some (snd (body top dirs nondirs st1))
            | None => None
            end
      end
  end.

End Walk.

(** The Dater, the same in both programs: the birth time where the
    platform has one, the creation time on Windows, the modification time
    elsewhere; an exception is reported on standard error and raised
    again. *)
Definition creation_year (plat : platform) (file_path : path) : M world Z :=
  fun w =>
    let r :=
      match Fs.os_stat (fs w) file_path with
      | Raise e => Raise e
      | Ok stat_info =>
          let timestamp :=
            match st_birthtime stat_info with
            | Some t => t
            | None =>
                match plat with
                | Win32 => st_ctime stat_info
                | Posix => st_mtime stat_info
                end
            end in
          Py.fromtimestamp_year timestamp
      end in
    match r with
    | Ok y => (Ok y, w)
    | Raise e => (Raise e, print (Err (CreationDateError file_path e)) w)
    end.

(** The counters of a run, with the state it has reached. *)
Record progress : Type := {
  now : world;
  moved_count : nat;
  error_count : nat
}.

Inductive completion : Type :=
| Returned
| Exited (status : Z).

Definition exit_status (c : completion) : Z :=
  match c with
  | Returned => 0%Z
  | Exited n => n
  end.

(** ** disk_date_separator.py *)

Module DDS.

Definition get_file_creation_date := creation_year.

(** [d.isdigit() and len(d) == 4] *)
Definition is_year_name (d : string) : bool :=
  Py.isdigit d && (Py.len d =? 4)%nat.

(** [dirs.remove(d)]: the first occurrence goes. *)
Fixpoint list_remove (d : string) (dirs : list string) : list string :=
  match dirs with
  | [] => []
  | x :: dirs' => if String.eqb x d then dirs' else x :: list_remove d dirs'
  end.

(** The body of the collecting loop (lines 75-88); the state is the run
    and [files_to_process]. *)
Definition scan_body (source_path : path) (root : path)
           (dirs files : list string) (st : world * list path)
  : list string * (world * list path) :=
  let '(w, files_to_process) := st in
  let root_path := root in
  let '(dirs, w) :=
    if Path.eqb root_path source_path then
      let dirs_to_skip := filter is_year_name dirs in
      fold_left
        (fun '(dirs, w) dir_name =>
           (list_remove dir_name dirs, print (Out (SkippingYearDir dir_name)) w))
        dirs_to_skip (dirs, w)
    else (dirs, w) in
  (dirs,
   (w, fold_left (fun acc filename => acc ++ [root_path ++ [filename]])
                 files files_to_process)).

(** [source_path / str(year) / relative_path] (lines 106-107). *)
Definition new_file_path (source_path : path) (year : Z) (relative_path : path)
  : path :=
  (source_path ++ [Py.str year]) ++ relative_path.

(** How the [try] block of the processing loop ends when nothing is
    raised: at [continue], or after [moved_count += 1]. *)
Inductive ending : Type := Continue | Counted.

(** The [try] block (lines 98-122). *)
Definition try_block (plat : platform) (dry_run : bool)
           (source_path file_path : path) : M world ending :=
  (year <- get_file_creation_date plat file_path ;;
   relative_path <- of_res (Path.relative_to file_path source_path) ;;
   let new_path := new_file_path source_path year relative_path in
   if Path.eqb file_path new_path then ret Continue
   else
     say (Out (Moving relative_path (Py.str year :: relative_path))) ;;;
     (if negb dry_run then
        on_fs (syscall (fun t => Fs.mkdir_p t (Path.parent new_path))) ;;;
        _ <- on_fs (Shutil.move file_path new_path) ;;
        ret tt
      else ret tt) ;;;
     ret Counted)%py.

(** One turn of the processing loop (lines 96-126). *)
Definition process_file (plat : platform) (dry_run : bool)
           (source_path : path) (st : progress) (file_path : path) : progress :=
  match try_block plat dry_run source_path file_path (now st) with
  | (Ok Continue, w) =>
      {| now := w; moved_count := moved_count st; error_count := error_count st |}
  | (Ok Counted, w) =>
      {| now := w; moved_count := moved_count st + 1; error_count := error_count st |}
  | (Raise e, w) =>
      {| now := print (Err (ProcessingError file_path e)) w;
         moved_count := moved_count st;
         error_count := error_count st + 1 |}
  end.

(** The body of the loop of [cleanup_empty_dirs] (lines 146-160).  The
    walk only yields directories below [root_path], so [relative_to]
    cannot raise there; the model leaves the state alone if it does. *)
Definition cleanup_body (root_path : path) (root : path)
           (dirs files : list string) (w : world) : list string * world :=
  let root_dir := root in
  (dirs,
   if Path.eqb root_dir root_path then w
   else if Path.eqb (Path.parent root_dir) root_path
           && (Py.isdigit (Path.name root_dir) && (Py.len (Path.name root_dir) =? 4)%nat)
   then w
   else
     match Fs.os_listdir (fs w) root_dir with
     | Raise _ => w
     | Ok (_ :: _) => w
     | Ok [] =>
         match Path.relative_to root_dir root_path with
         | Raise _ => w
         | Ok rel =>
             let w := print (Out (RemovingEmptyDir rel)) w in
             match Fs.os_rmdir (fs w) root_dir with
             | Ok t => set_fs w t
             | Raise _ => w
             end
         end
     end).

Definition cleanup_empty_dirs (root_path : path) (w : world) : option world :=
  os_walk fs (Fs.height (fs w)) false (cleanup_body root_path) root_path w.

(** The collecting loop. *)
Definition collect (source_path : path) (w : world) : option (world * list path) :=
  os_walk (fun st => fs (fst st)) (Fs.height (fs w)) true
          (scan_body source_path) source_path (w, []).

(** The processing loop. *)
Definition process_all (plat : platform) (dry_run : bool) (source_path : path)
           (files_to_process : list path) (w : world) : progress :=
  fold_left (process_file plat dry_run source_path) files_to_process
            {| now := w; moved_count := 0; error_count := 0 |}.

Definition organize_files (plat : platform) (source_dir : path) (dry_run : bool)
           (w : world) : option (completion * world) :=
  let source_path := source_dir in
  if negb (Fs.exists_ (fs w) source_path) then
    Some (Exited 1, print (Err (DoesNotExist source_dir)) w)
  else if negb (Fs.is_dir (fs w) source_path) then
    Some (Exited 1, print (Err (NotADirectory source_dir)) w)
  else
    let w := print (Out (Organizing source_path)) w in
    let w := if dry_run then print (Out DryRunBanner) w else w in
    match collect source_path w with
    | None => None
    | Some (w, files_to_process) =>
        let w := print (Out (Found (List.length files_to_process))) w in
        let st := process_all plat dry_run source_path files_to_process w in
        let w := print (Out Completed) (now st) in
        let w := print (Out (FilesProcessed (moved_count st))) w in
        let w :=
          if (0 <? error_count st)%nat
          then print (Out (ErrorsEncountered (error_count st))) w else w in
        if negb dry_run then
          match cleanup_empty_dirs source_path w with
          | Some w => Some (Returned, w)
          | None => None
          end
        else Some (Returned, w)
    end.

(** [main]: the exit status and the state the process leaves. *)
Definition main (plat : platform) (directory : path) (dry_run : bool)
           (w : world) : option (Z * world) :=
  match organize_files plat directory dry_run w with
  | Some (c, w) => Some (exit_status c, w)
  | None => None
  end.

End DDS.

(** ** folder_year_organiser.py *)

Module FYO.

Definition file_creation_date := creation_year.

(** [source_path.parent / str(year) / relative_path] (line 80). *)
Definition new_file_path (source_path : path) (year : Z) (relative_path : path)
  : path :=
  (Path.parent source_path ++ [Py.str year]) ++ relative_path.

(** The two status lines print the paths whole or relative to the parent
    of the source directory. *)
Definition shown (full_path : bool) (source_path p : path) : M world path :=
  if full_path then ret p
  else of_res (Path.relative_to p (Path.parent source_path)).

(** The [try] block (lines 73-103); [true] when [moved_count += 1] was
    reached. *)
Definition try_block (plat : platform) (copy dry_run full_path : bool)
           (source_path file_path : path) : M world bool :=
  (year <- file_creation_date plat file_path ;;
   relative_path <- of_res (Path.relative_to file_path (Path.parent source_path)) ;;
   let new_path := new_file_path source_path year relative_path in
   if negb dry_run then
     a <- shown full_path source_path file_path ;;
     b <- shown full_path source_path new_path ;;
     say (Out (Moving a b)) ;;;
     on_fs (syscall (fun t => Fs.mkdir_p t (Path.parent new_path))) ;;;
     _ <- (if copy then on_fs (Shutil.copy2 file_path new_path)
           else on_fs (Shutil.move file_path new_path)) ;;
     ret true
   else
     a <- shown full_path source_path file_path ;;
     b <- shown full_path source_path new_path ;;
     say (Out (WouldMove a b)) ;;;
     ret false)%py.

(** One turn of the inner loop (lines 69-107).  The error line goes to
    standard output here. *)
Definition process_file (plat : platform) (copy dry_run full_path : bool)
           (source_path root_path : path) (st : progress) (filename : string)
  : progress :=
  let file_path := root_path ++ [filename] in
  match try_block plat copy dry_run full_path source_path file_path (now st) with
  | (Ok true, w) =>
      {| now := w; moved_count := moved_count st + 1; error_count := error_count st |}
  | (Ok false, w) =>
      {| now := w; moved_count := moved_count st; error_count := error_count st |}
  | (Raise e, w) =>
      {| now := print (Out (ProcessingError file_path e)) w;
         moved_count := moved_count st;
         error_count := error_count st + 1 |}
  end.

(** The body of the outer loop (lines 66-107). *)
Definition walk_body (plat : platform) (copy dry_run full_path : bool)
           (source_path : path) (root : path) (dirs files : list string)
           (st : progress) : list string * progress :=
  (dirs, fold_left (process_file plat copy dry_run full_path source_path root) files st).

(** [move_files]: the counters it returns, and the state it leaves. *)
Definition move_files (fuel : nat) (plat : platform) (source_dir : path)
           (copy dry_run full_path : bool) (w : world) : option progress :=
  let source_path := source_dir in
  os_walk (fun st => fs (now st)) fuel true
          (walk_body plat copy dry_run full_path source_path) source_dir
          {| now := w; moved_count := 0; error_count := 0 |}.

(** The script: exit status and final state. *)
Definition main (fuel : nat) (plat : platform) (directory : path)
           (copy dry_run full_path : bool) (w : world) : option (Z * world) :=
  match move_files fuel plat directory copy dry_run full_path w with
  | None => None
  | Some st =>
      let w := print (Out JobCompleted) (now st) in
      let w := print (Out (FilesProcessed (moved_count st))) w in
      let w :=
        if (0 <? error_count st)%nat
        then print (Out (ErrorsEncountered (error_count st))) w else w in
      Some (0%Z, w)
  end.

End FYO.

(** * The vocabulary of the properties

    Well-formed trees, the files that a walk finds, what one step leaves
    behind, and the example trees. *)

Fixpoint nodupb (l : list string) : bool :=
  match l with
  | [] => true
  | x :: l' => negb (existsb (String.eqb x) l') && nodupb l'
  end.

(** A tree is well formed when no directory lists a name twice. *)
Fixpoint wf (n : node) : bool :=
  match n with
  | File _ _ => true
  | Dir _ es => nodupb (map fst es) && forallb (fun e => wf (snd e)) es
  end.

Section NodeInduction.

Variable P : node -> Prop.
Hypothesis P_file : forall st data, P (File st data).
Hypothesis P_dir :
  forall w es, Forall (fun e => P (snd e)) es -> P (Dir w es).

Fixpoint node_induction (n : node) : P n :=
  match n with
  | File st data => P_file st data
  | Dir w es =>
      P_dir w es
        ((fix all (l : list (string * node)) : Forall (fun e => P (snd e)) l :=
            match l with
            | [] => Forall_nil _
            | e :: l' => Forall_cons e (node_induction (snd e)) (all l')
            end) es)
  end.

End NodeInduction.

Definition height_at (t : node) (p : path) : nat :=
  match Fs.lookup t p with
  | Some n => Fs.height n
  | None => 0
  end.

(** [graft t p n'] is [t] with the node at [p] replaced by [n']. *)
Fixpoint graft (t : node) (p : path) (n' : node) : node :=
  match p with
  | [] => n'
  | c :: p' =>
      match t with
      | File _ _ => t
      | Dir w es =>
          match Fs.find_entry c es with
          | Some n => Dir w (Fs.set_entry c (graft n p' n') es)
          | None => t
          end
      end
  end.

(** A path that does not pass through [p] sees the same node after a graft
    at [p], unless it leads to [p]; then it sees a directory before and
    after. *)
Definition is_prefix (p q : path) : Prop := exists r, q = p ++ r.

(** The permission bit of the directory at [q], if there is one. *)
Definition dir_flag (t : node) (q : path) : option bool :=
  match Fs.lookup t q with
  | Some (Dir v _) => Some v
  | _ => None
  end.

Record file_step (t t2 : node) : Prop := {
  step_wf : wf t = true -> wf t2 = true;
  step_dirs : forall q v, dir_flag t q = Some v -> dir_flag t2 q = Some v
}.

(** What a successful transfer of a regular file leaves behind: the file
    is at [rd] with its contents and time stamps, every other regular file
    is one that was there before, and directories stay. *)
Record transferred (t : node) (src rd : path) (t2 : node) : Prop := {
  tr_source : exists st data, Fs.lookup t src = Some (File st data)
                              /\ Fs.lookup t2 rd = Some (File st data);
  tr_step : file_step t t2;
  tr_files : forall q st data,
      Fs.lookup t2 q = Some (File st data) ->
      (q = rd /\ Fs.lookup t src = Some (File st data))
      \/ (q <> src /\ Fs.lookup t q = Some (File st data))
}.

(** The regular files below a directory, in the order of a top-down walk. *)
Fixpoint walk_files (root : path) (n : node) : list path :=
  match n with
  | File _ _ => []
  | Dir _ es =>
      map (fun e => root ++ [fst e]) (filter (fun e => negb (Fs.is_dir_node (snd e))) es)
      ++ flat_map (fun e => walk_files (root ++ [fst e]) (snd e)) es
  end.

(** The same below the source directory, leaving out what is inside a
    year directory at the top. *)
Definition top_files (source_path : path) (n : node) : list path :=
  match n with
  | File _ _ => []
  | Dir _ es =>
      map (fun e => source_path ++ [fst e])
          (filter (fun e => negb (Fs.is_dir_node (snd e))) es)
      ++ flat_map (fun e => if DDS.is_year_name (fst e) then []
                            else walk_files (source_path ++ [fst e]) (snd e)) es
  end.

Definition year_dirs (n : node) : list string :=
  match n with
  | File _ _ => []
  | Dir _ es =>
      filter DDS.is_year_name (map fst (filter (fun e => Fs.is_dir_node (snd e)) es))
  end.

(** A path, relative to the source directory, that lies inside a year
    directory at the top. *)
Definition pruned (rel : path) : bool :=
  match rel with
  | d :: _ :: _ => DDS.is_year_name d
  | _ => false
  end.

(** The example of the specification: [photos/a.jpg] of 2020 and
    [photos/sub/b.jpg] of 2021. *)
Definition stamp (t : Z) : stat_result :=
  {| st_birthtime := None; st_ctime := t; st_mtime := t |}.

Definition photos_tree : node :=
  Dir true
    [("photos",
      Dir true
        [("a.jpg", File (stamp 1577836800) "a");
         ("sub", Dir true [("b.jpg", File (stamp 1609459200) "b")])])].

Definition photos : world := {| fs := photos_tree; out := [] |}.

(** Directories that [cleanup_empty_dirs] never removes, by their path
    relative to the root of the pass: the root, and a year directory
    directly below it. *)
Definition excluded (rel : path) : bool :=
  match rel with
  | [] => true
  | [d] => DDS.is_year_name d
  | _ => false
  end.

(** A directory that the pass removes when it reaches it: empty, not
    excluded, in a directory that allows the removal. *)
Definition removable (rel : path) (parent_writable : bool) (c : node) : bool :=
  match c with
  | Dir _ [] => parent_writable && negb (excluded rel)
  | _ => false
  end.

(** The tree below a directory once the pass has gone through it. *)
Fixpoint clean (rel : path) (n : node) : node :=
  match n with
  | File _ _ => n
  | Dir v es =>
      Dir v (flat_map
               (fun e =>
                  if removable (rel ++ [fst e]) v (clean (rel ++ [fst e]) (snd e))
                  then []
                  else [(fst e, clean (rel ++ [fst e]) (snd e))])
               es)
  end.

(** What one turn of the loop does to the tree. *)
Definition cleanup_fs (root_path top : path) (t : node) : node :=
  fs (snd (DDS.cleanup_body root_path top [] [] {| fs := t; out := [] |})).

Definition removal_lines (rels : list path) : list line :=
  map (fun rel => Out (RemovingEmptyDir rel)) rels.

(** A directory with nothing in it. *)
Definition empty_dir (c : node) : bool :=
  match c with
  | Dir _ [] => true
  | _ => false
  end.

(** The directories below [n] for which the pass prints its line, in the
    order of the pass: those that are not excluded and are empty when the
    pass reaches them, after it has gone through their sub-directories. *)
Fixpoint announced (rel : path) (n : node) : list path :=
  match n with
  | File _ _ => []
  | Dir _ es =>
      flat_map
        (fun e =>
           announced (rel ++ [fst e]) (snd e)
           ++ (if empty_dir (clean (rel ++ [fst e]) (snd e))
                  && negb (excluded (rel ++ [fst e]))
               then [rel ++ [fst e]]
               else []))
        es
  end.

(** What one turn of the loop prints. *)
Definition cleanup_out (root_path top : path) (t : node) : list line :=
  out (snd (DDS.cleanup_body root_path top [] [] {| fs := t; out := [] |})).

(** What holds of the run at every point of the pass, relative to the
    state [w] it started in. *)
Record cleanup_keeps (root_path : path) (w w' : world) : Prop := {
  keeps_wf : wf (fs w') = true;
  keeps_files : forall q st data,
      Fs.lookup (fs w) q = Some (File st data) ->
      Fs.lookup (fs w') q = Some (File st data);
  keeps_no_new_files : forall q st data,
      Fs.lookup (fs w') q = Some (File st data) ->
      Fs.lookup (fs w) q = Some (File st data);
  keeps_excluded : forall rel v,
      excluded rel = true ->
      dir_flag (fs w) (root_path ++ rel) = Some v ->
      dir_flag (fs w') (root_path ++ rel) = Some v;
  keeps_output : exists rels, out w' = out w ++ removal_lines rels
}.

(** A directory whose contents may not change, holding an empty
    directory. *)
Definition locked_tree : node :=
  Dir true [("src", Dir false [("empty", Dir true [])])].

Definition locked : world := {| fs := locked_tree; out := [] |}.

(** The lines before the processing loop, and the summary after it. *)
Definition DDS_banner (source_path : path) (dry_run : bool) (w : world) : world :=
  let w := print (Out (Organizing source_path)) w in
  if dry_run then print (Out DryRunBanner) w else w.

Definition DDS_summary (st : progress) : world :=
  let w := print (Out Completed) (now st) in
  let w := print (Out (FilesProcessed (moved_count st))) w in
  if (0 <? error_count st)%nat
  then print (Out (ErrorsEncountered (error_count st))) w else w.

(** The state in which the processing loop starts. *)
Definition DDS_scanned (source_path : path) (dry_run : bool) (w : world)
           (n : node) : world :=
  print (Out (Found (List.length (top_files source_path n))))
        {| fs := fs w;
           out := out (DDS_banner source_path dry_run w)
                  ++ map (fun d => Out (SkippingYearDir d)) (year_dirs n) |}.

(** The lines that the processing loop of [organize_files] prints for the
    file [f]. *)
Inductive file_line (source_path f : path) : line -> Prop :=
| line_date (e : exn) : file_line source_path f (Err (CreationDateError f e))
| line_moving (rel dst : path) :
    f = source_path ++ rel -> file_line source_path f (Out (Moving rel dst))
| line_error (e : exn) : file_line source_path f (Err (ProcessingError f e)).

(** A source directory named after the year of the file in it, with a
    directory of that name inside. *)
Definition nested_tree : node :=
  Dir true
    [("2020", Dir true [("a.jpg", File (stamp 1577836800) "a"); ("2020", Dir true [])])].

Definition nested : world := {| fs := nested_tree; out := [] |}.

(** Exactly four ASCII digits. *)
Definition four_ascii_digits (d : string) : bool :=
  (String.length d =? 4)%nat && forallb Py.is_ascii_digit (list_ascii_of_string d).

(** The source directory holds a year directory with a file in it. *)
Definition sorted_tree : node :=
  Dir true
    [("photos", Dir true [("2020", Dir true [("a.jpg", File (stamp 1577836800) "a")])])].

Definition sorted : world := {| fs := sorted_tree; out := [] |}.

(** Two files, of which the first goes where the second is. *)
Definition taken_tree : node :=
  Dir true
    [("photos",
      Dir true
        [("a.jpg", File (stamp 1577836800) "new");
         ("2020", Dir true [("a.jpg", File (stamp 1262304000) "old")])])].

Definition taken : progress :=
  {| now := {| fs := taken_tree; out := [] |}; moved_count := 0; error_count := 0 |}.

(** The same two files in a source directory whose entries may not be
    changed. *)
Definition kept_tree : node :=
  Dir true
    [("photos",
      Dir false
        [("a.jpg", File (stamp 1577836800) "new");
         ("2020", Dir true [("a.jpg", File (stamp 1262304000) "old")])])].

Definition kept : progress :=
  {| now := {| fs := kept_tree; out := [] |}; moved_count := 0; error_count := 0 |}.



(** The diagnostic of the processing loop of [organize_files]. *)
Definition is_error_line (l : line) : bool :=
  match l with
  | Err (ProcessingError _ _) => true
  | _ => false
  end.

(** The year of a file, from what [os.stat] reports. *)
Definition year_of_stat (plat : platform) (stat_info : stat_result) : res Z :=
  Py.fromtimestamp_year
    match st_birthtime stat_info with
    | Some t => t
    | None =>
        match plat with
        | Win32 => st_ctime stat_info
        | Posix => st_mtime stat_info
        end
    end.

(** A file that the collecting walk of [organize_files] would pick up. *)
Definition collectable (source_path : path) (t : node) (q : path) : Prop :=
  exists rel,
    rel <> [] /\ q = source_path ++ rel /\ Fs.is_file t q = true /\ pruned rel = false.

(** The years of the listed files have four digits. *)
Definition four_digit_years (plat : platform) (t : node) (files : list path) : bool :=
  forallb
    (fun f =>
       match Fs.lookup t f with
       | Some (File s _) =>
           match year_of_stat plat s with
           | Ok y => (1000 <=? y)%Z
           | Raise _ => true
           end
       | _ => true
       end)
    files.

(** What the processing loop keeps, as long as nothing fails: the files
    that a walk would still pick up are among those left to process, and
    their years have four digits. *)
Record sorting (plat : platform) (source_path : path) (t : node)
       (remaining : list path) : Prop := {
  so_wf : wf t = true;
  so_dir : Fs.is_dir t source_path = true;
  so_left : forall q, collectable source_path t q -> In q remaining;
  so_paths : forall q, In q remaining ->
                       exists rel, q = source_path ++ rel /\ pruned rel = false;
  so_years : forall q s data y,
      collectable source_path t q ->
      Fs.lookup t q = Some (File s data) ->
      year_of_stat plat s = Ok y -> (1000 <= y)%Z
}.

(** A file called [2020] stands where the year directory of [a.jpg] has to
    be made. *)
Definition blocked_tree : node :=
  Dir true
    [("photos",
      Dir true
        [("a.jpg", File (stamp 1577836800) "a");
         ("2020", File (stamp 1609459200) "b")])].

Definition blocked : world := {| fs := blocked_tree; out := [] |}.

(** [move_files] on a directory that is named after the year of its file:
    every run moves the file one directory further down. *)
Definition year_named_tree : node :=
  Dir true [("2020", Dir true [("a.jpg", File (stamp 1577836800) "a")])].

(** A file of the year 999. *)
Definition old_tree : node :=
  Dir true [("photos", Dir true [("a.jpg", File (stamp (-30610224001)) "a")])].

(** * Properties *)

(** ** Lists, names and paths *)

Lemma path_eqb_eq (p q : path) : Path.eqb p q = true <-> p = q.
Proof.
  unfold Path.eqb. destruct (list_eq_dec string_dec p q); split; congruence.
Qed.

Lemma path_eqb_refl (p : path) : Path.eqb p p = true.
Proof. now apply path_eqb_eq. Qed.

Lemma path_eqb_neq (p q : path) : Path.eqb p q = false <-> p <> q.
Proof.
  unfold Path.eqb. destruct (list_eq_dec string_dec p q); split; congruence.
Qed.

Lemma parent_snoc (p : path) (c : string) : Path.parent (p ++ [c]) = p.
Proof. apply removelast_last. Qed.

Lemma name_snoc (p : path) (c : string) : Path.name (p ++ [c]) = c.
Proof. apply last_last. Qed.

Lemma path_split_last (p : path) :
  p <> [] -> p = Path.parent p ++ [Path.name p].
Proof. intro H. now apply app_removelast_last. Qed.

Lemma relative_to_app (anchor rel : path) :
  Path.relative_to (anchor ++ rel) anchor = Ok rel.
Proof.
  induction anchor as [|c anchor IH]; simpl; [reflexivity|].
  now rewrite String.eqb_refl.
Qed.

Lemma relative_to_inv (p other rel : path) :
  Path.relative_to p other = Ok rel -> p = other ++ rel.
Proof.
  revert p. induction other as [|o other IH]; simpl; intros p H.
  - congruence.
  - destruct p as [|c p]; [discriminate|].
    destruct (String.eqb_spec o c); [|discriminate].
    subst. f_equal. now apply IH.
Qed.

(** A list is never one element longer than itself. *)
Lemma app_cons_neq {A : Type} (l r : list A) (x : A) : l ++ r <> (l ++ [x]) ++ r.
Proof.
  intro H. apply (f_equal (@List.length A)) in H.
  rewrite !length_app in H. simpl in H. lia.
Qed.

(** ** Directory entries *)

Lemma existsb_eqb_In (x : string) (l : list string) :
  existsb (String.eqb x) l = true <-> In x l.
Proof.
  rewrite existsb_exists. split.
  - intros [y [Hy E]]. apply String.eqb_eq in E. now subst.
  - intro H. exists x. split; [assumption | apply String.eqb_refl].
Qed.

Lemma nodupb_NoDup (l : list string) : nodupb l = true <-> NoDup l.
Proof.
  induction l as [|x l IH]; simpl.
  - split; [constructor | reflexivity].
  - rewrite andb_true_iff, negb_true_iff, IH. split.
    + intros [H1 H2]. constructor; [|assumption].
      intro Hin. apply existsb_eqb_In in Hin. congruence.
    + intro H. inversion H as [|? ? Hn Hd]; subst. split; [|assumption].
      destruct (existsb (String.eqb x) l) eqn:E; [|reflexivity].
      apply existsb_eqb_In in E. contradiction.
Qed.

Lemma find_entry_In (c : string) (es : list (string * node)) (n : node) :
  Fs.find_entry c es = Some n -> In (c, n) es.
Proof.
  induction es as [|[k m] es IH]; simpl; [discriminate|].
  destruct (String.eqb_spec k c); intro H.
  - injection H as ->. subst. now left.
  - right. now apply IH.
Qed.

Lemma find_entry_None (c : string) (es : list (string * node)) :
  Fs.find_entry c es = None <-> ~ In c (map fst es).
Proof.
  induction es as [|[k m] es IH]; simpl.
  - tauto.
  - destruct (String.eqb_spec k c); split; intro H.
    + discriminate.
    + exfalso. apply H. now left.
    + intros [E | Hin]; [contradiction|]. now apply IH.
    + apply IH. tauto.
Qed.

Lemma In_find_entry (c : string) (es : list (string * node)) (n : node) :
  NoDup (map fst es) -> In (c, n) es -> Fs.find_entry c es = Some n.
Proof.
  induction es as [|[k m] es IH]; simpl; [tauto|].
  intros Hnd [E | Hin]; inversion Hnd as [|? ? Hk Hd]; subst.
  - injection E as -> ->. now rewrite String.eqb_refl.
  - destruct (String.eqb_spec k c) as [->|].
    + exfalso. apply Hk. change c with (fst (c, n)). now apply in_map.
    + now apply IH.
Qed.

Lemma find_set_same (c : string) (n : node) (es : list (string * node)) :
  Fs.find_entry c (Fs.set_entry c n es) = Some n.
Proof.
  induction es as [|[k m] es IH]; simpl.
  - now rewrite String.eqb_refl.
  - destruct (String.eqb_spec k c) as [->|Hne]; simpl.
    + now rewrite String.eqb_refl.
    + destruct (String.eqb_spec k c); [contradiction | assumption].
Qed.

Lemma find_set_other (c d : string) (n : node) (es : list (string * node)) :
  c <> d -> Fs.find_entry d (Fs.set_entry c n es) = Fs.find_entry d es.
Proof.
  intro Hne. induction es as [|[k m] es IH]; simpl.
  - destruct (String.eqb_spec c d); [contradiction | reflexivity].
  - destruct (String.eqb_spec k c) as [->|Hkc]; simpl.
    + destruct (String.eqb_spec c d); [contradiction | reflexivity].
    + destruct (String.eqb_spec k d); [reflexivity | assumption].
Qed.

Lemma set_entry_same (c : string) (n : node) (es : list (string * node)) :
  Fs.find_entry c es = Some n -> Fs.set_entry c n es = es.
Proof.
  induction es as [|[k m] es IH]; simpl; [discriminate|].
  destruct (String.eqb_spec k c) as [->|Hkc]; intro H.
  - now injection H as ->.
  - f_equal. now apply IH.
Qed.

Lemma find_remove_other (c d : string) (es : list (string * node)) :
  c <> d -> Fs.find_entry d (Fs.remove_entry c es) = Fs.find_entry d es.
Proof.
  intro Hne. induction es as [|[k m] es IH]; simpl; [reflexivity|].
  destruct (String.eqb_spec k c) as [->|Hkc]; simpl.
  - destruct (String.eqb_spec c d); [contradiction | reflexivity].
  - destruct (String.eqb_spec k d); [reflexivity | assumption].
Qed.

Lemma map_fst_remove_incl (c : string) (es : list (string * node)) :
  incl (map fst (Fs.remove_entry c es)) (map fst es).
Proof.
  induction es as [|[k m] es IH]; simpl; [apply incl_refl|].
  destruct (String.eqb k c).
  - apply incl_tl, incl_refl.
  - simpl. intros x [E | Hin]; [now left | right; now apply IH].
Qed.

Lemma find_remove_same (c : string) (es : list (string * node)) :
  NoDup (map fst es) -> Fs.find_entry c (Fs.remove_entry c es) = None.
Proof.
  induction es as [|[k m] es IH]; simpl; [reflexivity|].
  intro Hnd. inversion Hnd as [|? ? Hk Hd]; subst.
  destruct (String.eqb_spec k c) as [->|Hkc]; simpl.
  - now apply find_entry_None.
  - destruct (String.eqb_spec k c); [contradiction | now apply IH].
Qed.

Lemma NoDup_remove_entry (c : string) (es : list (string * node)) :
  NoDup (map fst es) -> NoDup (map fst (Fs.remove_entry c es)).
Proof.
  induction es as [|[k m] es IH]; simpl; [trivial|].
  intro Hnd. inversion Hnd as [|? ? Hk Hd]; subst.
  destruct (String.eqb k c); [assumption|].
  simpl. constructor; [|now apply IH].
  intro Hin. apply Hk. now apply (map_fst_remove_incl c es).
Qed.

Lemma map_fst_set_entry (c : string) (n : node) (es : list (string * node)) :
  map fst (Fs.set_entry c n es)
  = if existsb (String.eqb c) (map fst es) then map fst es else map fst es ++ [c].
Proof.
  induction es as [|[k m] es IH]; simpl; [reflexivity|].
  rewrite (String.eqb_sym c k).
  destruct (String.eqb k c); simpl; [reflexivity|].
  rewrite IH. now destruct (existsb (String.eqb c) (map fst es)).
Qed.

Lemma NoDup_set_entry (c : string) (n : node) (es : list (string * node)) :
  NoDup (map fst es) -> NoDup (map fst (Fs.set_entry c n es)).
Proof.
  intro Hnd. rewrite map_fst_set_entry.
  destruct (existsb (String.eqb c) (map fst es)) eqn:E; [assumption|].
  apply NoDup_app; [assumption | repeat constructor; simpl; tauto |].
  intros x Hx [<- | []].
  apply existsb_eqb_In in Hx. congruence.
Qed.

(** ** Looking paths up *)

Lemma lookup_app (t : node) (p q : path) :
  Fs.lookup t (p ++ q)
  = match Fs.lookup t p with
    | Some n => Fs.lookup n q
    | None => None
    end.
Proof.
  revert t. induction p as [|c p IH]; simpl; intro t; [reflexivity|].
  destruct t as [st data | w es]; [reflexivity|].
  destruct (Fs.find_entry c es); [apply IH | reflexivity].
Qed.

Lemma lookup_file_below (t : node) (p q : path) (st : stat_result) (data : string) :
  Fs.lookup t p = Some (File st data) -> q <> [] -> Fs.lookup t (p ++ q) = None.
Proof.
  intros H Hq. rewrite lookup_app, H. destruct q; [contradiction | reflexivity].
Qed.

Lemma height_entry (c : string) (n : node) (es : list (string * node)) :
  In (c, n) es -> Fs.height n <= list_max (map (fun e => Fs.height (snd e)) es).
Proof.
  induction es as [|e es IH]; simpl; [tauto|].
  intros [-> | Hin]; simpl; [lia|].
  specialize (IH Hin). lia.
Qed.

Lemma height_Dir (w : bool) (es : list (string * node)) :
  Fs.height (Dir w es) = S (list_max (map (fun e => Fs.height (snd e)) es)).
Proof. reflexivity. Qed.

Lemma height_at_child (t : node) (p : path) (d : string) :
  height_at t (p ++ [d]) <= pred (height_at t p).
Proof.
  unfold height_at. rewrite lookup_app.
  destruct (Fs.lookup t p) as [[st data | w es]|]; simpl; try lia.
  destruct (Fs.find_entry d es) as [n|] eqn:E; [|lia].
  apply find_entry_In in E. now apply height_entry in E.
Qed.

Lemma height_at_le (t : node) (p : path) : height_at t p <= Fs.height t.
Proof.
  unfold height_at. revert t. induction p as [|c p IH]; simpl; intro t; [lia|].
  destruct t as [st data | w es]; [lia|].
  destruct (Fs.find_entry c es) as [n|] eqn:E; [|lia].
  specialize (IH n). apply find_entry_In in E. apply height_entry in E.
  simpl. destruct (Fs.lookup n p); lia.
Qed.

Lemma scandir_Ok_height (t : node) (p : path) (r : list string * list string) :
  Fs.scandir t p = Ok r -> 1 <= height_at t p.
Proof.
  unfold Fs.scandir, height_at.
  destruct (Fs.lookup t p) as [[st data | w es]|]; try discriminate.
  intros _. simpl. lia.
Qed.

(** ** The walk *)

Section WalkFacts.

Context {St : Type}.
Variable fs_of : St -> node.
Variable body : path -> list string -> list string -> St -> list string * St.

Let descend (fuel : nat) (topdown : bool) (top : path) (acc : option St) (d : string) :=
  match acc with
  | Some s => os_walk fs_of fuel topdown body (top ++ [d]) s
  | None => None
  end.

Lemma os_walk_unfold (fuel : nat) (topdown : bool) (top : path) (st : St) :
  os_walk fs_of fuel topdown body top st
  = match Fs.scandir (fs_of st) top with
    | Raise _ => Some st
    | Ok (dirs, nondirs) =>
        match fuel with
        | O => None
        | S fuel' =>
            if topdown then
              let '(dirs', st1) := body top dirs nondirs st in
              fold_left (descend fuel' topdown top) dirs' (Some st1)
            else
              match fold_left (descend fuel' topdown top) dirs (Some st) with
              | Some st1 => Some (snd (body top dirs nondirs st1))
              | None => None
              end
        end
    end.
Proof. destruct fuel; reflexivity. Qed.

Lemma descend_None (fuel : nat) (topdown : bool) (top : path) (ds : list string) :
  fold_left (descend fuel topdown top) ds None = None.
Proof. induction ds; simpl; auto. Qed.

(** A property of the state that every turn of the loop keeps holds when
    the walk is over.  The loop body may rely on being handed a directory
    below the top of the walk. *)
Section Invariant.

Variable top0 : path.
Variable P : St -> Prop.
Hypothesis body_keeps :
  forall rel dirs files st,
    P st -> P (snd (body (top0 ++ rel) dirs files st)).

Lemma os_walk_invariant_below (fuel : nat) (topdown : bool) :
  forall rel st st',
    P st ->
    os_walk fs_of fuel topdown body (top0 ++ rel) st = Some st' -> P st'.
Proof.
  induction fuel as [|fuel IH]; intros rel st st' HP; rewrite os_walk_unfold.
  - destruct (Fs.scandir (fs_of st) (top0 ++ rel)) as [[dirs nondirs]|e];
      [discriminate | intro H; injection H as <-; assumption].
  - destruct (Fs.scandir (fs_of st) (top0 ++ rel)) as [[dirs nondirs]|e];
      [| intro H; injection H as <-; assumption].
    assert (Hfold : forall ds s s', P s ->
              fold_left (descend fuel topdown (top0 ++ rel)) ds (Some s) = Some s' ->
              P s').
    { induction ds as [|d ds IHds]; simpl; intros s s' Hs H.
      - now injection H as <-.
      - destruct (os_walk fs_of fuel topdown body ((top0 ++ rel) ++ [d]) s) as [s1|] eqn:E.
        + apply (IHds s1 s'); [|assumption].
          rewrite <- app_assoc in E. now apply (IH (rel ++ [d]) s s1).
        + now rewrite descend_None in H. }
    destruct topdown.
    + destruct (body (top0 ++ rel) dirs nondirs st) as [dirs' st1] eqn:Eb.
      intro H. apply (Hfold dirs' st1 st'); [|assumption].
      specialize (body_keeps rel dirs nondirs st HP). now rewrite Eb in body_keeps.
    + destruct (fold_left (descend fuel false (top0 ++ rel)) dirs (Some st)) as [st1|] eqn:E;
        [|discriminate].
      intro H. injection H as <-. apply body_keeps. now apply (Hfold dirs st st1).
Qed.

Lemma os_walk_invariant (fuel : nat) (topdown : bool) (st st' : St) :
  P st -> os_walk fs_of fuel topdown body top0 st = Some st' -> P st'.
Proof.
  intros HP H. apply (os_walk_invariant_below fuel topdown [] st st' HP).
  now rewrite app_nil_r.
Qed.

End Invariant.

(** The walk comes to an end within the height of the tree when no turn
    of the loop makes the tree deeper. *)
Section Termination.

Hypothesis body_no_deeper :
  forall root dirs files st q,
    height_at (fs_of (snd (body root dirs files st))) q <= height_at (fs_of st) q.

Lemma os_walk_total (fuel : nat) (topdown : bool) :
  forall top st,
    height_at (fs_of st) top <= fuel ->
    exists st',
      os_walk fs_of fuel topdown body top st = Some st'
      /\ forall q, height_at (fs_of st') q <= height_at (fs_of st) q.
Proof.
  induction fuel as [|fuel IH]; intros top st Hh; rewrite os_walk_unfold.
  - destruct (Fs.scandir (fs_of st) top) as [[dirs nondirs]|e] eqn:Es.
    + apply scandir_Ok_height in Es. lia.
    + exists st. split; [reflexivity | intro; lia].
  - destruct (Fs.scandir (fs_of st) top) as [[dirs nondirs]|e] eqn:Es;
      [| exists st; split; [reflexivity | intro; lia]].
    assert (Hfold : forall ds s,
              (forall q, height_at (fs_of s) q <= height_at (fs_of st) q) ->
              exists s',
                fold_left (descend fuel topdown top) ds (Some s) = Some s'
                /\ forall q, height_at (fs_of s') q <= height_at (fs_of st) q).
    { induction ds as [|d ds IHds]; simpl; intros s Hs.
      - exists s. split; [reflexivity | assumption].
      - destruct (IH (top ++ [d]) s) as [s1 [E1 H1]].
        { pose proof (height_at_child (fs_of s) top d).
          pose proof (Hs top). lia. }
        rewrite E1. apply IHds. intro q.
        specialize (H1 q). specialize (Hs q). lia. }
    destruct topdown.
    + destruct (body top dirs nondirs st) as [dirs' st1] eqn:Eb.
      apply Hfold. intro q.
      pose proof (body_no_deeper top dirs nondirs st q) as Hb.
      now rewrite Eb in Hb.
    + destruct (Hfold dirs st) as [st1 [E1 H1]]; [intro; lia|].
      rewrite E1. eexists. split; [reflexivity|].
      intro q. pose proof (body_no_deeper top dirs nondirs st1 q).
      specialize (H1 q). lia.
Qed.

End Termination.

End WalkFacts.

(** ** The destination of a file *)

Lemma DDS_destination_differs (source_path file_path rel : path) (year : Z) :
  Path.relative_to file_path source_path = Ok rel ->
  Path.eqb file_path (DDS.new_file_path source_path year rel) = false.
Proof.
  intro H. apply relative_to_inv in H. subst.
  apply path_eqb_neq. unfold DDS.new_file_path. apply app_cons_neq.
Qed.

Lemma FYO_destination_differs (source_path file_path rel : path) (year : Z) :
  Path.relative_to file_path (Path.parent source_path) = Ok rel ->
  file_path <> FYO.new_file_path source_path year rel.
Proof.
  intro H. apply relative_to_inv in H. subst.
  unfold FYO.new_file_path. apply app_cons_neq.
Qed.

Ltac case_match :=
  match goal with
  | |- context [match ?x with _ => _ end] => destruct x eqn:?
  | H : context [match ?x with _ => _ end] |- _ => destruct x eqn:?
  end.

(** The [continue] of [organize_files] is never reached. *)
Lemma DDS_try_block_counted (plat : platform) (dry_run : bool)
      (source_path file_path : path) (w w' : world) (r : DDS.ending) :
  DDS.try_block plat dry_run source_path file_path w = (Ok r, w') -> r = DDS.Counted.
Proof.
  unfold DDS.try_block, bind, of_res, ret, say.
  destruct (DDS.get_file_creation_date plat file_path w) as [[year|e] w1]; [|discriminate].
  destruct (Path.relative_to file_path source_path) as [rel|e] eqn:Er; [|discriminate].
  rewrite (DDS_destination_differs _ _ _ year Er).
  repeat case_match; congruence.
Qed.

Lemma DDS_process_file_counts (plat : platform) (dry_run : bool)
      (source_path : path) (st : progress) (file_path : path) :
  let st' := DDS.process_file plat dry_run source_path st file_path in
  (moved_count st' = moved_count st + 1 /\ error_count st' = error_count st)
  \/ (moved_count st' = moved_count st /\ error_count st' = error_count st + 1).
Proof.
  unfold DDS.process_file.
  destruct (DDS.try_block plat dry_run source_path file_path (now st)) as [[r|e] w] eqn:E.
  - apply DDS_try_block_counted in E. subst. left. simpl. auto.
  - right. simpl. auto.
Qed.

Lemma DDS_process_all_counts (plat : platform) (dry_run : bool) (source_path : path)
      (files : list path) (w : world) :
  let st := DDS.process_all plat dry_run source_path files w in
  moved_count st + error_count st = List.length files.
Proof.
  unfold DDS.process_all.
  set (st0 := {| now := w; moved_count := 0; error_count := 0 |}).
  enough (H : forall st,
             moved_count (fold_left (DDS.process_file plat dry_run source_path) files st)
             + error_count (fold_left (DDS.process_file plat dry_run source_path) files st)
             = moved_count st + error_count st + List.length files).
  { simpl. rewrite (H st0). reflexivity. }
  induction files as [|f files IH]; intro st; simpl; [lia|].
  rewrite IH.
  pose proof (DDS_process_file_counts plat dry_run source_path st f) as Hc.
  simpl in Hc. lia.
Qed.

Lemma FYO_process_file_counts (plat : platform) (copy dry_run full_path : bool)
      (source_path root_path : path) (st : progress) (filename : string) :
  let st' := FYO.process_file plat copy dry_run full_path source_path root_path st filename in
  if dry_run then
    moved_count st' = moved_count st
    /\ (error_count st' = error_count st \/ error_count st' = error_count st + 1)
  else
    (moved_count st' = moved_count st + 1 /\ error_count st' = error_count st)
    \/ (moved_count st' = moved_count st /\ error_count st' = error_count st + 1).
Proof.
  unfold FYO.process_file.
  destruct (FYO.try_block plat copy dry_run full_path source_path
              (root_path ++ [filename]) (now st)) as [[r|e] w] eqn:E.
  - assert (Hr : r = negb dry_run).
    { revert E. unfold FYO.try_block, bind, of_res, ret, say.
      destruct dry_run; simpl; repeat case_match; congruence. }
    subst r. destruct dry_run; simpl; auto.
  - destruct dry_run; simpl; auto.
Qed.

(** ** Replacing a sub-tree *)

Lemma wf_Dir (w : bool) (es : list (string * node)) :
  wf (Dir w es) = true <->
  NoDup (map fst es) /\ forall c n, In (c, n) es -> wf n = true.
Proof.
  simpl. rewrite andb_true_iff, nodupb_NoDup, forallb_forall. split.
  - intros [H1 H2]. split; [assumption|]. intros c n Hin. apply (H2 (c, n) Hin).
  - intros [H1 H2]. split; [assumption|]. intros [c n] Hin. apply (H2 c n Hin).
Qed.

Lemma In_set_entry (c : string) (n : node) (es : list (string * node)) (e : string * node) :
  In e (Fs.set_entry c n es) -> e = (c, n) \/ In e es.
Proof.
  induction es as [|[k m] es IH]; simpl.
  - intros [<- | []]. now left.
  - destruct (String.eqb_spec k c) as [->|Hkc]; simpl.
    + intros [<- | Hin]; auto.
    + intros [<- | Hin]; auto. destruct (IH Hin); auto.
Qed.

Lemma In_remove_entry (c : string) (es : list (string * node)) (e : string * node) :
  In e (Fs.remove_entry c es) -> In e es.
Proof.
  induction es as [|[k m] es IH]; simpl; [tauto|].
  destruct (String.eqb k c); simpl; [tauto|].
  intros [<- | Hin]; auto.
Qed.

Lemma wf_set_entry (w : bool) (c : string) (n : node) (es : list (string * node)) :
  wf (Dir w es) = true -> wf n = true -> wf (Dir w (Fs.set_entry c n es)) = true.
Proof.
  rewrite !wf_Dir. intros [Hnd Hall] Hn. split.
  - now apply NoDup_set_entry.
  - intros k m Hin. apply In_set_entry in Hin. destruct Hin as [E | Hin].
    + now injection E as -> ->.
    + now apply (Hall k m).
Qed.

Lemma wf_remove_entry (w : bool) (c : string) (es : list (string * node)) :
  wf (Dir w es) = true -> wf (Dir w (Fs.remove_entry c es)) = true.
Proof.
  rewrite !wf_Dir. intros [Hnd Hall]. split.
  - now apply NoDup_remove_entry.
  - intros k m Hin. apply In_remove_entry in Hin. now apply (Hall k m).
Qed.

Lemma wf_lookup (t : node) (p : path) (n : node) :
  wf t = true -> Fs.lookup t p = Some n -> wf n = true.
Proof.
  revert t. induction p as [|c p IH]; simpl; intros t Hwf H.
  - now injection H as <-.
  - destruct t as [st data | w es]; [discriminate|].
    destruct (Fs.find_entry c es) as [m|] eqn:E; [|discriminate].
    apply (IH m); [|assumption].
    apply wf_Dir in Hwf. destruct Hwf as [_ Hall].
    apply (Hall c m). now apply find_entry_In.
Qed.

Lemma wf_graft (t : node) (p : path) (n' : node) :
  wf t = true -> wf n' = true -> wf (graft t p n') = true.
Proof.
  revert t. induction p as [|c p IH]; simpl; intros t Hwf Hn'; [assumption|].
  destruct t as [st data | w es]; [assumption|].
  destruct (Fs.find_entry c es) as [m|] eqn:E; [|assumption].
  apply wf_set_entry; [assumption|].
  apply IH; [|assumption].
  apply (wf_lookup (Dir w es) [c]); [assumption|]. simpl. now rewrite E.
Qed.

Lemma graft_lookup_below (t : node) (p r : path) (n n' : node) :
  Fs.lookup t p = Some n ->
  Fs.lookup (graft t p n') (p ++ r) = Fs.lookup n' r.
Proof.
  revert t. induction p as [|c p IH]; simpl; intros t H; [reflexivity|].
  destruct t as [st data | w es]; [discriminate|].
  destruct (Fs.find_entry c es) as [m|] eqn:E; [|discriminate].
  simpl. rewrite find_set_same. now apply IH.
Qed.

Lemma graft_lookup_at (t : node) (p : path) (n n' : node) :
  Fs.lookup t p = Some n -> Fs.lookup (graft t p n') p = Some n'.
Proof.
  intro H. rewrite <- (app_nil_r p) at 2.
  now rewrite (graft_lookup_below t p [] n n' H).
Qed.

Lemma graft_same (t : node) (p : path) (n : node) :
  Fs.lookup t p = Some n -> graft t p n = t.
Proof.
  revert t. induction p as [|c p IH]; simpl; intros t H.
  - now injection H as <-.
  - destruct t as [st data | w es]; [reflexivity|].
    destruct (Fs.find_entry c es) as [m|] eqn:E; [|reflexivity].
    rewrite (IH m H). now rewrite set_entry_same.
Qed.

Lemma is_prefix_cons (c d : string) (p q : path) :
  is_prefix (c :: p) (d :: q) <-> c = d /\ is_prefix p q.
Proof.
  unfold is_prefix. split.
  - intros [r H]. simpl in H. injection H as -> ->. split; [reflexivity | now exists r].
  - intros [-> [r ->]]. now exists r.
Qed.

Lemma is_prefix_dec (p q : path) : {is_prefix p q} + {~ is_prefix p q}.
Proof.
  revert q. induction p as [|c p IH]; intro q.
  - left. now exists q.
  - destruct q as [|d q].
    + right. intros [r H]. discriminate.
    + destruct (string_dec c d) as [->|Hne].
      * destruct (IH q) as [Hp | Hn].
        -- left. now apply is_prefix_cons.
        -- right. intro H. apply is_prefix_cons in H. tauto.
      * right. intro H. apply is_prefix_cons in H. tauto.
Qed.

Lemma graft_lookup_off (t : node) (p q : path) (w w' : bool)
      (es es' : list (string * node)) :
  Fs.lookup t p = Some (Dir w es) ->
  ~ is_prefix p q ->
  Fs.lookup (graft t p (Dir w' es')) q = Fs.lookup t q
  \/ exists r, p = q ++ r /\
       exists v ds ds', Fs.lookup t q = Some (Dir v ds)
                        /\ Fs.lookup (graft t p (Dir w' es')) q = Some (Dir v ds').
Proof.
  revert t q. induction p as [|c p IH]; simpl; intros t q H Hn.
  - exfalso. apply Hn. now exists q.
  - destruct t as [st data | v ds]; [discriminate|].
    destruct (Fs.find_entry c ds) as [m|] eqn:E; [|discriminate].
    destruct q as [|d q].
    + right. exists (c :: p). split; [reflexivity|]. simpl. eauto.
    + simpl. destruct (string_dec c d) as [->|Hne].
      * rewrite find_set_same, E.
        destruct (IH m q H) as [Heq | [r [-> Hr]]].
        { intro Hp. apply Hn. now apply is_prefix_cons. }
        -- now left.
        -- right. exists r. split; [reflexivity | assumption].
      * left. now rewrite find_set_other.
Qed.

Lemma graft_lookup_file (t : node) (p q : path) (w w' : bool)
      (es es' : list (string * node)) (st : stat_result) (data : string) :
  Fs.lookup t p = Some (Dir w es) ->
  Fs.lookup (graft t p (Dir w' es')) q = Some (File st data) ->
  (exists r, q = p ++ r /\ Fs.lookup (Dir w' es') r = Some (File st data))
  \/ (~ is_prefix p q /\ Fs.lookup t q = Some (File st data)).
Proof.
  intros Hp Hq. destruct (is_prefix_dec p q) as [[r ->] | Hn].
  - left. exists r. split; [reflexivity|].
    now rewrite (graft_lookup_below t p r _ _ Hp) in Hq.
  - right. split; [assumption|].
    destruct (graft_lookup_off t p q w w' es es' Hp Hn) as [Heq | [r [_ [v [ds [ds' [_ H']]]]]]].
    + now rewrite <- Heq.
    + congruence.
Qed.

Lemma graft_is_dir (t : node) (p q : path) (w w' : bool)
      (es es' : list (string * node)) :
  Fs.lookup t p = Some (Dir w es) ->
  Fs.is_dir t q = true ->
  (forall c r, q <> p ++ c :: r) ->
  Fs.is_dir (graft t p (Dir w' es')) q = true.
Proof.
  intros Hp Hq Hn. unfold Fs.is_dir in *.
  destruct (is_prefix_dec p q) as [[r ->] | Hoff].
  - destruct r as [|c r]; [|exfalso; now apply (Hn c r)].
    rewrite app_nil_r. now rewrite (graft_lookup_at t p _ _ Hp).
  - destruct (graft_lookup_off t p q w w' es es' Hp Hoff) as [-> | [r [_ [v [ds [ds' [_ ->]]]]]]];
      [assumption | reflexivity].
Qed.

(** ** What the system calls do *)

Lemma alter_dir_Ok (f : bool -> list (string * node) -> res (list (string * node)))
      (t : node) (p : path) (t' : node) :
  Fs.alter_dir f t p = Ok t' ->
  exists w es es',
    Fs.lookup t p = Some (Dir w es) /\ f w es = Ok es' /\ t' = graft t p (Dir w es').
Proof.
  revert t t'. induction p as [|c p IH]; intros t t'; simpl.
  - destruct t as [st data | w es]; [discriminate|].
    destruct (f w es) as [es'|e] eqn:Ef; [|discriminate].
    intro H. injection H as <-. now exists w, es, es'.
  - destruct t as [st data | w es]; [discriminate|].
    destruct (Fs.find_entry c es) as [n|] eqn:E; [|discriminate].
    destruct (Fs.alter_dir f n p) as [n'|e] eqn:Ea; [|discriminate].
    intro H. injection H as <-.
    destruct (IH n n' Ea) as [w0 [es0 [es0' [H1 [H2 H3]]]]].
    exists w0, es0, es0'. repeat split; try assumption. now rewrite H3.
Qed.

Lemma alter_dir_run (f : bool -> list (string * node) -> res (list (string * node)))
      (t : node) (p : path) (w : bool) (es : list (string * node)) :
  Fs.lookup t p = Some (Dir w es) ->
  Fs.alter_dir f t p
  = match f w es with
    | Ok es' => Ok (graft t p (Dir w es'))
    | Raise e => Raise e
    end.
Proof.
  revert t. induction p as [|c p IH]; intros t; simpl.
  - intro H. injection H as ->. reflexivity.
  - destruct t as [st data | v ds]; [discriminate|].
    destruct (Fs.find_entry c ds) as [n|] eqn:E; [|discriminate].
    intro H. rewrite (IH n H). now destruct (f w es).
Qed.

Lemma os_rmdir_Ok (t : node) (p : path) (t' : node) :
  Fs.os_rmdir t p = Ok t' ->
  exists es v,
    p <> []
    /\ Fs.lookup t (Path.parent p) = Some (Dir true es)
    /\ Fs.find_entry (Path.name p) es = Some (Dir v [])
    /\ t' = graft t (Path.parent p) (Dir true (Fs.remove_entry (Path.name p) es)).
Proof.
  unfold Fs.os_rmdir. destruct p as [|c p]; [discriminate|].
  intro H. apply alter_dir_Ok in H. destruct H as [w [es [es' [H1 [H2 H3]]]]].
  destruct (Fs.find_entry (Path.name (c :: p)) es) as [[st data | v [|e ds]]|] eqn:E;
    try discriminate.
  destruct w; [|discriminate]. injection H2 as <-.
  exists es, v. repeat split; try assumption. discriminate.
Qed.

Lemma os_unlink_Ok (t : node) (p : path) (t' : node) :
  Fs.os_unlink t p = Ok t' ->
  exists es st data,
    p <> []
    /\ Fs.lookup t (Path.parent p) = Some (Dir true es)
    /\ Fs.find_entry (Path.name p) es = Some (File st data)
    /\ t' = graft t (Path.parent p) (Dir true (Fs.remove_entry (Path.name p) es)).
Proof.
  unfold Fs.os_unlink. destruct p as [|c p]; [discriminate|].
  intro H. apply alter_dir_Ok in H. destruct H as [w [es [es' [H1 [H2 H3]]]]].
  destruct (Fs.find_entry (Path.name (c :: p)) es) as [[st data | v ds]|] eqn:E;
    try discriminate.
  destruct w; [|discriminate]. injection H2 as <-.
  exists es, st, data. repeat split; try assumption. discriminate.
Qed.

Lemma write_file_Ok (t : node) (p : path) (st : stat_result) (data : string) (t' : node) :
  Fs.write_file t p st data = Ok t' ->
  exists w es,
    p <> []
    /\ Fs.lookup t (Path.parent p) = Some (Dir w es)
    /\ t' = graft t (Path.parent p)
                  (Dir w (Fs.set_entry (Path.name p) (File st data) es)).
Proof.
  unfold Fs.write_file. destruct p as [|c p]; [discriminate|].
  intro H. apply alter_dir_Ok in H. destruct H as [w [es [es' [H1 [H2 H3]]]]].
  exists w, es. split; [discriminate|]. split; [assumption|].
  destruct (Fs.find_entry (Path.name (c :: p)) es) as [[st0 data0 | v ds]|] eqn:E;
    try discriminate.
  - now injection H2 as <-.
  - destruct w; [|discriminate]. now injection H2 as <-.
Qed.

Lemma lookup_parent_name (t : node) (p : path) (w : bool) (es : list (string * node)) :
  p <> [] ->
  Fs.lookup t (Path.parent p) = Some (Dir w es) ->
  Fs.lookup t p = Fs.find_entry (Path.name p) es.
Proof.
  intros Hp H. rewrite (path_split_last p Hp) at 1.
  rewrite lookup_app, H. simpl. now destruct (Fs.find_entry (Path.name p) es).
Qed.

(** Files after an entry of the directory [pp] was set to a regular file. *)
Lemma files_after_set (t : node) (pp : path) (w : bool) (es : list (string * node))
      (c : string) (st : stat_result) (data : string) (q : path)
      (st' : stat_result) (data' : string) :
  Fs.lookup t pp = Some (Dir w es) ->
  Fs.lookup (graft t pp (Dir w (Fs.set_entry c (File st data) es))) q
  = Some (File st' data') ->
  (q = pp ++ [c] /\ st' = st /\ data' = data)
  \/ (q <> pp ++ [c] /\ Fs.lookup t q = Some (File st' data')).
Proof.
  intros Hp Hq.
  destruct (graft_lookup_file _ _ _ _ _ _ _ _ _ Hp Hq) as [[r [-> Hr]] | [Hn Hl]].
  - destruct r as [|x r]; [discriminate|]. simpl in Hr.
    destruct (string_dec c x) as [<-|Hne].
    + rewrite find_set_same in Hr. destruct r as [|y r]; [|discriminate].
      injection Hr as <- <-. now left.
    + right. split.
      * intro E. apply app_inv_head in E. congruence.
      * rewrite find_set_other in Hr by assumption.
        rewrite lookup_app, Hp. exact Hr.
  - right. split; [|assumption]. intros ->. apply Hn. now exists [c].
Qed.

(** Files after an entry of the directory [pp] was removed. *)
Lemma files_after_remove (t : node) (pp : path) (w : bool) (es : list (string * node))
      (c : string) (q : path) (st' : stat_result) (data' : string) :
  wf t = true ->
  Fs.lookup t pp = Some (Dir w es) ->
  Fs.lookup (graft t pp (Dir w (Fs.remove_entry c es))) q = Some (File st' data') ->
  ~ is_prefix (pp ++ [c]) q /\ Fs.lookup t q = Some (File st' data').
Proof.
  intros Hwf Hp Hq.
  assert (Hnd : NoDup (map fst es)).
  { apply (wf_lookup _ _ _ Hwf) in Hp. now apply wf_Dir in Hp. }
  destruct (graft_lookup_file _ _ _ _ _ _ _ _ _ Hp Hq) as [[r [-> Hr]] | [Hn Hl]].
  - destruct r as [|x r]; [discriminate|]. simpl in Hr.
    destruct (string_dec c x) as [<-|Hne].
    + now rewrite find_remove_same in Hr.
    + rewrite find_remove_other in Hr by assumption. split.
      * intros [s E]. rewrite <- app_assoc in E. apply app_inv_head in E.
        simpl in E. congruence.
      * rewrite lookup_app, Hp. exact Hr.
  - split; [|assumption]. intros [s ->]. apply Hn. exists ([c] ++ s).
    now rewrite app_assoc.
Qed.

(** *** mkdir *)

Lemma new_dirs_no_file (p q : path) (st : stat_result) (data : string) :
  Fs.lookup (Fs.new_dirs p) q <> Some (File st data).
Proof.
  revert q. induction p as [|c p IH]; intros [|d q]; simpl; try discriminate.
  destruct (String.eqb c d); [apply IH | discriminate].
Qed.

Lemma wf_new_dirs (p : path) : wf (Fs.new_dirs p) = true.
Proof. induction p as [|c p IH]; simpl; [reflexivity | now rewrite IH]. Qed.

Lemma new_dirs_is_dir (p : path) : Fs.is_dir (Fs.new_dirs p) p = true.
Proof.
  unfold Fs.is_dir. induction p as [|c p IH]; simpl; [reflexivity|].
  now rewrite String.eqb_refl.
Qed.

Lemma mkdir_p_existing (t : node) (p : path) :
  Fs.is_dir t p = true -> Fs.mkdir_p t p = Ok t.
Proof.
  unfold Fs.is_dir. revert t. induction p as [|c p IH]; simpl; intros t H.
  - destruct t; [discriminate | reflexivity].
  - destruct t as [st data | w es]; [discriminate|].
    destruct (Fs.find_entry c es) as [n|] eqn:E; [|discriminate].
    rewrite (IH n H). now rewrite set_entry_same.
Qed.

Lemma mkdir_p_files (t : node) (p : path) (t1 : node) :
  Fs.mkdir_p t p = Ok t1 ->
  forall q st data,
    Fs.lookup t1 q = Some (File st data) <-> Fs.lookup t q = Some (File st data).
Proof.
  revert t t1. induction p as [|c p IH]; simpl; intros t t1 H q st data.
  - destruct t; [discriminate|]. injection H as <-. tauto.
  - destruct t as [st0 data0 | w es]; [discriminate|].
    destruct (Fs.find_entry c es) as [n|] eqn:E.
    + destruct (Fs.mkdir_p n p) as [n'|e] eqn:Em; [|discriminate].
      injection H as <-. destruct q as [|d q]; simpl; [split; discriminate|].
      destruct (string_dec c d) as [<-|Hne].
      * rewrite find_set_same, E. now apply IH.
      * rewrite find_set_other by assumption. tauto.
    + destruct w; [|discriminate]. injection H as <-.
      destruct q as [|d q]; simpl; [split; discriminate|].
      destruct (string_dec c d) as [<-|Hne].
      * rewrite find_set_same, E. split; [|discriminate].
        intro H. now apply new_dirs_no_file in H.
      * rewrite find_set_other by assumption. tauto.
Qed.

Lemma mkdir_p_dirs (t : node) (p : path) (t1 : node) :
  Fs.mkdir_p t p = Ok t1 ->
  forall q v,
    match Fs.lookup t q with Some (Dir v' _) => Some v' | _ => None end = Some v ->
    match Fs.lookup t1 q with Some (Dir v' _) => Some v' | _ => None end = Some v.
Proof.
  revert t t1. induction p as [|c p IH]; simpl; intros t t1 H q v0.
  - destruct t; [discriminate|]. injection H as <-. tauto.
  - destruct t as [st0 data0 | w es]; [discriminate|].
    destruct (Fs.find_entry c es) as [n|] eqn:E.
    + destruct (Fs.mkdir_p n p) as [n'|e] eqn:Em; [|discriminate].
      injection H as <-. destruct q as [|d q]; simpl; [tauto|].
      destruct (string_dec c d) as [<-|Hne].
      * rewrite find_set_same, E. now apply IH.
      * rewrite find_set_other by assumption. tauto.
    + destruct w; [|discriminate]. injection H as <-.
      destruct q as [|d q]; simpl; [tauto|].
      destruct (string_dec c d) as [<-|Hne].
      * rewrite E. discriminate.
      * rewrite find_set_other by assumption. tauto.
Qed.

Lemma mkdir_p_made (t : node) (p : path) (t1 : node) :
  Fs.mkdir_p t p = Ok t1 -> Fs.is_dir t1 p = true.
Proof.
  unfold Fs.is_dir.
  revert t t1. induction p as [|c p IH]; simpl; intros t t1 H.
  - destruct t; [discriminate|]. now injection H as <-.
  - destruct t as [st0 data0 | w es]; [discriminate|].
    destruct (Fs.find_entry c es) as [n|] eqn:E.
    + destruct (Fs.mkdir_p n p) as [n'|e] eqn:Em; [|discriminate].
      injection H as <-. rewrite find_set_same. now apply (IH n).
    + destruct w; [|discriminate]. injection H as <-.
      rewrite find_set_same. apply new_dirs_is_dir.
Qed.

Lemma wf_mkdir_p (t : node) (p : path) (t1 : node) :
  wf t = true -> Fs.mkdir_p t p = Ok t1 -> wf t1 = true.
Proof.
  revert t t1. induction p as [|c p IH]; simpl; intros t t1 Hwf H.
  - destruct t; [discriminate|]. now injection H as <-.
  - destruct t as [st0 data0 | w es]; [discriminate|].
    destruct (Fs.find_entry c es) as [n|] eqn:E.
    + destruct (Fs.mkdir_p n p) as [n'|e] eqn:Em; [|discriminate].
      injection H as <-. apply wf_set_entry; [assumption|].
      apply (IH n); [|assumption].
      apply (wf_lookup (Dir w es) [c]); [assumption|]. simpl. now rewrite E.
    + destruct w; [|discriminate]. injection H as <-.
      apply wf_set_entry; [assumption | apply wf_new_dirs].
Qed.

Lemma files_kept_after_remove (t : node) (pp : path) (w : bool)
      (es : list (string * node)) (c : string) (q : path) (n : node) :
  Fs.lookup t pp = Some (Dir w es) ->
  ~ is_prefix (pp ++ [c]) q ->
  Fs.is_dir_node n = false ->
  Fs.lookup t q = Some n ->
  Fs.lookup (graft t pp (Dir w (Fs.remove_entry c es))) q = Some n.
Proof.
  intros Hp Hn Hk Hq. destruct (is_prefix_dec pp q) as [[r ->] | Hoff].
  - rewrite (graft_lookup_below t pp r _ _ Hp).
    rewrite lookup_app, Hp in Hq.
    destruct r as [|x r]; [injection Hq as <-; discriminate|].
    simpl in *. rewrite find_remove_other; [assumption|].
    intros ->. apply Hn. exists r. now rewrite <- app_assoc.
  - destruct (graft_lookup_off t pp q w w es (Fs.remove_entry c es) Hp Hoff)
      as [-> | [r [_ [v [ds [ds' [H1 _]]]]]]]; [assumption|].
    rewrite H1 in Hq. injection Hq as <-. discriminate.
Qed.

Lemma is_dir_flag (t : node) (q : path) :
  Fs.is_dir t q = true <-> exists v, dir_flag t q = Some v.
Proof.
  unfold Fs.is_dir, dir_flag.
  destruct (Fs.lookup t q) as [[st data | v ds]|]; split;
    try discriminate; try (intros [v' H]; discriminate); eauto.
Qed.

Lemma dirs_after_set (t : node) (pp : path) (w : bool) (es : list (string * node))
      (c : string) (st : stat_result) (data : string) (q : path) (v : bool) :
  Fs.lookup t pp = Some (Dir w es) ->
  (forall v ds, Fs.find_entry c es <> Some (Dir v ds)) ->
  dir_flag t q = Some v ->
  dir_flag (graft t pp (Dir w (Fs.set_entry c (File st data) es))) q = Some v.
Proof.
  intros Hp Hc Hq. unfold dir_flag in *.
  destruct (is_prefix_dec pp q) as [[r ->] | Hoff].
  - rewrite (graft_lookup_below t pp r _ _ Hp).
    rewrite lookup_app, Hp in Hq.
    destruct r as [|x r]; [assumption|]. simpl in *.
    destruct (string_dec c x) as [<-|Hne].
    + destruct (Fs.find_entry c es) as [[st0 d0 | v0 ds]|] eqn:E; try discriminate.
      * destruct r; discriminate.
      * exfalso. now apply (Hc v0 ds).
    + now rewrite find_set_other.
  - destruct (graft_lookup_off t pp q w w es (Fs.set_entry c (File st data) es) Hp Hoff)
      as [-> | [r [_ [v0 [ds [ds' [H1 ->]]]]]]]; [assumption|].
    now rewrite H1 in Hq.
Qed.

Lemma dirs_after_remove (t : node) (pp : path) (w : bool) (es : list (string * node))
      (c : string) (st : stat_result) (data : string) (q : path) (v : bool) :
  Fs.lookup t pp = Some (Dir w es) ->
  Fs.find_entry c es = Some (File st data) ->
  dir_flag t q = Some v ->
  dir_flag (graft t pp (Dir w (Fs.remove_entry c es))) q = Some v.
Proof.
  intros Hp Hc Hq. unfold dir_flag in *.
  destruct (is_prefix_dec pp q) as [[r ->] | Hoff].
  - rewrite (graft_lookup_below t pp r _ _ Hp).
    rewrite lookup_app, Hp in Hq.
    destruct r as [|x r]; [assumption|]. simpl in *.
    destruct (string_dec c x) as [<-|Hne].
    + rewrite Hc in Hq. destruct r; discriminate.
    + now rewrite find_remove_other.
  - destruct (graft_lookup_off t pp q w w es (Fs.remove_entry c es) Hp Hoff)
      as [-> | [r [_ [v0 [ds [ds' [H1 ->]]]]]]]; [assumption|].
    now rewrite H1 in Hq.
Qed.

Lemma files_kept_after_set (t : node) (pp : path) (w : bool)
      (es : list (string * node)) (c : string) (st : stat_result) (data : string)
      (q : path) (n : node) :
  Fs.lookup t pp = Some (Dir w es) ->
  (forall v ds, Fs.find_entry c es <> Some (Dir v ds)) ->
  q <> pp ++ [c] ->
  Fs.is_dir_node n = false ->
  Fs.lookup t q = Some n ->
  Fs.lookup (graft t pp (Dir w (Fs.set_entry c (File st data) es))) q = Some n.
Proof.
  intros Hp Hc Hne Hk Hq. destruct (is_prefix_dec pp q) as [[r ->] | Hoff].
  - rewrite (graft_lookup_below t pp r _ _ Hp).
    rewrite lookup_app, Hp in Hq.
    destruct r as [|x r]; [injection Hq as <-; discriminate|].
    simpl in *. destruct (string_dec c x) as [<-|Hcx].
    + destruct (Fs.find_entry c es) as [[st0 d0 | v0 ds]|] eqn:E; try discriminate.
      * destruct r; [congruence | discriminate].
      * exfalso. now apply (Hc v0 ds).
    + now rewrite find_set_other.
  - destruct (graft_lookup_off t pp q w w es (Fs.set_entry c (File st data) es) Hp Hoff)
      as [-> | [r [_ [v [ds [ds' [H1 _]]]]]]]; [assumption|].
    rewrite H1 in Hq. injection Hq as <-. discriminate.
Qed.

Lemma graft_parent_lookup (t : node) (p : path) (n : node) (w : bool)
      (es : list (string * node)) :
  p <> [] ->
  Fs.lookup t (Path.parent p) = Some n ->
  Fs.lookup (graft t (Path.parent p) (Dir w es)) p = Fs.find_entry (Path.name p) es.
Proof.
  intros Hp H.
  pose proof (graft_lookup_below t (Path.parent p) [Path.name p] n (Dir w es) H) as E.
  rewrite <- (path_split_last p Hp) in E. rewrite E. simpl.
  now destruct (Fs.find_entry (Path.name p) es).
Qed.

(** *** unlink, write, rename *)

Lemma file_step_refl (t : node) : file_step t t.
Proof. split; auto. Qed.

Lemma file_step_trans (t1 t2 t3 : node) :
  file_step t1 t2 -> file_step t2 t3 -> file_step t1 t3.
Proof. intros [A1 B1] [A2 B2]. split; auto. Qed.

Lemma file_step_is_dir (t t2 : node) (q : path) :
  file_step t t2 -> Fs.is_dir t q = true -> Fs.is_dir t2 q = true.
Proof.
  intros [_ H] Hq. apply is_dir_flag in Hq. destruct Hq as [v Hv].
  apply is_dir_flag. exists v. now apply H.
Qed.

Lemma unlink_effect (t : node) (src : path) (t2 : node) :
  wf t = true ->
  Fs.os_unlink t src = Ok t2 ->
  file_step t t2
  /\ (forall q st data,
        Fs.lookup t2 q = Some (File st data) ->
        q <> src /\ Fs.lookup t q = Some (File st data))
  /\ (forall q st data,
        q <> src -> Fs.lookup t q = Some (File st data) ->
        Fs.lookup t2 q = Some (File st data)).
Proof.
  intros Hwf H. apply os_unlink_Ok in H.
  destruct H as [es [st0 [d0 [Hne [Hp [Hc ->]]]]]].
  split; [split|split].
  - intros _. apply wf_graft; [assumption|].
    apply wf_remove_entry. now apply (wf_lookup _ _ _ Hwf Hp).
  - intros q v Hq. now apply (dirs_after_remove _ _ _ _ _ st0 d0).
  - intros q st data Hq.
    destruct (files_after_remove _ _ _ _ _ _ _ _ Hwf Hp Hq) as [Hn Hl].
    split; [|assumption]. intros ->. apply Hn. exists [].
    rewrite app_nil_r. now apply path_split_last.
  - intros q st data Hq Hl.
    apply (files_kept_after_remove _ _ _ _ _ _ _ Hp); [|reflexivity|assumption].
    intros [r E]. rewrite <- (path_split_last src Hne) in E.
    destruct r as [|x r]; [rewrite app_nil_r in E; congruence|].
    subst q. rewrite <- (lookup_parent_name _ _ _ _ Hne Hp) in Hc.
    now rewrite (lookup_file_below _ _ (x :: r) _ _ Hc) in Hl.
Qed.

Lemma write_effect (t : node) (dst : path) (st : stat_result) (data : string) (t1 : node) :
  wf t = true ->
  Fs.is_dir t dst = false ->
  Fs.write_file t dst st data = Ok t1 ->
  file_step t t1
  /\ Fs.lookup t1 dst = Some (File st data)
  /\ (forall q st' data',
        Fs.lookup t1 q = Some (File st' data') ->
        (q = dst /\ st' = st /\ data' = data)
        \/ (q <> dst /\ Fs.lookup t q = Some (File st' data'))).
Proof.
  intros Hwf Hnd H. apply write_file_Ok in H.
  destruct H as [w [es [Hne [Hp ->]]]].
  split; [split|split].
  - intros _. apply wf_graft; [assumption|].
    apply wf_set_entry; [now apply (wf_lookup _ _ _ Hwf Hp) | reflexivity].
  - intros q v0 Hq. apply dirs_after_set; try assumption.
    intros v ds E. unfold Fs.is_dir in Hnd.
    rewrite (lookup_parent_name _ _ _ _ Hne Hp), E in Hnd. discriminate.
  - rewrite (graft_parent_lookup _ _ _ _ _ Hne Hp). apply find_set_same.
  - intros q st' data' Hq. rewrite (path_split_last dst Hne).
    now apply (files_after_set _ _ _ _ _ _ _ _ _ _ Hp Hq).
Qed.

Lemma rename_effect (t : node) (src dst : path) (t2 : node) :
  wf t = true ->
  Fs.os_rename t src dst = Ok t2 ->
  transferred t src dst t2
  /\ (src <> dst -> Fs.lookup t2 src = None).
Proof.
  intros Hwf. unfold Fs.os_rename.
  destruct (Fs.lookup t src) as [[st data | v ds]|] eqn:Hs; try discriminate.
  destruct (Path.eqb src dst) eqn:Eq.
  - apply path_eqb_eq in Eq. subst dst. intro H. injection H as <-.
    split; [|congruence]. split.
    + now exists st, data.
    + split; auto.
    + intros q st' d' Hq. destruct (list_eq_dec string_dec q src) as [->|Hne];
        [left | right]; auto.
  - apply path_eqb_neq in Eq. destruct dst as [|c0 dst0]; [discriminate|].
    set (dst := c0 :: dst0) in *.
    destruct (Fs.alter_dir _ t (Path.parent dst)) as [t1|e] eqn:Ea; [|discriminate].
    destruct (Fs.os_unlink t1 src) as [t2'|e] eqn:Eu; [|discriminate].
    intro H. injection H as <-.
    apply alter_dir_Ok in Ea. destruct Ea as [w [es [es' [Hp [Hf ->]]]]].
    assert (Hne : dst <> []) by discriminate.
    assert (Hnotdir : forall v ds, Fs.find_entry (Path.name dst) es <> Some (Dir v ds)).
    { intros v ds E. rewrite E in Hf. discriminate. }
    assert (Hes' : es' = Fs.set_entry (Path.name dst) (File st data) es).
    { destruct (Fs.find_entry (Path.name dst) es) as [[? ?|? ?]|];
        destruct w; try discriminate; now injection Hf as <-. }
    subst es'.
    set (t1 := graft t (Path.parent dst) _) in *.
    assert (Hwf1 : wf t1 = true).
    { apply wf_graft; [assumption|].
      apply wf_set_entry; [now apply (wf_lookup _ _ _ Hwf Hp) | reflexivity]. }
    assert (Hd1 : Fs.lookup t1 dst = Some (File st data)).
    { unfold t1. rewrite (graft_parent_lookup _ _ _ _ _ Hne Hp). apply find_set_same. }
    destruct (unlink_effect t1 src t2' Hwf1 Eu) as [[Uwf Udirs] [Ufiles Ukept]].
    split; [split|].
    + exists st, data. split; [assumption|]. apply Ukept; [congruence | assumption].
    + split; [auto|]. intros q v Hq. apply Udirs. unfold t1.
      now apply dirs_after_set.
    + intros q st' d' Hq. apply Ufiles in Hq. destruct Hq as [Hqs Hq].
      unfold t1 in Hq.
      destruct (files_after_set _ _ _ _ _ _ _ _ _ _ Hp Hq) as [[E [-> ->]] | [_ Hl]].
      * left. rewrite <- (path_split_last dst Hne) in E. now split.
      * right. now split.
    + intros _. destruct (Fs.lookup t2' src) as [[st' d' | v ds]|] eqn:E; [| |reflexivity].
      * apply Ufiles in E. destruct E as [E _]. congruence.
      * exfalso. apply os_unlink_Ok in Eu.
        destruct Eu as [es1 [st1 [d1 [Hsne [Hp1 [Hc1 ->]]]]]].
        rewrite (graft_parent_lookup _ _ _ _ _ Hsne Hp1) in E.
        rewrite find_remove_same in E; [discriminate|].
        apply (wf_lookup _ _ _ Hwf1) in Hp1. now apply wf_Dir in Hp1.
Qed.

(** *** shutil *)

Lemma copy2_effect (t : node) (src dst : path) (d' : path) (t1 : node) :
  wf t = true ->
  Fs.is_dir t dst = false ->
  Shutil.copy2 src dst t = (Ok d', t1) ->
  d' = dst /\ src <> dst
  /\ file_step t t1
  /\ (exists st data, Fs.lookup t src = Some (File st data)
                      /\ Fs.lookup t1 dst = Some (File st data)
                      /\ Fs.lookup t1 src = Some (File st data))
  /\ (forall q st data,
        Fs.lookup t1 q = Some (File st data) ->
        (q = dst /\ Fs.lookup t src = Some (File st data))
        \/ (q <> dst /\ Fs.lookup t q = Some (File st data))).
Proof.
  intros Hwf Hnd. unfold Shutil.copy2. rewrite Hnd.
  destruct (Fs.exists_ t dst && Path.eqb src dst) eqn:Esame; [discriminate|].
  destruct (Fs.lookup t src) as [[st data | v ds]|] eqn:Hs; try discriminate.
  destruct (Fs.write_file t dst st data) as [t1'|e] eqn:Ew; [|discriminate].
  intro H. injection H as <- <-.
  assert (Hne : src <> dst).
  { intros <-. unfold Fs.exists_ in Esame. rewrite Hs, path_eqb_refl in Esame.
    discriminate. }
  pose proof Ew as Ew0. apply write_file_Ok in Ew0.
  destruct Ew0 as [w [es [Hdne [Hp Ht1]]]].
  destruct (write_effect t dst st data t1' Hwf Hnd Ew) as [Hstep [Hd Hfiles]].
  repeat split; try assumption; try apply Hstep.
  - exists st, data. repeat split; try assumption.
    rewrite Ht1. rewrite (path_split_last dst Hdne) in Hne.
    apply files_kept_after_set; try assumption; try reflexivity.
    intros v ds E. unfold Fs.is_dir in Hnd.
    rewrite (lookup_parent_name _ _ _ _ Hdne Hp), E in Hnd. discriminate.
  - intros q st' d' Hq. destruct (Hfiles q st' d' Hq) as [[-> [-> ->]] | [Hqn Hl]];
      [left | right]; auto.
Qed.

Lemma rename_or_copy_effect (t : node) (src rd : path) (r : path) (t2 : node) :
  wf t = true ->
  Fs.is_dir t rd = false ->
  Shutil.rename_or_copy src rd t = (Ok r, t2) ->
  r = rd /\ transferred t src rd t2.
Proof.
  intros Hwf Hnd. unfold Shutil.rename_or_copy.
  destruct (Fs.os_rename t src rd) as [t'|e] eqn:Er.
  - intro H. injection H as <- <-. split; [reflexivity|].
    now apply rename_effect.
  - destruct (is_OSError e); [|discriminate].
    destruct (Fs.is_dir t src); [discriminate|].
    unfold bind, syscall, ret.
    destruct (Shutil.copy2 src rd t) as [[d'|e1] t1] eqn:Ec; [|discriminate].
    destruct (Fs.os_unlink t1 src) as [t2'|e2] eqn:Eu; [|discriminate].
    intro H. injection H as <- <-. split; [reflexivity|].
    destruct (copy2_effect t src rd d' t1 Hwf Hnd Ec)
      as [-> [Hne [Hstep [[st [data [Hs [Hd Hs1]]]] Hfiles]]]].
    assert (Hwf1 : wf t1 = true) by now apply Hstep.
    destruct (unlink_effect t1 src t2' Hwf1 Eu) as [Ustep [Ufiles Ukept]].
    split.
    + exists st, data. split; [assumption|]. apply Ukept; [congruence | assumption].
    + now apply (file_step_trans t t1 t2').
    + intros q st' data' Hq. apply Ufiles in Hq. destruct Hq as [Hqs Hq].
      destruct (Hfiles q st' data' Hq) as [[-> Hl] | [Hqn Hl]]; [left | right]; auto.
Qed.

Lemma move_effect (t : node) (src dst : path) (rd : path) (t2 : node) :
  wf t = true ->
  Shutil.move src dst t = (Ok rd, t2) ->
  transferred t src rd t2
  /\ ((rd = dst /\ Fs.is_dir t dst = false)
      \/ (rd = dst ++ [Path.name src] /\ Fs.is_dir t dst = true)).
Proof.
  intros Hwf. unfold Shutil.move.
  destruct (Fs.is_dir t dst) eqn:Ed.
  - destruct (Fs.exists_ t (dst ++ [Path.name src])) eqn:Ex; [discriminate|].
    intro H. apply rename_or_copy_effect in H; [|assumption|].
    + destruct H as [-> Ht]. split; [assumption | right; auto].
    + unfold Fs.exists_, Fs.is_dir in *.
      now destruct (Fs.lookup t (dst ++ [Path.name src])).
  - intro H. apply rename_or_copy_effect in H; [|assumption|assumption].
    destruct H as [-> Ht]. split; [assumption | left; auto].
Qed.

(** ** The collecting walk of [organize_files] *)

Lemma list_remove_absent (d : string) (pre l : list string) :
  ~ In d pre -> DDS.list_remove d (pre ++ d :: l) = pre ++ l.
Proof.
  induction pre as [|x pre IH]; simpl; intro H.
  - now rewrite String.eqb_refl.
  - destruct (String.eqb_spec x d) as [->|Hne]; [tauto|].
    f_equal. apply IH. tauto.
Qed.

Lemma skip_year_dirs (w : world) (dirs : list string) :
  fold_left
    (fun '(dirs, w) dir_name =>
       (DDS.list_remove dir_name dirs, print (Out (SkippingYearDir dir_name)) w))
    (filter DDS.is_year_name dirs) (dirs, w)
  = (filter (fun d => negb (DDS.is_year_name d)) dirs,
     {| fs := fs w;
        out := out w ++ map (fun d => Out (SkippingYearDir d))
                            (filter DDS.is_year_name dirs) |}).
Proof.
  enough (H : forall l pre w,
             (forall d, In d pre -> DDS.is_year_name d = false) ->
             fold_left
               (fun '(dirs, w) dir_name =>
                  (DDS.list_remove dir_name dirs,
                   print (Out (SkippingYearDir dir_name)) w))
               (filter DDS.is_year_name l) (pre ++ l, w)
             = (pre ++ filter (fun d => negb (DDS.is_year_name d)) l,
                {| fs := fs w;
                   out := out w ++ map (fun d => Out (SkippingYearDir d))
                                       (filter DDS.is_year_name l) |})).
  { apply (H dirs [] w). intros d []. }
  induction l as [|x l IH]; intros pre w0 Hpre; simpl.
  - rewrite !app_nil_r. destruct w0; reflexivity.
  - destruct (DDS.is_year_name x) eqn:Ex; simpl.
    + rewrite list_remove_absent.
      * rewrite (IH pre _ Hpre). unfold print. simpl. now rewrite <- app_assoc.
      * intro Hin. apply Hpre in Hin. congruence.
    + change (pre ++ x :: l) with (pre ++ [x] ++ l). rewrite app_assoc.
      rewrite (IH (pre ++ [x]) w0).
      * now rewrite <- app_assoc.
      * intros d Hin. apply in_app_or in Hin. destruct Hin as [Hin | [<- | []]]; auto.
Qed.

Lemma append_files (root : path) (files : list string) (acc : list path) :
  fold_left (fun acc filename => acc ++ [root ++ [filename]]) files acc
  = acc ++ map (fun f => root ++ [f]) files.
Proof.
  revert acc. induction files as [|f files IH]; intro acc; simpl.
  - now rewrite app_nil_r.
  - rewrite IH. now rewrite <- app_assoc.
Qed.

Lemma scandir_Dir (t : node) (p : path) (v : bool) (es : list (string * node)) :
  Fs.lookup t p = Some (Dir v es) ->
  Fs.scandir t p
  = Ok (map fst (filter (fun e => Fs.is_dir_node (snd e)) es),
        map fst (filter (fun e => negb (Fs.is_dir_node (snd e))) es)).
Proof. unfold Fs.scandir. now intros ->. Qed.

Lemma scandir_not_dir (t : node) (p : path) :
  Fs.is_dir t p = false -> exists e, Fs.scandir t p = Raise e.
Proof.
  unfold Fs.scandir, Fs.is_dir.
  destruct (Fs.lookup t p) as [[st data | v es]|]; try discriminate; eauto.
Qed.

Lemma map_snoc_paths (root : path) (l : list (string * node)) :
  map (fun f => root ++ [f]) (map fst l) = map (fun e => root ++ [fst e]) l.
Proof. now rewrite map_map. Qed.

Lemma path_app_neq (p r : path) : r <> [] -> Path.eqb (p ++ r) p = false.
Proof.
  intro H. apply path_eqb_neq. intro E.
  apply (f_equal (@List.length string)) in E. rewrite length_app in E.
  destruct r; [contradiction | simpl in E; lia].
Qed.

Section Scan.

Variable source_path : path.
Variable t : node.
Hypothesis t_wf : wf t = true.

Let scan := os_walk (fun st : world * list path => fs (fst st)).

Lemma scan_below (fuel : nat) :
  forall rel n w acc,
    rel <> [] ->
    fs w = t ->
    Fs.lookup t (source_path ++ rel) = Some n ->
    Fs.height n <= fuel ->
    scan fuel true (DDS.scan_body source_path) (source_path ++ rel) (w, acc)
    = Some (w, acc ++ walk_files (source_path ++ rel) n).
Proof.
  unfold scan.
  induction fuel as [|fuel IH]; intros rel n w acc Hrel Hw Hn Hh;
    rewrite os_walk_unfold; simpl fst; rewrite Hw.
  - destruct n as [st data | v es]; [|simpl in Hh; lia].
    unfold Fs.scandir. rewrite Hn. simpl. now rewrite app_nil_r.
  - destruct n as [st data | v es].
    { unfold Fs.scandir. rewrite Hn. simpl. now rewrite app_nil_r. }
    rewrite (scandir_Dir _ _ _ _ Hn).
    unfold DDS.scan_body. rewrite (path_app_neq _ _ Hrel).
    rewrite append_files, map_snoc_paths. simpl walk_files.
    assert (Hes : wf (Dir v es) = true) by now apply (wf_lookup _ _ _ t_wf Hn).
    apply wf_Dir in Hes. destruct Hes as [Hnd _].
    enough (Hsub : forall l acc,
               incl l es ->
               fold_left
                 (fun (a : option (world * list path)) (d : string) =>
                    match a with
                    | Some s =>
                        os_walk (fun st : world * list path => fs (fst st)) fuel true
                                (DDS.scan_body source_path)
                                ((source_path ++ rel) ++ [d]) s
                    | None => None
                    end)
                 (map fst (filter (fun e => Fs.is_dir_node (snd e)) l))
                 (Some (w, acc))
               = Some (w, acc ++ flat_map
                                   (fun e => walk_files ((source_path ++ rel) ++ [fst e])
                                                        (snd e)) l)).
    { rewrite (Hsub es _ (incl_refl es)). now rewrite <- app_assoc. }
    induction l as [|[k c] l IHl]; intros acc0 Hincl; simpl.
    + now rewrite app_nil_r.
    + assert (Hin : In (k, c) es) by (apply Hincl; now left).
      assert (Hl : incl l es) by (intros x Hx; apply Hincl; now right).
      destruct c as [st data | v' es']; simpl.
      * now apply IHl.
      * rewrite <- app_assoc.
        rewrite (IH (rel ++ [k]) (Dir v' es') w acc0).
        -- rewrite IHl by assumption. simpl. rewrite <- ?app_assoc. reflexivity.
        -- now destruct rel.
        -- assumption.
        -- rewrite app_assoc, lookup_app, Hn. simpl.
           now rewrite (In_find_entry k es (Dir v' es') Hnd Hin).
        -- apply height_entry in Hin. rewrite height_Dir in Hh. lia.
Qed.

Lemma scan_top (fuel : nat) (w : world) (v : bool) (es : list (string * node)) :
  fs w = t ->
  Fs.lookup t source_path = Some (Dir v es) ->
  Fs.height (Dir v es) <= fuel ->
  scan fuel true (DDS.scan_body source_path) source_path (w, [])
  = Some ({| fs := fs w;
             out := out w ++ map (fun d => Out (SkippingYearDir d))
                                 (year_dirs (Dir v es)) |},
          top_files source_path (Dir v es)).
Proof.
  intros Hw Hn Hh. unfold scan. rewrite os_walk_unfold. simpl fst. rewrite Hw.
  rewrite (scandir_Dir _ _ _ _ Hn).
  destruct fuel as [|fuel]; [simpl in Hh; lia|].
  unfold DDS.scan_body. rewrite path_eqb_refl.
  rewrite skip_year_dirs, append_files, map_snoc_paths. simpl app.
  set (w1 := {| fs := fs w; out := _ |}).
  assert (Hw1 : fs w1 = t) by exact Hw.
  assert (Hes : wf (Dir v es) = true) by now apply (wf_lookup _ _ _ t_wf Hn).
  apply wf_Dir in Hes. destruct Hes as [Hnd _].
  unfold top_files.
  enough (Hsub : forall l acc,
             incl l es ->
             fold_left
               (fun (a : option (world * list path)) (d : string) =>
                  match a with
                  | Some s =>
                      os_walk (fun st : world * list path => fs (fst st)) fuel true
                              (DDS.scan_body source_path) (source_path ++ [d]) s
                  | None => None
                  end)
               (filter (fun d => negb (DDS.is_year_name d))
                       (map fst (filter (fun e => Fs.is_dir_node (snd e)) l)))
               (Some (w1, acc))
             = Some (w1, acc ++ flat_map
                                  (fun e => if DDS.is_year_name (fst e) then []
                                            else walk_files (source_path ++ [fst e])
                                                            (snd e)) l)).
  { rewrite (Hsub es _ (incl_refl es)). unfold w1. now rewrite ?Hw. }
  induction l as [|[k c] l IHl]; intros acc0 Hincl; simpl.
  - now rewrite app_nil_r.
  - assert (Hin : In (k, c) es) by (apply Hincl; now left).
    assert (Hl : incl l es) by (intros x Hx; apply Hincl; now right).
    destruct c as [st data | v' es']; simpl.
    + destruct (DDS.is_year_name k); simpl; now apply IHl.
    + destruct (DDS.is_year_name k) eqn:Ek; simpl.
      * now apply IHl.
      * pose proof (scan_below fuel [k] (Dir v' es') w1 acc0) as Hb.
        unfold scan in Hb. rewrite Hb.
        -- rewrite IHl by assumption. simpl. rewrite <- ?app_assoc. reflexivity.
        -- discriminate.
        -- assumption.
        -- rewrite lookup_app, Hn. simpl.
           now rewrite (In_find_entry k es (Dir v' es') Hnd Hin).
        -- apply height_entry in Hin. rewrite height_Dir in Hh. lia.
Qed.

End Scan.

Lemma is_file_lookup (n : node) (p : path) :
  Fs.is_file n p = true <-> exists st data, Fs.lookup n p = Some (File st data).
Proof.
  unfold Fs.is_file. destruct (Fs.lookup n p) as [[st data | v es]|]; split;
    try discriminate; eauto; intros [st' [d' H]]; discriminate.
Qed.

Lemma is_file_cons (v : bool) (es : list (string * node)) (k : string) (rel : path) :
  Fs.is_file (Dir v es) (k :: rel)
  = match Fs.find_entry k es with
    | Some c => Fs.is_file c rel
    | None => false
    end.
Proof. unfold Fs.is_file. simpl. now destruct (Fs.find_entry k es). Qed.

Lemma In_walk_files (n : node) :
  forall root f,
    wf n = true ->
    (In f (walk_files root n)
     <-> exists rel, rel <> [] /\ f = root ++ rel /\ Fs.is_file n rel = true).
Proof.
  induction n as [st data | v es IH] using node_induction; intros root f Hwf.
  - simpl. split; [tauto|]. intros [rel [Hrel [_ H]]].
    destruct rel; [contradiction | discriminate].
  - rewrite Forall_forall in IH. apply wf_Dir in Hwf. destruct Hwf as [Hnd Hall].
    simpl walk_files. rewrite in_app_iff, in_map_iff, in_flat_map. split.
    + intros [[[k c] [<- Hin]] | [[k c] [Hin Hf]]].
      * apply filter_In in Hin. destruct Hin as [Hin Hc]. simpl in *.
        exists [k]. split; [discriminate|]. split; [reflexivity|].
        rewrite is_file_cons, (In_find_entry k es c Hnd Hin).
        destruct c; [reflexivity | discriminate].
      * simpl in Hf. apply (IH (k, c) Hin) in Hf; [|now apply (Hall k c)].
        destruct Hf as [rel [Hrel [-> Hfile]]].
        exists (k :: rel). split; [discriminate|]. split; [now rewrite <- app_assoc|].
        now rewrite is_file_cons, (In_find_entry k es c Hnd Hin).
    + intros [rel [Hrel [-> Hfile]]]. destruct rel as [|k rel]; [contradiction|].
      rewrite is_file_cons in Hfile.
      destruct (Fs.find_entry k es) as [c|] eqn:E; [|discriminate].
      apply find_entry_In in E.
      destruct rel as [|k' rel].
      * left. exists (k, c). split; [reflexivity|]. apply filter_In. split; [assumption|].
        simpl. destruct c; [reflexivity | discriminate].
      * right. exists (k, c). split; [assumption|]. simpl.
        apply (IH (k, c) E); [now apply (Hall k c)|].
        exists (k' :: rel). split; [discriminate|]. split; [now rewrite <- app_assoc|].
        assumption.
Qed.

Lemma In_top_files (source_path : path) (n : node) (f : path) :
  wf n = true ->
  (In f (top_files source_path n)
   <-> exists rel, rel <> [] /\ f = source_path ++ rel
                   /\ Fs.is_file n rel = true /\ pruned rel = false).
Proof.
  intro Hwf. destruct n as [st data | v es].
  - simpl. split; [tauto|]. intros [rel [Hrel [_ [H _]]]].
    destruct rel; [contradiction | discriminate].
  - pose proof Hwf as Hwf0. apply wf_Dir in Hwf. destruct Hwf as [Hnd Hall].
    unfold top_files. rewrite in_app_iff, in_map_iff, in_flat_map. split.
    + intros [[[k c] [<- Hin]] | [[k c] [Hin Hf]]].
      * apply filter_In in Hin. destruct Hin as [Hin Hc]. simpl in *.
        exists [k]. split; [discriminate|]. split; [reflexivity|].
        rewrite is_file_cons, (In_find_entry k es c Hnd Hin).
        split; [|reflexivity]. destruct c; [reflexivity | discriminate].
      * simpl in Hf. destruct (DDS.is_year_name k) eqn:Ek; [contradiction|].
        apply In_walk_files in Hf; [|now apply (Hall k c)].
        destruct Hf as [rel [Hrel [-> Hfile]]].
        exists (k :: rel). split; [discriminate|]. split; [now rewrite <- app_assoc|].
        rewrite is_file_cons, (In_find_entry k es c Hnd Hin).
        split; [assumption|]. simpl. now destruct rel.
    + intros [rel [Hrel [-> [Hfile Hp]]]]. destruct rel as [|k rel]; [contradiction|].
      rewrite is_file_cons in Hfile.
      destruct (Fs.find_entry k es) as [c|] eqn:E; [|discriminate].
      apply find_entry_In in E.
      destruct rel as [|k' rel].
      * left. exists (k, c). split; [reflexivity|]. apply filter_In. split; [assumption|].
        simpl. destruct c; [reflexivity | discriminate].
      * right. exists (k, c). split; [assumption|]. simpl in *. rewrite Hp.
        apply In_walk_files; [now apply (Hall k c)|].
        exists (k' :: rel). split; [discriminate|]. split; [now rewrite <- app_assoc|].
        assumption.
Qed.

(** The collecting loop ends, changes nothing in the tree, reports the
    year directories at the top and returns the files outside them. *)
Lemma DDS_collect_spec (source_path : path) (w : world) (v : bool)
      (es : list (string * node)) :
  wf (fs w) = true ->
  Fs.lookup (fs w) source_path = Some (Dir v es) ->
  DDS.collect source_path w
  = Some ({| fs := fs w;
             out := out w ++ map (fun d => Out (SkippingYearDir d))
                                 (year_dirs (Dir v es)) |},
          top_files source_path (Dir v es)).
Proof.
  intros Hwf Hn. unfold DDS.collect.
  apply (scan_top source_path (fs w) Hwf); [reflexivity | assumption |].
  pose proof (height_at_le (fs w) source_path) as H.
  unfold height_at in H. now rewrite Hn in H.
Qed.

(** ** Runs that only report *)

Lemma creation_year_fs (plat : platform) (file_path : path) (w w' : world) (r : res Z) :
  creation_year plat file_path w = (r, w') -> fs w' = fs w.
Proof.
  unfold creation_year.
  repeat case_match; intro H; injection H as <- <-; reflexivity.
Qed.

Lemma DDS_try_block_dry_fs (plat : platform) (source_path file_path : path)
      (w w' : world) (r : res DDS.ending) :
  DDS.try_block plat true source_path file_path w = (r, w') -> fs w' = fs w.
Proof.
  unfold DDS.try_block, DDS.get_file_creation_date, bind, of_res, ret, say. simpl.
  destruct (creation_year plat file_path w) as [[y|e] w1] eqn:Ey;
    apply creation_year_fs in Ey.
  - repeat case_match; intro H; injection H as <- <-; assumption.
  - intro H. now injection H as <- <-.
Qed.

Lemma DDS_process_file_dry_fs (plat : platform) (source_path : path)
      (st : progress) (file_path : path) :
  fs (now (DDS.process_file plat true source_path st file_path)) = fs (now st).
Proof.
  unfold DDS.process_file.
  destruct (DDS.try_block plat true source_path file_path (now st)) as [[[|]|e] w] eqn:E;
    apply DDS_try_block_dry_fs in E; assumption.
Qed.

Lemma DDS_process_all_dry_fs (plat : platform) (source_path : path)
      (files : list path) (w : world) :
  fs (now (DDS.process_all plat true source_path files w)) = fs w.
Proof.
  unfold DDS.process_all.
  set (st0 := {| now := w; moved_count := 0; error_count := 0 |}).
  change (fs w) with (fs (now st0)). generalize st0. clear st0.
  induction files as [|f files IH]; intro st; simpl; [reflexivity|].
  rewrite IH. apply DDS_process_file_dry_fs.
Qed.

Lemma DDS_scan_body_fs (source_path root : path) (dirs files : list string)
      (st : world * list path) :
  fs (fst (snd (DDS.scan_body source_path root dirs files st))) = fs (fst st).
Proof.
  destruct st as [w acc]. unfold DDS.scan_body.
  destruct (Path.eqb root source_path); [|reflexivity].
  now rewrite skip_year_dirs.
Qed.

(** The collecting loop always comes to an end and leaves the tree alone. *)
Lemma DDS_collect_total (source_path : path) (w : world) :
  exists w' files,
    DDS.collect source_path w = Some (w', files) /\ fs w' = fs w.
Proof.
  unfold DDS.collect.
  destruct (os_walk_total (fun st : world * list path => fs (fst st))
              (DDS.scan_body source_path)
              (fun root dirs files st q =>
                 eq_ind_r (fun t => height_at t q <= height_at (fs (fst st)) q)
                          (le_n _) (DDS_scan_body_fs source_path root dirs files st))
              (Fs.height (fs w)) true source_path (w, []))
    as [[w' files] [E _]].
  { apply height_at_le. }
  exists w', files. split; [assumption|].
  change (fs (fst (w', files)) = fs w).
  apply (os_walk_invariant (fun st : world * list path => fs (fst st))
           (DDS.scan_body source_path) source_path
           (fun st => fs (fst st) = fs w))
    with (fuel := Fs.height (fs w)) (topdown := true) (st := (w, [])).
  - intros rel dirs fl st H. now rewrite DDS_scan_body_fs.
  - reflexivity.
  - exact E.
Qed.

Lemma FYO_try_block_dry_fs (plat : platform) (copy full_path : bool)
      (source_path file_path : path) (w w' : world) (r : res bool) :
  FYO.try_block plat copy true full_path source_path file_path w = (r, w') ->
  fs w' = fs w.
Proof.
  unfold FYO.try_block, FYO.file_creation_date, FYO.shown, bind, of_res, ret, say. simpl.
  destruct (creation_year plat file_path w) as [[y|e] w1] eqn:Ey;
    apply creation_year_fs in Ey.
  - destruct full_path; repeat case_match; intro H; injection H as <- <-; assumption.
  - intro H. now injection H as <- <-.
Qed.

Lemma FYO_process_file_dry_fs (plat : platform) (copy full_path : bool)
      (source_path root_path : path) (st : progress) (filename : string) :
  fs (now (FYO.process_file plat copy true full_path source_path root_path st filename))
  = fs (now st).
Proof.
  unfold FYO.process_file.
  destruct (FYO.try_block plat copy true full_path source_path
              (root_path ++ [filename]) (now st)) as [[[|]|e] w] eqn:E;
    apply FYO_try_block_dry_fs in E; assumption.
Qed.

Lemma FYO_walk_body_dry_fs (plat : platform) (copy full_path : bool)
      (source_path root : path) (dirs files : list string) (st : progress) :
  fs (now (snd (FYO.walk_body plat copy true full_path source_path root dirs files st)))
  = fs (now st).
Proof.
  unfold FYO.walk_body. simpl. revert st.
  induction files as [|f files IH]; intro st; simpl; [reflexivity|].
  rewrite IH. apply FYO_process_file_dry_fs.
Qed.

(** C2.  A run with the dry-run flag comes to an end and leaves the tree as
    it found it: every file and directory, with contents and time stamps.
    This holds for [organize_files] on every tree, and for [move_files] in
    move and in copy mode on every tree, given a bound on the depth of the
    walk that is at least the height of the tree. *)
Theorem dry_run_changes_nothing (plat : platform) (source_dir : path) (w : world) :
  (exists c w',
      DDS.organize_files plat source_dir true w = Some (c, w') /\ fs w' = fs w)
  /\ (forall fuel copy full_path,
         Fs.height (fs w) <= fuel ->
         exists st,
           FYO.move_files fuel plat source_dir copy true full_path w = Some st
           /\ fs (now st) = fs w).
Proof.
  split.
  - unfold DDS.organize_files.
    destruct (Fs.exists_ (fs w) source_dir); simpl; [|eauto].
    destruct (Fs.is_dir (fs w) source_dir); simpl; [|eauto].
    set (w1 := print (Out DryRunBanner) (print (Out (Organizing source_dir)) w)).
    destruct (DDS_collect_total source_dir w1) as [w2 [files [E H2]]].
    rewrite E. eexists. eexists. split; [reflexivity|].
    destruct (0 <? _)%nat; simpl; rewrite DDS_process_all_dry_fs; simpl; exact H2.
  - intros fuel copy full_path Hfuel. unfold FYO.move_files.
    set (st0 := {| now := w; moved_count := 0; error_count := 0 |}).
    set (body := FYO.walk_body plat copy true full_path source_dir).
    destruct (os_walk_total (fun st => fs (now st)) body
                (fun root dirs files st q =>
                   eq_ind_r (fun t => height_at t q <= height_at (fs (now st)) q)
                            (le_n _)
                            (FYO_walk_body_dry_fs plat copy full_path source_dir
                               root dirs files st))
                fuel true source_dir st0) as [st [E _]].
    { pose proof (height_at_le (fs w) source_dir). simpl. lia. }
    exists st. split; [assumption|].
    apply (os_walk_invariant (fun st => fs (now st)) body source_dir
             (fun st => fs (now st) = fs w))
      with (fuel := fuel) (topdown := true) (st := st0).
    + intros rel dirs fl s H. unfold body. now rewrite FYO_walk_body_dry_fs.
    + reflexivity.
    + exact E.
Qed.

Lemma dry_run_changes_nothing_witness :
  exists st,
    FYO.move_files 3 Posix ["photos"] false true false photos = Some st
    /\ fs (now st) = fs photos.
Proof.
  apply (proj2 (dry_run_changes_nothing Posix ["photos"] photos) 3 false false).
  vm_compute. lia.
Defined.

(** ** Where a file goes *)

Lemma DDS_collected_below (source_path : path) (w w' : world) (files : list path) :
  DDS.collect source_path w = Some (w', files) ->
  forall f, In f files -> exists rel, f = source_path ++ rel.
Proof.
  intro E.
  change (forall f, In f (snd (w', files)) -> exists rel, f = source_path ++ rel).
  apply (os_walk_invariant (fun st : world * list path => fs (fst st))
           (DDS.scan_body source_path) source_path
           (fun st => forall f, In f (snd st) -> exists rel, f = source_path ++ rel))
    with (fuel := Fs.height (fs w)) (topdown := true) (st := (w, [])).
  - intros rel dirs fl [w0 acc] H f. unfold DDS.scan_body.
    destruct (if Path.eqb (source_path ++ rel) source_path then _ else _) as [ds w1].
    simpl. rewrite append_files. intro Hin. apply in_app_or in Hin.
    destruct Hin as [Hin | Hin]; [now apply H|].
    apply in_map_iff in Hin. destruct Hin as [x [<- _]].
    exists (rel ++ [x]). now rewrite app_assoc.
  - intros f [].
  - exact E.
Qed.

Lemma parent_prefix (p : path) : exists tl, p = Path.parent p ++ tl.
Proof.
  destruct p as [|c p].
  - now exists [].
  - exists [Path.name (c :: p)]. apply path_split_last. discriminate.
Qed.

Lemma creation_year_Ok (plat : platform) (f : path) (w w' : world) (y : Z) :
  creation_year plat f w = (Ok y, w') ->
  w' = w
  /\ exists s data, Fs.lookup (fs w) f = Some (File s data) /\ year_of_stat plat s = Ok y.
Proof.
  unfold creation_year, Fs.os_stat, year_of_stat.
  destruct (Fs.lookup (fs w) f) as [[s data | v es]|]; try discriminate.
  destruct (Py.fromtimestamp_year _) as [y'|e] eqn:E; [|discriminate].
  intro H. injection H as <- <-. split; [reflexivity|]. now exists s, data.
Qed.

(** The [try] block on a file below the source directory whose year can be
    read: the line, the directories, the move. *)
Lemma DDS_try_block_run (plat : platform) (dry_run : bool)
      (source_path rel : path) (year : Z) (w w0 : world) :
  creation_year plat (source_path ++ rel) w = (Ok year, w0) ->
  DDS.try_block plat dry_run source_path (source_path ++ rel) w
  = let dest := source_path ++ [Py.str year] ++ rel in
    let w1 := print (Out (Moving rel (Py.str year :: rel))) w in
    if dry_run then (Ok DDS.Counted, w1)
    else
      match Fs.mkdir_p (fs w) (Path.parent dest) with
      | Raise e => (Raise e, w1)
      | Ok t1 =>
          match Shutil.move (source_path ++ rel) dest t1 with
          | (Ok _, t2) => (Ok DDS.Counted, set_fs w1 t2)
          | (Raise e, t2) => (Raise e, set_fs w1 t2)
          end
      end.
Proof.
  intro Hy. destruct (creation_year_Ok _ _ _ _ _ Hy) as [-> _].
  unfold DDS.try_block, DDS.get_file_creation_date, bind, of_res, ret, say, on_fs, syscall.
  rewrite Hy, relative_to_app.
  rewrite (DDS_destination_differs source_path _ rel year (relative_to_app _ _)).
  unfold DDS.new_file_path. rewrite <- app_assoc.
  cbn -[Path.parent Fs.mkdir_p Shutil.move Py.str app].
  destruct dry_run; cbn -[Path.parent Fs.mkdir_p Shutil.move Py.str app]; [reflexivity|].
  destruct (Fs.mkdir_p (fs w) _) as [t1|e];
    cbn -[Path.parent Fs.mkdir_p Shutil.move Py.str app]; [|reflexivity].
  destruct (Shutil.move _ _ t1) as [[rd|e] t2]; reflexivity.
Qed.

(** When the year cannot be read the [try] block ends there. *)
Lemma DDS_try_block_no_year (plat : platform) (dry_run : bool)
      (source_path f : path) (e : exn) (w w1 : world) :
  creation_year plat f w = (Raise e, w1) ->
  DDS.try_block plat dry_run source_path f w = (Raise e, w1).
Proof.
  intro Hy. unfold DDS.try_block, DDS.get_file_creation_date, bind. now rewrite Hy.
Qed.

Lemma FYO_try_block_run (plat : platform) (copy dry_run full_path : bool)
      (source_path rel : path) (year : Z) (w w0 : world) :
  let anchor := Path.parent source_path in
  creation_year plat (anchor ++ rel) w = (Ok year, w0) ->
  FYO.try_block plat copy dry_run full_path source_path (anchor ++ rel) w
  = let dest := anchor ++ [Py.str year] ++ rel in
    let a := if full_path then anchor ++ rel else rel in
    let b := if full_path then dest else Py.str year :: rel in
    if dry_run then (Ok false, print (Out (WouldMove a b)) w)
    else
      let w1 := print (Out (Moving a b)) w in
      match Fs.mkdir_p (fs w) (Path.parent dest) with
      | Raise e => (Raise e, w1)
      | Ok t1 =>
          match (if copy then Shutil.copy2 (anchor ++ rel) dest t1
                 else Shutil.move (anchor ++ rel) dest t1) with
          | (Ok _, t2) => (Ok true, set_fs w1 t2)
          | (Raise e, t2) => (Raise e, set_fs w1 t2)
          end
      end.
Proof.
  intros anchor Hy. destruct (creation_year_Ok _ _ _ _ _ Hy) as [-> _].
  unfold FYO.try_block, FYO.file_creation_date, FYO.shown, bind, of_res, ret, say,
    on_fs, syscall.
  fold anchor. rewrite Hy, relative_to_app.
  unfold FYO.new_file_path. fold anchor. rewrite <- app_assoc.
  assert (Hb : Path.relative_to (anchor ++ [Py.str year] ++ rel) anchor
               = Ok (Py.str year :: rel)) by apply relative_to_app.
  destruct dry_run, full_path, copy;
    cbn -[Path.parent Fs.mkdir_p Shutil.move Shutil.copy2 Py.str app Path.relative_to];
    rewrite ?relative_to_app, ?Hb;
    cbn -[Path.parent Fs.mkdir_p Shutil.move Shutil.copy2 Py.str app Path.relative_to];
    try reflexivity;
    (destruct (Fs.mkdir_p (fs w) _) as [t1|e];
     cbn -[Path.parent Fs.mkdir_p Shutil.move Shutil.copy2 Py.str app Path.relative_to];
     [|reflexivity]);
    match goal with
    | |- context [Shutil.copy2 ?a ?b t1] => destruct (Shutil.copy2 a b t1) as [[rd|e] t2]
    | |- context [Shutil.move ?a ?b t1] => destruct (Shutil.move a b t1) as [[rd|e] t2]
    end; reflexivity.
Qed.

(** C1.  For a file that the collecting walk of [organize_files] has found,
    and for a file below the source directory of [move_files], the [try]
    block computes the destination from the year that the Dater reads for
    the file, which is the year of the birth time that [os.stat] reports
    for it, or of its creation time (Windows) or modification time where
    there is no birth time: the destination is the anchor directory, then
    that year as a decimal string, then the path of the file relative to
    the anchor, unchanged.
    The block prints the two paths, and unless it is a dry run it creates
    the directory of that destination and hands the file and that
    destination to [shutil.move] ([shutil.copy2] in copy mode).  The anchor
    of [organize_files] is the source directory, the anchor of [move_files]
    is its parent. *)
Theorem destination_keeps_relative_path :
  (forall source_path ws ws' files f,
      DDS.collect source_path ws = Some (ws', files) ->
      In f files ->
      exists rel,
        f = source_path ++ rel
        /\ Path.relative_to f source_path = Ok rel
        /\ forall plat dry_run w w0 year,
            creation_year plat f w = (Ok year, w0) ->
            let dest := source_path ++ [Py.str year] ++ rel in
            (exists s data,
                Fs.lookup (fs w) f = Some (File s data)
                /\ year_of_stat plat s = Ok year)
            /\ DDS.new_file_path source_path year rel = dest
            /\ Path.relative_to dest (source_path ++ [Py.str year]) = Ok rel
            /\ DDS.try_block plat dry_run source_path f w
               = let w1 := print (Out (Moving rel (Py.str year :: rel))) w in
                 if dry_run then (Ok DDS.Counted, w1)
                 else
                   match Fs.mkdir_p (fs w) (Path.parent dest) with
                   | Raise e => (Raise e, w1)
                   | Ok t1 =>
                       match Shutil.move f dest t1 with
                       | (Ok _, t2) => (Ok DDS.Counted, set_fs w1 t2)
                       | (Raise e, t2) => (Raise e, set_fs w1 t2)
                       end
                   end)
  /\ (forall source_path below,
         let anchor := Path.parent source_path in
         let f := source_path ++ below in
         exists rel,
           f = anchor ++ rel
           /\ Path.relative_to f anchor = Ok rel
           /\ forall plat copy dry_run full_path w w0 year,
               creation_year plat f w = (Ok year, w0) ->
               let dest := anchor ++ [Py.str year] ++ rel in
               (exists s data,
                   Fs.lookup (fs w) f = Some (File s data)
                   /\ year_of_stat plat s = Ok year)
               /\ FYO.new_file_path source_path year rel = dest
               /\ Path.relative_to dest (anchor ++ [Py.str year]) = Ok rel
               /\ FYO.try_block plat copy dry_run full_path source_path f w
                  = let a := if full_path then f else rel in
                    let b := if full_path then dest else Py.str year :: rel in
                    if dry_run then (Ok false, print (Out (WouldMove a b)) w)
                    else
                      let w1 := print (Out (Moving a b)) w in
                      match Fs.mkdir_p (fs w) (Path.parent dest) with
                      | Raise e => (Raise e, w1)
                      | Ok t1 =>
                          match (if copy then Shutil.copy2 f dest t1
                                 else Shutil.move f dest t1) with
                          | (Ok _, t2) => (Ok true, set_fs w1 t2)
                          | (Raise e, t2) => (Raise e, set_fs w1 t2)
                          end
                      end).
Proof.
  split.
  - intros source_path ws ws' files f E Hin.
    destruct (DDS_collected_below source_path ws ws' files E f Hin) as [rel ->].
    exists rel. split; [reflexivity|]. split; [apply relative_to_app|].
    intros plat dry_run w w0 year Hy dest. split; [|split; [|split]].
    + apply (creation_year_Ok _ _ _ _ _ Hy).
    + unfold DDS.new_file_path, dest. now rewrite <- app_assoc.
    + unfold dest. rewrite app_assoc. apply relative_to_app.
    + apply (DDS_try_block_run plat dry_run source_path rel year w w0 Hy).
  - intros source_path below anchor f.
    destruct (parent_prefix source_path) as [tl Htl]. fold anchor in Htl.
    assert (E : f = anchor ++ tl ++ below).
    { unfold f. rewrite Htl at 1. now rewrite <- app_assoc. }
    exists (tl ++ below). split; [assumption|].
    split; [rewrite E; apply relative_to_app|].
    intros plat copy dry_run full_path w w0 year Hy dest. split; [|split; [|split]].
    + apply (creation_year_Ok _ _ _ _ _ Hy).
    + unfold FYO.new_file_path, dest. fold anchor. now rewrite <- app_assoc.
    + unfold dest. rewrite app_assoc. apply relative_to_app.
    + rewrite E in Hy |- *.
      apply (FYO_try_block_run plat copy dry_run full_path source_path
                               (tl ++ below) year w w0 Hy).
Qed.

Lemma destination_keeps_relative_path_witness :
  DDS.try_block Posix false ["photos"] ["photos"; "sub"; "b.jpg"] photos
  = (Ok DDS.Counted,
     {| fs := Dir true
                [("photos",
                  Dir true
                    [("a.jpg", File (stamp 1577836800) "a");
                     ("sub", Dir true []);
                     ("2021",
                      Dir true
                        [("sub", Dir true [("b.jpg", File (stamp 1609459200) "b")])])])];
        out := [Out (Moving ["sub"; "b.jpg"] ["2021"; "sub"; "b.jpg"])] |}).
Proof.
  destruct (proj1 destination_keeps_relative_path
                  ["photos"] photos photos
                  [["photos"; "a.jpg"]; ["photos"; "sub"; "b.jpg"]]
                  ["photos"; "sub"; "b.jpg"] eq_refl (or_intror (or_introl eq_refl)))
    as [rel [_ [Hrel H]]].
  injection Hrel as <-.
  destruct (H Posix false photos photos 2021%Z eq_refl) as [_ [_ [_ Ht]]].
  rewrite Ht. reflexivity.
Defined.

(** ** Every turn of the processing loops keeps the tree well formed *)

Lemma mkdir_p_step (t : node) (p : path) (t1 : node) :
  Fs.mkdir_p t p = Ok t1 -> file_step t t1.
Proof.
  intro H. split.
  - intro Hwf. now apply (wf_mkdir_p t p).
  - intros q v. unfold dir_flag. now apply (mkdir_p_dirs t p t1 H).
Qed.

Lemma write_file_step (t : node) (dst : path) (st : stat_result) (data : string)
      (t1 : node) :
  Fs.is_dir t dst = false ->
  Fs.write_file t dst st data = Ok t1 -> file_step t t1.
Proof.
  intros Hnd H. pose proof H as H0. apply write_file_Ok in H0.
  destruct H0 as [w [es [Hne [Hp ->]]]]. split.
  - intro Hwf. apply wf_graft; [assumption|].
    apply wf_set_entry; [now apply (wf_lookup _ _ _ Hwf Hp) | reflexivity].
  - intros q v0 Hq. apply dirs_after_set; try assumption.
    intros v ds E. unfold Fs.is_dir in Hnd.
    rewrite (lookup_parent_name _ _ _ _ Hne Hp), E in Hnd. discriminate.
Qed.

Lemma write_file_not_dir (t : node) (dst : path) (st : stat_result) (data : string)
      (t1 : node) :
  Fs.write_file t dst st data = Ok t1 -> Fs.is_dir t dst = false.
Proof.
  intro H. unfold Fs.write_file in H. destruct dst as [|c dst]; [discriminate|].
  apply alter_dir_Ok in H. destruct H as [w [es [es' [Hp [Hf _]]]]].
  assert (Hne : c :: dst <> []) by discriminate.
  unfold Fs.is_dir. rewrite (lookup_parent_name _ _ _ _ Hne Hp).
  destruct (Fs.find_entry (Path.name (c :: dst)) es) as [[? ?|? ?]|]; try reflexivity.
  discriminate.
Qed.

Lemma copy2_step (t : node) (src dst : path) (r : res path) (t1 : node) :
  Shutil.copy2 src dst t = (r, t1) -> file_step t t1.
Proof.
  unfold Shutil.copy2.
  set (dst' := if Fs.is_dir t dst then dst ++ [Path.name src] else dst).
  destruct (Fs.exists_ t dst' && Path.eqb src dst').
  { intro H. injection H as _ <-. apply file_step_refl. }
  destruct (Fs.lookup t src) as [[st data | v ds]|];
    try (intro H; injection H as _ <-; apply file_step_refl).
  destruct (Fs.write_file t dst' st data) as [t'|e] eqn:Ew;
    intro H; injection H as _ <-; [|apply file_step_refl].
  apply (write_file_step t dst' st data); [|assumption].
  now apply (write_file_not_dir t dst' st data t').
Qed.

Lemma unlink_step (t : node) (src : path) (t2 : node) :
  wf t = true -> Fs.os_unlink t src = Ok t2 -> file_step t t2.
Proof. intros Hwf H. now apply (unlink_effect t src t2 Hwf). Qed.

Lemma rename_or_copy_step (t : node) (src rd : path) (r : res path) (t2 : node) :
  wf t = true -> Shutil.rename_or_copy src rd t = (r, t2) -> file_step t t2.
Proof.
  intro Hwf. unfold Shutil.rename_or_copy.
  destruct (Fs.os_rename t src rd) as [t'|e] eqn:Er.
  - intro H. injection H as _ <-.
    now apply (rename_effect t src rd t' Hwf).
  - destruct (is_OSError e); [|intro H; injection H as _ <-; apply file_step_refl].
    destruct (Fs.is_dir t src); [intro H; injection H as _ <-; apply file_step_refl|].
    unfold bind, syscall, ret.
    destruct (Shutil.copy2 src rd t) as [[d'|e1] t1] eqn:Ec;
      apply copy2_step in Ec.
    + destruct (Fs.os_unlink t1 src) as [t2'|e2] eqn:Eu;
        intro H; injection H as _ <-; [|assumption].
      apply (file_step_trans t t1 t2'); [assumption|].
      apply (unlink_step t1 src); [now apply Ec | assumption].
    + intro H. now injection H as _ <-.
Qed.

Lemma move_step (t : node) (src dst : path) (r : res path) (t2 : node) :
  wf t = true -> Shutil.move src dst t = (r, t2) -> file_step t t2.
Proof.
  intro Hwf. unfold Shutil.move.
  destruct (Fs.is_dir t dst).
  - destruct (Fs.exists_ t (dst ++ [Path.name src])).
    + intro H. injection H as _ <-. apply file_step_refl.
    + now apply rename_or_copy_step.
  - now apply rename_or_copy_step.
Qed.

Lemma mkdir_syscall_step (t : node) (p : path) (r : res unit) (t1 : node) :
  syscall (fun t => Fs.mkdir_p t p) t = (r, t1) -> file_step t t1.
Proof.
  unfold syscall. destruct (Fs.mkdir_p t p) as [t'|e] eqn:E;
    intro H; injection H as _ <-; [now apply (mkdir_p_step t p) | apply file_step_refl].
Qed.

Lemma DDS_try_block_step (plat : platform) (dry_run : bool)
      (source_path file_path : path) (w w' : world) (r : res DDS.ending) :
  wf (fs w) = true ->
  DDS.try_block plat dry_run source_path file_path w = (r, w') ->
  file_step (fs w) (fs w').
Proof.
  intro Hwf.
  unfold DDS.try_block, DDS.get_file_creation_date, bind, of_res, ret, say, on_fs.
  destruct (creation_year plat file_path w) as [[y|e] w1] eqn:Ey;
    apply creation_year_fs in Ey;
    [| intro H; injection H as _ <-; rewrite Ey; apply file_step_refl].
  destruct (Path.relative_to file_path source_path) as [rel|e];
    [| intro H; injection H as _ <-; rewrite Ey; apply file_step_refl].
  destruct (Path.eqb file_path _);
    [intro H; injection H as _ <-; rewrite Ey; apply file_step_refl|].
  destruct dry_run; simpl.
  { intro H. injection H as _ <-. simpl. rewrite Ey. apply file_step_refl. }
  rewrite Ey.
  destruct (syscall _ (fs w)) as [[[]|e] t1] eqn:Em; apply mkdir_syscall_step in Em; simpl.
  - destruct (Shutil.move _ _ t1) as [[rd|e] t2] eqn:Ev;
      apply move_step in Ev; try (now apply Em);
      intro H; injection H as _ <-; simpl;
      now apply (file_step_trans (fs w) t1 t2).
  - intro H. now injection H as _ <-.
Qed.

Lemma DDS_process_file_step (plat : platform) (dry_run : bool)
      (source_path : path) (st : progress) (file_path : path) :
  wf (fs (now st)) = true ->
  file_step (fs (now st))
            (fs (now (DDS.process_file plat dry_run source_path st file_path))).
Proof.
  intro Hwf. unfold DDS.process_file.
  destruct (DDS.try_block plat dry_run source_path file_path (now st))
    as [[[|]|e] w] eqn:E; apply DDS_try_block_step in E; assumption.
Qed.

Lemma DDS_process_all_step (plat : platform) (dry_run : bool) (source_path : path)
      (files : list path) (w : world) :
  wf (fs w) = true ->
  file_step (fs w) (fs (now (DDS.process_all plat dry_run source_path files w))).
Proof.
  unfold DDS.process_all.
  set (st0 := {| now := w; moved_count := 0; error_count := 0 |}).
  change (fs w) with (fs (now st0)). generalize st0. clear st0.
  induction files as [|f files IH]; intros st Hwf; simpl; [apply file_step_refl|].
  pose proof (DDS_process_file_step plat dry_run source_path st f Hwf) as Hs.
  apply (file_step_trans _ _ _ Hs). apply IH. now apply Hs.
Qed.

(** ** The reconciliation pass, as a function of the tree *)

Lemma cleanup_body_fs (root_path top : path) (dirs files : list string) (w : world) :
  fs (snd (DDS.cleanup_body root_path top dirs files w)) = cleanup_fs root_path top (fs w).
Proof.
  unfold cleanup_fs, DDS.cleanup_body. simpl.
  repeat case_match; reflexivity.
Qed.

Lemma find_entry_app_skip (k : string) (done l : list (string * node)) :
  ~ In k (map fst done) -> Fs.find_entry k (done ++ l) = Fs.find_entry k l.
Proof.
  induction done as [|[x m] done IH]; simpl; intro H; [reflexivity|].
  destruct (String.eqb_spec x k); [tauto | apply IH; tauto].
Qed.

Lemma set_entry_app_skip (k : string) (c c' : node) (done l : list (string * node)) :
  ~ In k (map fst done) ->
  Fs.set_entry k c' (done ++ (k, c) :: l) = done ++ (k, c') :: l.
Proof.
  induction done as [|[x m] done IH]; simpl; intro H.
  - now rewrite String.eqb_refl.
  - destruct (String.eqb_spec x k); [tauto|]. f_equal. apply IH. tauto.
Qed.

Lemma remove_entry_app_skip (k : string) (c : node) (done l : list (string * node)) :
  ~ In k (map fst done) ->
  Fs.remove_entry k (done ++ (k, c) :: l) = done ++ l.
Proof.
  induction done as [|[x m] done IH]; simpl; intro H.
  - now rewrite String.eqb_refl.
  - destruct (String.eqb_spec x k); [tauto|]. f_equal. apply IH. tauto.
Qed.

Lemma set_entry_twice (c : string) (a b : node) (es : list (string * node)) :
  Fs.set_entry c a (Fs.set_entry c b es) = Fs.set_entry c a es.
Proof.
  induction es as [|[k m] es IH]; simpl.
  - now rewrite String.eqb_refl.
  - destruct (String.eqb_spec k c) as [->|Hne]; simpl.
    + now rewrite String.eqb_refl.
    + destruct (String.eqb_spec k c); [contradiction | now rewrite IH].
Qed.

Lemma graft_app (t : node) (p r : path) (n0 n1 n2 : node) :
  Fs.lookup t p = Some n0 ->
  graft (graft t p n1) (p ++ r) n2 = graft t p (graft n1 r n2).
Proof.
  revert t. induction p as [|c p IH]; simpl; intros t H; [reflexivity|].
  destruct t as [st data | w es]; [discriminate|].
  destruct (Fs.find_entry c es) as [m|] eqn:E; [|discriminate].
  simpl. rewrite find_set_same, (IH m H). now rewrite set_entry_twice.
Qed.

Lemma graft_graft (t : node) (p : path) (n0 n1 n2 : node) :
  Fs.lookup t p = Some n0 -> graft (graft t p n1) p n2 = graft t p n2.
Proof.
  intro H. rewrite <- (app_nil_r p) at 2. now rewrite (graft_app t p [] n0 n1 n2 H).
Qed.

Lemma os_rmdir_run (t : node) (p : path) (w : bool) (es : list (string * node)) :
  p <> [] ->
  Fs.lookup t (Path.parent p) = Some (Dir w es) ->
  Fs.os_rmdir t p
  = match Fs.find_entry (Path.name p) es with
    | None => Raise FileNotFoundError
    | Some (File _ _) => Raise NotADirectoryError
    | Some (Dir _ (_ :: _)) => Raise DirectoryNotEmpty
    | Some (Dir _ []) =>
        if w then Ok (graft t (Path.parent p) (Dir w (Fs.remove_entry (Path.name p) es)))
        else Raise PermissionError
    end.
Proof.
  intros Hp H. unfold Fs.os_rmdir. destruct p as [|c p]; [contradiction|].
  rewrite (alter_dir_run _ t _ w es H).
  destruct (Fs.find_entry (Path.name (c :: p)) es) as [[st data | v [|e ds]]|];
    try reflexivity.
  now destruct w.
Qed.

(** One turn of the loop on a sub-directory [k] of [top]. *)
Lemma cleanup_fs_child (root_path rel : path) (t : node) (v : bool)
      (es : list (string * node)) (k : string) (c : node) :
  Fs.lookup t (root_path ++ rel) = Some (Dir v es) ->
  Fs.find_entry k es = Some c ->
  cleanup_fs root_path ((root_path ++ rel) ++ [k]) t
  = if removable (rel ++ [k]) v c
    then graft t (root_path ++ rel) (Dir v (Fs.remove_entry k es))
    else t.
Proof.
  intros Ht Hk. unfold cleanup_fs, DDS.cleanup_body. simpl.
  rewrite <- app_assoc.
  rewrite (path_app_neq root_path (rel ++ [k])) by now destruct rel.
  rewrite app_assoc, parent_snoc, name_snoc.
  assert (Hc : Fs.lookup t ((root_path ++ rel) ++ [k]) = Some c).
  { rewrite lookup_app, Ht. simpl. now rewrite Hk. }
  assert (Hex : Path.eqb (root_path ++ rel) root_path
                && (Py.isdigit k && (Py.len k =? 4)%nat) = excluded (rel ++ [k])).
  { destruct rel as [|x rel]; simpl.
    - now rewrite app_nil_r, path_eqb_refl.
    - rewrite (path_app_neq root_path (x :: rel)) by discriminate.
      now destruct rel. }
  rewrite Hex. unfold removable.
  destruct (excluded (rel ++ [k])) eqn:Ex.
  { destruct c as [? ?|? [|? ?]]; try reflexivity. now rewrite andb_false_r. }
  unfold Fs.os_listdir. rewrite Hc.
  destruct c as [st data | v' [|e ds]]; simpl; try reflexivity.
  rewrite <- app_assoc, relative_to_app. simpl.
  rewrite app_assoc.
  rewrite (os_rmdir_run t ((root_path ++ rel) ++ [k]) v es).
  - rewrite parent_snoc, name_snoc, Hk. destruct v; reflexivity.
  - now destruct (root_path ++ rel).
  - now rewrite parent_snoc.
Qed.

Lemma cleanup_fs_not_dir (root_path top : path) (t : node) :
  Fs.is_dir t top = false -> cleanup_fs root_path top t = t.
Proof.
  intro H. unfold cleanup_fs, DDS.cleanup_body, Fs.os_listdir, Fs.is_dir in *. simpl.
  destruct (Fs.lookup t top) as [[st data | v es]|]; try discriminate;
    repeat case_match; reflexivity.
Qed.

Lemma cleanup_fs_root (root_path : path) (t : node) :
  cleanup_fs root_path root_path t = t.
Proof. unfold cleanup_fs, DDS.cleanup_body. simpl. now rewrite path_eqb_refl. Qed.

Lemma NoDup_app_drop_middle (done : list (string * node)) (e : string * node)
      (l : list (string * node)) :
  NoDup (map fst (done ++ e :: l)) ->
  NoDup (map fst (done ++ l)) /\ ~ In (fst e) (map fst done).
Proof.
  rewrite !map_app. simpl. intro H. split.
  - now apply NoDup_remove_1 in H.
  - apply NoDup_remove_2 in H. intro Hin. apply H. apply in_or_app. now left.
Qed.

Lemma cleanup_body_out (root_path top : path) (dirs files : list string) (w : world) :
  out (snd (DDS.cleanup_body root_path top dirs files w))
  = out w ++ cleanup_out root_path top (fs w).
Proof.
  unfold cleanup_out, DDS.cleanup_body. simpl.
  repeat case_match; simpl; try (now rewrite app_nil_r); reflexivity.
Qed.

Lemma cleanup_out_child (root_path rel : path) (t : node) (v : bool)
      (es : list (string * node)) (k : string) (c : node) :
  Fs.lookup t (root_path ++ rel) = Some (Dir v es) ->
  Fs.find_entry k es = Some c ->
  cleanup_out root_path ((root_path ++ rel) ++ [k]) t
  = if empty_dir c && negb (excluded (rel ++ [k]))
    then [Out (RemovingEmptyDir (rel ++ [k]))]
    else [].
Proof.
  intros Ht Hk. unfold cleanup_out, DDS.cleanup_body. simpl.
  rewrite <- app_assoc.
  rewrite (path_app_neq root_path (rel ++ [k])) by now destruct rel.
  rewrite app_assoc, parent_snoc, name_snoc.
  assert (Hc : Fs.lookup t ((root_path ++ rel) ++ [k]) = Some c).
  { rewrite lookup_app, Ht. simpl. now rewrite Hk. }
  assert (Hex : Path.eqb (root_path ++ rel) root_path
                && (Py.isdigit k && (Py.len k =? 4)%nat) = excluded (rel ++ [k])).
  { destruct rel as [|x rel]; simpl.
    - now rewrite app_nil_r, path_eqb_refl.
    - rewrite (path_app_neq root_path (x :: rel)) by discriminate.
      now destruct rel. }
  rewrite Hex.
  destruct (excluded (rel ++ [k])) eqn:Ex.
  { now rewrite andb_false_r. }
  rewrite andb_true_r.
  unfold Fs.os_listdir. rewrite Hc.
  destruct c as [st data | v' [|e ds]]; simpl; try reflexivity.
  rewrite <- app_assoc, relative_to_app. simpl.
  now destruct (Fs.os_rmdir t _).
Qed.

Lemma cleanup_out_not_dir (root_path top : path) (t : node) :
  Fs.is_dir t top = false -> cleanup_out root_path top t = [].
Proof.
  intro H. unfold cleanup_out, DDS.cleanup_body, Fs.os_listdir, Fs.is_dir in *. simpl.
  destruct (Fs.lookup t top) as [[st data | v es]|]; try discriminate;
    repeat case_match; reflexivity.
Qed.

Lemma cleanup_out_root (root_path : path) (t : node) :
  cleanup_out root_path root_path t = [].
Proof. unfold cleanup_out, DDS.cleanup_body. simpl. now rewrite path_eqb_refl. Qed.

Lemma removal_lines_app (l1 l2 : list path) :
  removal_lines (l1 ++ l2) = removal_lines l1 ++ removal_lines l2.
Proof. apply map_app. Qed.

Section CleanupWalk.

Variable root_path : path.

Lemma cleanup_walk (fuel : nat) :
  forall rel n w,
    Fs.lookup (fs w) (root_path ++ rel) = Some n ->
    wf n = true ->
    Fs.height n <= fuel ->
    exists w',
      os_walk fs fuel false (DDS.cleanup_body root_path) (root_path ++ rel) w = Some w'
      /\ fs w' = cleanup_fs root_path (root_path ++ rel)
                            (graft (fs w) (root_path ++ rel) (clean rel n))
      /\ out w' = out w ++ removal_lines (announced rel n)
                  ++ cleanup_out root_path (root_path ++ rel)
                                 (graft (fs w) (root_path ++ rel) (clean rel n)).
Proof.
  induction fuel as [|fuel IH]; intros rel n w Hn Hwf Hh; rewrite os_walk_unfold.
  - destruct n as [st data | v es]; [|rewrite height_Dir in Hh; lia].
    unfold Fs.scandir. rewrite Hn. exists w. split; [reflexivity|].
    simpl clean. rewrite (graft_same _ _ _ Hn).
    rewrite cleanup_fs_not_dir, cleanup_out_not_dir;
      try (unfold Fs.is_dir; now rewrite Hn).
    simpl. now rewrite app_nil_r.
  - destruct n as [st data | v es].
    { unfold Fs.scandir. rewrite Hn. exists w. split; [reflexivity|].
      simpl clean. rewrite (graft_same _ _ _ Hn).
      rewrite cleanup_fs_not_dir, cleanup_out_not_dir;
        try (unfold Fs.is_dir; now rewrite Hn).
      simpl. now rewrite app_nil_r. }
    rewrite (scandir_Dir _ _ _ _ Hn).
    set (top := root_path ++ rel) in *. set (t := fs w) in *.
    set (F := fun e : string * node =>
                if removable (rel ++ [fst e]) v (clean (rel ++ [fst e]) (snd e))
                then []
                else [(fst e, clean (rel ++ [fst e]) (snd e))]).
    set (G := fun e : string * node =>
                announced (rel ++ [fst e]) (snd e)
                ++ (if empty_dir (clean (rel ++ [fst e]) (snd e))
                       && negb (excluded (rel ++ [fst e]))
                    then [rel ++ [fst e]]
                    else [])).
    pose proof Hwf as Hwf0. apply wf_Dir in Hwf0. destruct Hwf0 as [Hnd Hall].
    assert (Hsub : forall l done w0,
               NoDup (map fst (done ++ l)) ->
               incl l es ->
               fs w0 = graft t top (Dir v (done ++ l)) ->
               exists w1,
                 fold_left
                   (fun (acc : option world) (d : string) =>
                      match acc with
                      | Some s => os_walk fs fuel false (DDS.cleanup_body root_path)
                                          (top ++ [d]) s
                      | None => None
                      end)
                   (map fst (filter (fun e => Fs.is_dir_node (snd e)) l)) (Some w0)
                 = Some w1
                 /\ fs w1 = graft t top (Dir v (done ++ flat_map F l))
                 /\ out w1 = out w0 ++ removal_lines (flat_map G l)).
    { induction l as [|[k c] l IHl]; intros done w0 Hdl Hincl Hw0; simpl.
      - exists w0. split; [reflexivity|]. split; [assumption|]. now rewrite app_nil_r.
      - assert (Hin : In (k, c) es) by (apply Hincl; now left).
        assert (Hl : incl l es) by (intros x Hx; apply Hincl; now right).
        destruct (NoDup_app_drop_middle done (k, c) l Hdl) as [Hdl' Hk]. simpl in Hk.
        destruct c as [st data | v' es'].
        + simpl. change (done ++ (k, File st data) :: flat_map F l)
            with (done ++ [(k, File st data)] ++ flat_map F l).
          rewrite app_assoc. apply IHl; [|assumption|].
          * now rewrite <- app_assoc.
          * now rewrite <- app_assoc.
        + simpl filter. simpl map. simpl fold_left.
          destruct (IH (rel ++ [k]) (Dir v' es') w0) as [w0' [E0 [H0 O0]]].
          { rewrite app_assoc. fold top. rewrite Hw0.
            rewrite (graft_lookup_below t top [k] _ _ Hn). simpl.
            rewrite (find_entry_app_skip k done _ Hk). simpl.
            now rewrite String.eqb_refl. }
          { now apply (Hall k). }
          { apply height_entry in Hin. rewrite height_Dir in Hh. lia. }
          rewrite (app_assoc root_path rel [k]) in E0, H0, O0. fold top in E0, H0, O0. rewrite E0.
          set (c' := clean (rel ++ [k]) (Dir v' es')) in *.
          assert (HT1 : graft (fs w0) (top ++ [k]) c'
                        = graft t top (Dir v (done ++ (k, c') :: l))).
          { rewrite Hw0, (graft_app t top [k] _ _ _ Hn). simpl.
            rewrite (find_entry_app_skip k done _ Hk). simpl.
            rewrite String.eqb_refl.
            now rewrite (set_entry_app_skip k _ c' done l Hk). }
          rewrite HT1 in H0, O0.
          assert (Hlk : Fs.lookup (graft t top (Dir v (done ++ (k, c') :: l))) top
                        = Some (Dir v (done ++ (k, c') :: l))).
          { now rewrite (graft_lookup_at t top _ _ Hn). }
          assert (Hfk : Fs.find_entry k (done ++ (k, c') :: l) = Some c').
          { rewrite (find_entry_app_skip k done _ Hk). simpl.
            now rewrite String.eqb_refl. }
          pose proof (cleanup_fs_child root_path rel _ v (done ++ (k, c') :: l) k c'
                        Hlk Hfk) as Hcf.
          pose proof (cleanup_out_child root_path rel _ v (done ++ (k, c') :: l) k c'
                        Hlk Hfk) as Hco.
          fold top in Hcf, Hco. rewrite Hcf in H0. rewrite Hco in O0.
          assert (HG : out w0' = out w0 ++ removal_lines (G (k, Dir v' es'))).
          { rewrite O0. unfold G. cbn [fst snd]. fold c'.
            rewrite removal_lines_app. f_equal. f_equal.
            now destruct (empty_dir c' && negb (excluded (rel ++ [k]))). }
          rewrite removal_lines_app, (app_assoc (out w0)), <- HG.
          change (F (k, Dir v' es'))
            with (if removable (rel ++ [k]) v c' then [] else [(k, c')]).
          destruct (removable (rel ++ [k]) v c') eqn:Er.
          * rewrite (graft_graft t top _ _ _ Hn) in H0.
            rewrite (remove_entry_app_skip k c' done l Hk) in H0.
            simpl app. now apply IHl.
          * simpl app. change (done ++ (k, c') :: flat_map F l)
              with (done ++ [(k, c')] ++ flat_map F l).
            rewrite app_assoc. apply IHl; [|assumption|].
            -- rewrite <- app_assoc. simpl.
               rewrite !map_app in *. simpl in *. assumption.
            -- now rewrite <- app_assoc. }
    destruct (Hsub es [] w Hnd (incl_refl es)) as [w1 [E1 [H1 O1]]].
    { simpl app. symmetry. now apply graft_same. }
    rewrite E1. eexists. split; [reflexivity|].
    rewrite cleanup_body_fs, cleanup_body_out, H1, O1. split; [reflexivity|].
    now rewrite <- app_assoc.
Qed.

End CleanupWalk.

(** The pass always ends on a well-formed tree; it leaves the root of the
    pass as [clean] describes it and prints the lines of [announced]. *)
Lemma DDS_cleanup_run (root_path : path) (w : world) (n : node) :
  wf (fs w) = true ->
  Fs.lookup (fs w) root_path = Some n ->
  exists w',
    DDS.cleanup_empty_dirs root_path w = Some w'
    /\ fs w' = graft (fs w) root_path (clean [] n)
    /\ out w' = out w ++ removal_lines (announced [] n).
Proof.
  intros Hwf Hn. unfold DDS.cleanup_empty_dirs.
  destruct (cleanup_walk root_path (Fs.height (fs w)) [] n w) as [w' [E [H O]]].
  - now rewrite app_nil_r.
  - now apply (wf_lookup _ _ _ Hwf Hn).
  - pose proof (height_at_le (fs w) root_path) as Hh. unfold height_at in Hh.
    now rewrite Hn in Hh.
  - rewrite app_nil_r in E, H, O. exists w'. split; [assumption|].
    rewrite cleanup_fs_root in H. rewrite cleanup_out_root, app_nil_r in O. auto.
Qed.

Lemma DDS_cleanup_spec (root_path : path) (w : world) (n : node) :
  wf (fs w) = true ->
  Fs.lookup (fs w) root_path = Some n ->
  exists w',
    DDS.cleanup_empty_dirs root_path w = Some w'
    /\ fs w' = graft (fs w) root_path (clean [] n).
Proof.
  intros Hwf Hn.
  destruct (DDS_cleanup_run root_path w n Hwf Hn) as [w' [E [H _]]]. now exists w'.
Qed.

Lemma DDS_cleanup_missing (root_path : path) (w : world) :
  Fs.lookup (fs w) root_path = None -> DDS.cleanup_empty_dirs root_path w = Some w.
Proof.
  intro En. unfold DDS.cleanup_empty_dirs. rewrite os_walk_unfold.
  unfold Fs.scandir. now rewrite En.
Qed.

(** ** What the reconciliation pass keeps *)

Lemma rmdir_effect (t : node) (p : path) (t' : node) :
  wf t = true ->
  Fs.os_rmdir t p = Ok t' ->
  wf t' = true
  /\ (exists v, Fs.lookup t p = Some (Dir v []))
  /\ Fs.lookup t' p = None
  /\ (forall q st data,
        Fs.lookup t q = Some (File st data) -> Fs.lookup t' q = Some (File st data))
  /\ (forall q st data,
        Fs.lookup t' q = Some (File st data) -> Fs.lookup t q = Some (File st data))
  /\ (forall q v, q <> p -> dir_flag t q = Some v -> dir_flag t' q = Some v).
Proof.
  intros Hwf H. apply os_rmdir_Ok in H.
  destruct H as [es [v0 [Hne [Hp [Hc ->]]]]].
  assert (Hnd : NoDup (map fst es)).
  { apply (wf_lookup _ _ _ Hwf) in Hp. now apply wf_Dir in Hp. }
  assert (Hl : Fs.lookup t p = Some (Dir v0 [])).
  { now rewrite (lookup_parent_name _ _ _ _ Hne Hp). }
  assert (Hbelow : forall q, is_prefix (Path.parent p ++ [Path.name p]) q ->
                             q = p \/ Fs.lookup t q = None).
  { intros q [r ->]. rewrite <- (path_split_last p Hne).
    destruct r as [|x r]; [left; now rewrite app_nil_r | right].
    rewrite lookup_app, Hl. reflexivity. }
  split; [|split; [|split; [|split; [|split]]]].
  - apply wf_graft; [assumption|]. apply wf_remove_entry.
    now apply (wf_lookup _ _ _ Hwf Hp).
  - now exists v0.
  - rewrite (graft_parent_lookup _ _ _ _ _ Hne Hp). now apply find_remove_same.
  - intros q st data Hq.
    apply (files_kept_after_remove _ _ _ _ _ _ _ Hp); [|reflexivity|assumption].
    intro Hpre. destruct (Hbelow q Hpre) as [-> | E]; congruence.
  - intros q st data Hq.
    now apply (files_after_remove _ _ _ _ _ _ _ _ Hwf Hp Hq).
  - intros q v Hq Hf. unfold dir_flag in *.
    destruct (is_prefix_dec (Path.parent p) q) as [[r ->] | Hoff].
    + rewrite (graft_lookup_below t _ r _ _ Hp).
      rewrite lookup_app, Hp in Hf.
      destruct r as [|x r]; [assumption|]. simpl in *.
      destruct (string_dec (Path.name p) x) as [<-|Hx].
      * rewrite Hc in Hf. destruct r as [|y r]; [|discriminate].
        exfalso. apply Hq. symmetry. now apply path_split_last.
      * now rewrite find_remove_other.
    + destruct (graft_lookup_off t _ q true true es
                  (Fs.remove_entry (Path.name p) es) Hp Hoff)
        as [-> | [r [_ [v1 [ds [ds' [H1 ->]]]]]]]; [assumption|].
      now rewrite H1 in Hf.
Qed.

(** One turn of the loop of [cleanup_empty_dirs] either changes nothing, or
    it has found an empty directory that is not excluded, announced its
    removal and called [rmdir]; the tree changes when the call succeeds. *)
Lemma cleanup_body_cases (root_path root : path) (dirs files : list string) (w : world) :
  let w' := snd (DDS.cleanup_body root_path root dirs files w) in
  w' = w
  \/ exists rel v,
       root = root_path ++ rel /\ excluded rel = false
       /\ Fs.lookup (fs w) root = Some (Dir v [])
       /\ out w' = out w ++ [Out (RemovingEmptyDir rel)]
       /\ ((fs w' = fs w /\ exists e, Fs.os_rmdir (fs w) root = Raise e)
           \/ Fs.os_rmdir (fs w) root = Ok (fs w')).
Proof.
  unfold DDS.cleanup_body. simpl.
  destruct (Path.eqb root root_path) eqn:E1; [now left|].
  destruct (Path.eqb (Path.parent root) root_path
            && (Py.isdigit (Path.name root) && (Py.len (Path.name root) =? 4)%nat))
    eqn:E2; [now left|].
  unfold Fs.os_listdir.
  destruct (Fs.lookup (fs w) root) as [[st data | v [|e es]]|] eqn:El;
    try (now left).
  simpl.
  destruct (Path.relative_to root root_path) as [rel|e] eqn:Er; [|now left].
  right. exists rel, v. apply relative_to_inv in Er.
  assert (Hex : excluded rel = false).
  { subst root. apply path_eqb_neq in E1.
    destruct rel as [|d [|d' rel]]; simpl.
    - exfalso. apply E1. now rewrite app_nil_r.
    - now rewrite parent_snoc, name_snoc, path_eqb_refl in E2.
    - reflexivity. }
  repeat split; try assumption.
  - destruct (Fs.os_rmdir (fs w) root); reflexivity.
  - destruct (Fs.os_rmdir (fs w) root) as [t'|e] eqn:Ed; [now right|].
    left. split; [reflexivity | now exists e].
Qed.

Lemma cleanup_keeps_refl (root_path : path) (w : world) :
  wf (fs w) = true -> cleanup_keeps root_path w w.
Proof.
  intro Hwf. split; auto. exists []. simpl. now rewrite app_nil_r.
Qed.

Lemma cleanup_body_keeps (root_path : path) (w : world)
      (root : path) (dirs files : list string) (w0 : world) :
  cleanup_keeps root_path w w0 ->
  cleanup_keeps root_path w (snd (DDS.cleanup_body root_path root dirs files w0)).
Proof.
  intros [Hwf Hfiles Hnew Hex [rels Hout]].
  destruct (cleanup_body_cases root_path root dirs files w0)
    as [-> | [rel [v [-> [Hrel [Hl [Ho Hfs]]]]]]].
  { split; auto. now exists rels. }
  set (w1 := snd (DDS.cleanup_body root_path (root_path ++ rel) dirs files w0)) in *.
  assert (Hout1 : exists rels1, out w1 = out w ++ removal_lines rels1).
  { exists (rels ++ [rel]). rewrite Ho, Hout. unfold removal_lines.
    now rewrite map_app, app_assoc. }
  destruct Hfs as [[E _] | Hrm].
  - split; try rewrite E; auto.
  - destruct (rmdir_effect _ _ _ Hwf Hrm) as [Hwf1 [_ [_ [Hk [Hn Hd]]]]].
    split; auto.
    intros rel0 v0 Hex0 Hf. apply Hd; [|now apply Hex].
    intro E. apply app_inv_head in E. congruence.
Qed.

Lemma DDS_cleanup_keeps (root_path : path) (w w' : world) :
  wf (fs w) = true ->
  DDS.cleanup_empty_dirs root_path w = Some w' ->
  cleanup_keeps root_path w w'.
Proof.
  intros Hwf E. unfold DDS.cleanup_empty_dirs in E.
  apply (os_walk_invariant fs (DDS.cleanup_body root_path) root_path
           (cleanup_keeps root_path w))
    with (fuel := Fs.height (fs w)) (topdown := false) (st := w).
  - intros rel dirs files st H. now apply cleanup_body_keeps.
  - now apply cleanup_keeps_refl.
  - exact E.
Qed.

(** The lines of the pass: one for every directory below the root that is
    not excluded and is empty once the pass has gone through it. *)
Lemma In_announced (n : node) :
  forall rel r,
    wf n = true ->
    (In r (announced rel n)
     <-> exists s c,
           s <> [] /\ r = rel ++ s /\ Fs.lookup n s = Some c
           /\ excluded r = false /\ empty_dir (clean r c) = true).
Proof.
  induction n as [st data | v es IH] using node_induction; intros rel r Hwf.
  - simpl. split; [tauto|]. intros [s [c [Hs [_ [H _]]]]].
    destruct s; [contradiction | discriminate].
  - rewrite Forall_forall in IH. apply wf_Dir in Hwf. destruct Hwf as [Hnd Hall].
    simpl announced. rewrite in_flat_map. split.
    + intros [[k c] [Hin Hr]]. simpl in Hr. apply in_app_or in Hr.
      destruct Hr as [Hr | Hr].
      * apply (IH (k, c) Hin) in Hr; [|now apply (Hall k c)].
        destruct Hr as [s [c0 [Hs [-> [Hl [Hex He]]]]]].
        exists (k :: s), c0. split; [discriminate|].
        rewrite <- app_assoc in *. simpl in *.
        rewrite (In_find_entry k es c Hnd Hin). auto.
      * destruct (empty_dir (clean (rel ++ [k]) c) && negb (excluded (rel ++ [k])))
          eqn:E; [|contradiction].
        destruct Hr as [<- | []].
        apply andb_true_iff in E. destruct E as [He Hex].
        apply negb_true_iff in Hex.
        exists [k], c. split; [discriminate|]. simpl.
        rewrite (In_find_entry k es c Hnd Hin). auto.
    + intros [s [c0 [Hs [-> [Hl [Hex He]]]]]].
      destruct s as [|k s]; [contradiction|]. simpl in Hl.
      destruct (Fs.find_entry k es) as [c|] eqn:E; [|discriminate].
      apply find_entry_In in E. exists (k, c). split; [assumption|]. simpl.
      apply in_or_app. destruct s as [|k' s].
      * right. simpl in Hl. injection Hl as ->. rewrite He, Hex. now left.
      * left. apply (IH (k, c) E); [now apply (Hall k c)|].
        exists (k' :: s), c0. split; [discriminate|].
        rewrite <- app_assoc. simpl. auto.
Qed.

(** One turn of the loop of [cleanup_empty_dirs].  On a directory below
    the root that is not excluded and is empty it prints the line and calls
    [rmdir]; the tree changes when the call succeeds.  In every other case
    it prints nothing and changes nothing. *)
Lemma cleanup_body_turn (root_path root : path) (dirs files : list string) (w : world) :
  let w' := snd (DDS.cleanup_body root_path root dirs files w) in
  (w' = w
   /\ ~ (exists rel v,
            root = root_path ++ rel /\ excluded rel = false
            /\ Fs.lookup (fs w) root = Some (Dir v [])))
  \/ (exists rel v,
         root = root_path ++ rel /\ excluded rel = false
         /\ Fs.lookup (fs w) root = Some (Dir v [])
         /\ out w' = out w ++ [Out (RemovingEmptyDir rel)]
         /\ fs w' = match Fs.os_rmdir (fs w) root with
                    | Ok t => t
                    | Raise _ => fs w
                    end).
Proof.
  unfold DDS.cleanup_body. simpl.
  destruct (Path.eqb root root_path) eqn:E1.
  { left. split; [reflexivity|]. intros [rel [v [Hr [Hex _]]]].
    apply path_eqb_eq in E1. rewrite E1 in Hr.
    rewrite <- (app_nil_r root_path) in Hr at 1. apply app_inv_head in Hr.
    subst rel. discriminate. }
  destruct (Path.eqb (Path.parent root) root_path
            && (Py.isdigit (Path.name root) && (Py.len (Path.name root) =? 4)%nat))
    eqn:E2.
  { left. split; [reflexivity|]. intros [rel [v [Hr [Hex _]]]].
    apply andb_true_iff in E2. destruct E2 as [Ep Ey].
    apply path_eqb_eq in Ep. apply path_eqb_neq in E1.
    destruct rel as [|d rel] using rev_ind.
    - apply E1. now rewrite Hr, app_nil_r.
    - rewrite Hr, app_assoc, parent_snoc in Ep.
      rewrite <- (app_nil_r root_path) in Ep at 2. apply app_inv_head in Ep.
      subst rel. simpl in Hr, Hex. rewrite Hr, name_snoc in Ey.
      unfold DDS.is_year_name in Hex. congruence. }
  unfold Fs.os_listdir.
  destruct (Fs.lookup (fs w) root) as [[st data | v [|e es]]|] eqn:El;
    try (left; split; [reflexivity|]; intros [rel [v0 [_ [_ H]]]]; discriminate).
  simpl.
  destruct (Path.relative_to root root_path) as [rel|e] eqn:Er.
  2:{ left. split; [reflexivity|]. intros [rel [v0 [Hr _]]].
      now rewrite Hr, relative_to_app in Er. }
  right. exists rel, v. apply relative_to_inv in Er.
  assert (Hex : excluded rel = false).
  { subst root. apply path_eqb_neq in E1.
    destruct rel as [|d [|d' rel]]; simpl.
    - exfalso. apply E1. now rewrite app_nil_r.
    - now rewrite parent_snoc, name_snoc, path_eqb_refl in E2.
    - reflexivity. }
  repeat split; try assumption; destruct (Fs.os_rmdir (fs w) root); reflexivity.
Qed.

Lemma DDS_cleanup_total (root_path : path) (w : world) :
  wf (fs w) = true -> exists w', DDS.cleanup_empty_dirs root_path w = Some w'.
Proof.
  intro Hwf. destruct (Fs.lookup (fs w) root_path) as [n|] eqn:En.
  - destruct (DDS_cleanup_spec root_path w n Hwf En) as [w' [E _]]. now exists w'.
  - exists w. unfold DDS.cleanup_empty_dirs. rewrite os_walk_unfold.
    unfold Fs.scandir. now rewrite En.
Qed.

(** ** The whole of [organize_files] *)

Lemma DDS_banner_fs (source_path : path) (dry_run : bool) (w : world) :
  fs (DDS_banner source_path dry_run w) = fs w.
Proof. unfold DDS_banner. now destruct dry_run. Qed.

Lemma DDS_summary_fs (st : progress) : fs (DDS_summary st) = fs (now st).
Proof. unfold DDS_summary. now destruct (0 <? error_count st)%nat. Qed.

(** On a directory of a well-formed tree [organize_files] returns: it
    collects the files of the tree as it found it, processes them, prints
    the summary and, unless it is a dry run, reconciles. *)
Lemma DDS_organize_files_runs (plat : platform) (source_path : path) (dry_run : bool)
      (w : world) (v : bool) (es : list (string * node)) :
  wf (fs w) = true ->
  Fs.lookup (fs w) source_path = Some (Dir v es) ->
  let files := top_files source_path (Dir v es) in
  let st := DDS.process_all plat dry_run source_path files
                            (DDS_scanned source_path dry_run w (Dir v es)) in
  exists w',
    DDS.organize_files plat source_path dry_run w = Some (Returned, w')
    /\ (if dry_run then w' = DDS_summary st
        else DDS.cleanup_empty_dirs source_path (DDS_summary st) = Some w').
Proof.
  intros Hwf Hn files st. unfold DDS.organize_files.
  unfold Fs.exists_, Fs.is_dir. rewrite Hn. simpl negb. cbv iota.
  fold (DDS_banner source_path dry_run w).
  rewrite (DDS_collect_spec source_path (DDS_banner source_path dry_run w) v es);
    [| now rewrite DDS_banner_fs | now rewrite DDS_banner_fs].
  rewrite DDS_banner_fs.
  destruct dry_run; simpl negb; cbv iota.
  - now exists (DDS_summary st).
  - assert (Hs : wf (fs (DDS_summary st)) = true).
    { rewrite DDS_summary_fs.
      assert (Hs : wf (fs (DDS_scanned source_path false w (Dir v es))) = true)
        by exact Hwf.
      apply (step_wf _ _ (DDS_process_all_step plat false source_path files _ Hs)).
      exact Hs. }
    destruct (DDS_cleanup_total source_path (DDS_summary st) Hs) as [w' E].
    exists w'. split; [|exact E].
    change (match DDS.cleanup_empty_dirs source_path (DDS_summary st) with
            | Some w0 => Some (Returned, w0)
            | None => None
            end = Some (Returned, w')).
    now rewrite E.
Qed.

(** ** What the reconciliation pass removes *)

(** C9, as the specification has it, fails where [rmdir] is refused: the
    line "Removing empty directory: empty" is printed before the call, and
    the directory is still there after the pass. *)
Lemma refused_removal_is_announced :
  DDS.cleanup_empty_dirs ["src"] locked
  = Some {| fs := locked_tree; out := [Out (RemovingEmptyDir ["empty"])] |}
  /\ Fs.os_rmdir locked_tree ["src"; "empty"] = Raise PermissionError.
Proof. split; vm_compute; reflexivity. Qed.

(** C9, amended.  On a well-formed tree the pass over a directory ends, and
    - every regular file is where it was, so no directory with a file
      anywhere below it is removed;
    - the root of the pass is still a directory, and so is every year
      directory directly below it;
    - the tree it leaves is the one that [clean] describes, and the lines
      it prints are the "Removing empty directory" lines of [announced]:
      one for every directory below the root that is not excluded and is
      empty once the pass has gone through it, and no other;
    - a turn of the loop on a directory that is excluded, or is not empty,
      prints nothing and changes nothing; on a directory that is not
      excluded and is empty it prints the line and then calls [rmdir], so
      the line is there whether the call succeeds or not, and a refusal
      leaves the tree as it was and is not reported;
    - a run of [organize_files] on a directory returns normally whatever
      the pass could not remove, and its summary, with the two counters, is
      printed before the pass, which only adds its lines. *)
Theorem cleanup_removes_only_empty_directories (root_path : path) (w : world) :
  wf (fs w) = true ->
  exists w',
    DDS.cleanup_empty_dirs root_path w = Some w'
    /\ (forall q st data,
           Fs.lookup (fs w) q = Some (File st data) ->
           Fs.lookup (fs w') q = Some (File st data))
    /\ (Fs.is_dir (fs w) root_path = true -> Fs.is_dir (fs w') root_path = true)
    /\ (forall d,
           DDS.is_year_name d = true ->
           Fs.is_dir (fs w) (root_path ++ [d]) = true ->
           Fs.is_dir (fs w') (root_path ++ [d]) = true)
    /\ (exists rels, out w' = out w ++ removal_lines rels)
    /\ (Fs.lookup (fs w) root_path = None -> w' = w)
    /\ (forall n,
           Fs.lookup (fs w) root_path = Some n ->
           fs w' = graft (fs w) root_path (clean [] n)
           /\ out w' = out w ++ removal_lines (announced [] n)
           /\ forall r,
               In r (announced [] n)
               <-> r <> [] /\ excluded r = false
                   /\ exists c, Fs.lookup n r = Some c /\ empty_dir (clean r c) = true)
    /\ (forall root dirs files w0,
           let w1 := snd (DDS.cleanup_body root_path root dirs files w0) in
           (w1 = w0
            /\ ~ (exists rel v,
                     root = root_path ++ rel /\ excluded rel = false
                     /\ Fs.lookup (fs w0) root = Some (Dir v [])))
           \/ (exists rel v,
                  root = root_path ++ rel /\ excluded rel = false
                  /\ Fs.lookup (fs w0) root = Some (Dir v [])
                  /\ out w1 = out w0 ++ [Out (RemovingEmptyDir rel)]
                  /\ fs w1 = match Fs.os_rmdir (fs w0) root with
                             | Ok t => t
                             | Raise _ => fs w0
                             end))
    /\ (forall plat v es,
           Fs.lookup (fs w) root_path = Some (Dir v es) ->
           let st := DDS.process_all plat false root_path
                                     (top_files root_path (Dir v es))
                                     (DDS_scanned root_path false w (Dir v es)) in
           exists w2 rels,
             DDS.organize_files plat root_path false w = Some (Returned, w2)
             /\ out w2 = out (DDS_summary st) ++ removal_lines rels).
Proof.
  intro Hwf.
  destruct (DDS_cleanup_total root_path w Hwf) as [w' E].
  exists w'. split; [assumption|].
  destruct (DDS_cleanup_keeps root_path w w' Hwf E) as [_ Hfiles _ Hex Hout].
  split; [assumption|].
  split; [|split; [|split; [assumption|split; [|split; [|split]]]]].
  - intro Hd. apply is_dir_flag in Hd. destruct Hd as [v Hv].
    apply is_dir_flag. exists v. rewrite <- (app_nil_r root_path).
    apply (Hex [] v); [reflexivity | now rewrite app_nil_r].
  - intros d Hy Hd. apply is_dir_flag in Hd. destruct Hd as [v Hv].
    apply is_dir_flag. exists v. now apply (Hex [d] v).
  - intro En. rewrite (DDS_cleanup_missing root_path w En) in E. congruence.
  - intros n Hn.
    destruct (DDS_cleanup_run root_path w n Hwf Hn) as [w1 [E1 [H1 O1]]].
    rewrite E in E1. injection E1 as <-.
    split; [assumption|]. split; [assumption|]. intro r.
    rewrite (In_announced n [] r (wf_lookup _ _ _ Hwf Hn)). simpl. split.
    + intros [s [c [Hs [-> [Hl [Hx He]]]]]]. repeat split; try assumption. now exists c.
    + intros [Hr [Hx [c [Hl He]]]]. exists r, c. auto.
  - intros root dirs files w0. apply cleanup_body_turn.
  - intros plat v es Hn st.
    destruct (DDS_organize_files_runs plat root_path false w v es Hwf Hn)
      as [w2 [Ho Hc]]. cbv zeta in Hc. fold st in Hc.
    assert (Hs : wf (fs (DDS_summary st)) = true).
    { rewrite DDS_summary_fs.
      assert (Hs : wf (fs (DDS_scanned root_path false w (Dir v es))) = true)
        by exact Hwf.
      apply (step_wf _ _ (DDS_process_all_step plat false root_path _ _ Hs)).
      exact Hs. }
    destruct (DDS_cleanup_keeps root_path _ w2 Hs Hc) as [_ _ _ _ [rels Hrels]].
    now exists w2, rels.
Qed.

Lemma cleanup_removes_only_empty_directories_witness :
  exists w',
    DDS.cleanup_empty_dirs ["src"] locked = Some w'
    /\ fs w' = locked_tree
    /\ out w' = [Out (RemovingEmptyDir ["empty"])].
Proof.
  destruct (cleanup_removes_only_empty_directories ["src"] locked eq_refl)
    as [w' [E [_ [_ [_ [_ [_ [H _]]]]]]]].
  exists w'. split; [exact E|].
  destruct (H (Dir false [("empty", Dir true [])]) eq_refl) as [Hfs [Hout _]].
  split; [exact Hfs | exact Hout].
Defined.

(** ** What the processing loop prints *)

Lemma creation_year_out (plat : platform) (f : path) (w w' : world) (r : res Z) :
  creation_year plat f w = (r, w') ->
  out w' = out w \/ exists e, out w' = out w ++ [Err (CreationDateError f e)].
Proof.
  unfold creation_year.
  repeat case_match; intro H; injection H as <- <-; simpl; eauto.
Qed.

Lemma on_fs_out {A : Type} (m : M node A) (w w' : world) (r : res A) :
  on_fs m w = (r, w') -> out w' = out w.
Proof.
  unfold on_fs. destruct (m (fs w)) as [r0 t]. intro H. now injection H as _ <-.
Qed.

Lemma DDS_try_block_out (plat : platform) (dry_run : bool)
      (source_path f : path) (w w' : world) (r : res DDS.ending) :
  DDS.try_block plat dry_run source_path f w = (r, w') ->
  exists ls, out w' = out w ++ ls /\ Forall (file_line source_path f) ls.
Proof.
  unfold DDS.try_block, DDS.get_file_creation_date, bind, of_res, ret, say.
  destruct (creation_year plat f w) as [[y|e] w1] eqn:Ey.
  2:{ intro H. injection H as _ <-.
      destruct (creation_year_out _ _ _ _ _ Ey) as [-> | [e0 ->]].
      - exists []. now rewrite app_nil_r.
      - eexists. split; [reflexivity|]. repeat constructor. }
  assert (H1 : exists ls1, out w1 = out w ++ ls1 /\ Forall (file_line source_path f) ls1).
  { destruct (creation_year_out _ _ _ _ _ Ey) as [-> | [e0 ->]].
    - exists []. now rewrite app_nil_r.
    - eexists. split; [reflexivity|]. repeat constructor. }
  destruct H1 as [ls1 [E1 F1]].
  destruct (Path.relative_to f source_path) as [rel|e] eqn:Er.
  2:{ intro H. injection H as _ <-. now exists ls1. }
  apply relative_to_inv in Er.
  destruct (Path.eqb f _).
  { intro H. injection H as _ <-. now exists ls1. }
  set (w2 := print (Out (Moving rel (Py.str y :: rel))) w1).
  assert (H2 : exists ls2, out w2 = out w ++ ls2 /\ Forall (file_line source_path f) ls2).
  { exists (ls1 ++ [Out (Moving rel (Py.str y :: rel))]). split.
    - unfold w2. simpl. now rewrite E1, app_assoc.
    - apply Forall_app. split; [assumption|]. repeat constructor. assumption. }
  destruct dry_run; simpl.
  { intro H. injection H as _ <-. exact H2. }
  destruct (on_fs (syscall _) w2) as [[[]|e] w3] eqn:E3; apply on_fs_out in E3.
  - destruct (on_fs (Shutil.move _ _) w3) as [[rd|e] w4] eqn:E4; apply on_fs_out in E4;
      intro H; injection H as _ <-; rewrite E4, E3; exact H2.
  - intro H. injection H as _ <-. rewrite E3. exact H2.
Qed.

Lemma DDS_process_all_out (plat : platform) (dry_run : bool) (source_path : path)
      (files : list path) (w : world) :
  exists ls,
    out (now (DDS.process_all plat dry_run source_path files w)) = out w ++ ls
    /\ Forall (fun l => exists f, In f files /\ file_line source_path f l) ls.
Proof.
  unfold DDS.process_all.
  set (st0 := {| now := w; moved_count := 0; error_count := 0 |}).
  change (out w) with (out (now st0)). generalize st0. clear st0.
  induction files as [|f files IH]; intro st; simpl.
  - exists []. now rewrite app_nil_r.
  - destruct (IH (DDS.process_file plat dry_run source_path st f)) as [ls [E F]].
    assert (H1 : exists ls1,
               out (now (DDS.process_file plat dry_run source_path st f))
               = out (now st) ++ ls1
               /\ Forall (file_line source_path f) ls1).
    { unfold DDS.process_file.
      destruct (DDS.try_block plat dry_run source_path f (now st)) as [[[|]|e] w1] eqn:Et;
        apply DDS_try_block_out in Et; destruct Et as [ls1 [E1 F1]]; simpl.
      - now exists ls1.
      - now exists ls1.
      - exists (ls1 ++ [Err (ProcessingError f e)]). split.
        + now rewrite E1, app_assoc.
        + apply Forall_app. split; [assumption|]. repeat constructor. }
    destruct H1 as [ls1 [E1 F1]].
    exists (ls1 ++ ls). split.
    + now rewrite E, E1, app_assoc.
    + apply Forall_app. split.
      * eapply Forall_impl; [|exact F1]. intros l Hl. exists f. split; [now left | assumption].
      * eapply Forall_impl; [|exact F]. intros l [g [Hg Hl]]. exists g.
        split; [now right | assumption].
Qed.

(** C8, as the specification has it, fails for [move_files]: it has no list
    of files, and moves the files of a directory when the walk gets there.
    Here the one file of the tree is moved into a directory that the walk
    has yet to list, found there and moved once more. *)
Lemma move_files_walks_what_it_moved :
  walk_files ["2020"] (Dir true [("a.jpg", File (stamp 1577836800) "a");
                                 ("2020", Dir true [])])
  = [["2020"; "a.jpg"]]
  /\ exists st,
       FYO.move_files 3 Posix ["2020"] false false true nested = Some st
       /\ moved_count st = 2
       /\ out (now st)
          = [Out (Moving ["2020"; "a.jpg"] ["2020"; "2020"; "a.jpg"]);
             Out (Moving ["2020"; "2020"; "a.jpg"] ["2020"; "2020"; "2020"; "a.jpg"])].
Proof. split; [reflexivity|]. eexists. split; [vm_compute; reflexivity|]. split; reflexivity. Qed.

(** C8, amended.  [organize_files] lists the files before it transfers any:
    the collecting walk ends with the tree as it was and with the files of
    that tree outside the year directories; the lines that the processing
    loop prints are about these files and no others, and the two counters
    add up to their number, whatever the transfers do to the tree.
    ([move_files] works through each directory as its walk reaches it.) *)
Theorem files_are_listed_before_any_transfer
        (plat : platform) (source_path : path) (dry_run : bool) (w : world)
        (v : bool) (es : list (string * node)) :
  wf (fs w) = true ->
  Fs.lookup (fs w) source_path = Some (Dir v es) ->
  let files := top_files source_path (Dir v es) in
  (exists ws,
      DDS.collect source_path (DDS_banner source_path dry_run w) = Some (ws, files)
      /\ fs ws = fs w)
  /\ exists w' before during after m e,
       DDS.organize_files plat source_path dry_run w = Some (Returned, w')
       /\ out w' = out w ++ before ++ [Out (Found (List.length files))]
                         ++ during ++ [Out Completed; Out (FilesProcessed m)] ++ after
       /\ Forall (fun l => exists f, In f files /\ file_line source_path f l) during
       /\ m + e = List.length files.
Proof.
  intros Hwf Hn files. split.
  - eexists. split.
    + apply DDS_collect_spec; now rewrite DDS_banner_fs.
    + simpl. apply DDS_banner_fs.
  - destruct (DDS_organize_files_runs plat source_path dry_run w v es Hwf Hn)
      as [w' [E Hw']].
    fold files in Hw'.
    set (st := DDS.process_all plat dry_run source_path files
                               (DDS_scanned source_path dry_run w (Dir v es))) in *.
    destruct (DDS_process_all_out plat dry_run source_path files
                (DDS_scanned source_path dry_run w (Dir v es))) as [during [Ed Fd]].
    fold st in Ed.
    assert (Hb : exists before,
               out (DDS_scanned source_path dry_run w (Dir v es))
               = out w ++ before ++ [Out (Found (List.length files))]).
    { exists ((Out (Organizing source_path)
                :: (if dry_run then [Out DryRunBanner] else []))
               ++ map (fun d => Out (SkippingYearDir d)) (year_dirs (Dir v es))).
      unfold DDS_scanned, DDS_banner, print.
      destruct dry_run; simpl; rewrite <- ?app_assoc; reflexivity. }
    destruct Hb as [before Eb].
    assert (Hs : exists after0,
               out (DDS_summary st)
               = out (now st) ++ [Out Completed; Out (FilesProcessed (moved_count st))]
                     ++ after0).
    { exists (if (0 <? error_count st)%nat
              then [Out (ErrorsEncountered (error_count st))] else []).
      unfold DDS_summary, print.
      destruct (0 <? error_count st)%nat; simpl; rewrite <- ?app_assoc; reflexivity. }
    destruct Hs as [after0 Es].
    assert (Ha : exists after,
               out w' = out (now st)
                        ++ [Out Completed; Out (FilesProcessed (moved_count st))]
                        ++ after).
    { destruct dry_run.
      - subst w'. now exists after0.
      - assert (Hwfs : wf (fs (DDS_summary st)) = true).
        { rewrite DDS_summary_fs.
          apply (step_wf _ _ (DDS_process_all_step plat false source_path files
                                 (DDS_scanned source_path false w (Dir v es)) Hwf)).
          exact Hwf. }
        destruct (DDS_cleanup_keeps source_path _ w' Hwfs Hw') as [_ _ _ _ [rels Er]].
        exists (after0 ++ removal_lines rels). rewrite Er, Es.
        now rewrite <- !app_assoc. }
    destruct Ha as [after Ea].
    exists w', before, during, after, (moved_count st), (error_count st).
    split; [assumption|]. split; [|split; [assumption|]].
    + rewrite Ea, Ed, Eb. now rewrite <- !app_assoc.
    + apply DDS_process_all_counts.
Qed.

Lemma files_are_listed_before_any_transfer_witness :
  let files := top_files ["photos"]
                 (Dir true [("a.jpg", File (stamp 1577836800) "a");
                            ("sub", Dir true [("b.jpg", File (stamp 1609459200) "b")])]) in
  (exists ws,
      DDS.collect ["photos"] (DDS_banner ["photos"] false photos) = Some (ws, files)
      /\ fs ws = fs photos)
  /\ exists w' before during after m e,
       DDS.organize_files Posix ["photos"] false photos = Some (Returned, w')
       /\ out w' = out photos ++ before ++ [Out (Found (List.length files))]
                         ++ during ++ [Out Completed; Out (FilesProcessed m)] ++ after
       /\ Forall (fun l => exists f, In f files /\ file_line ["photos"] f l) during
       /\ m + e = List.length files.
Proof.
  apply (files_are_listed_before_any_transfer Posix ["photos"] false photos true);
    reflexivity.
Defined.

(** ** Year directories at the top *)

Lemma length_list_ascii (s : string) :
  List.length (list_ascii_of_string s) = String.length s.
Proof. induction s as [|c s IH]; simpl; [reflexivity | now rewrite IH]. Qed.

Lemma four_ascii_digits_year_name (d : string) :
  four_ascii_digits d = true -> DDS.is_year_name d = true.
Proof.
  unfold four_ascii_digits, DDS.is_year_name, Py.isdigit, Py.len.
  rewrite !andb_true_iff. intros [Hlen Hall]. split; [|assumption].
  apply Nat.eqb_eq in Hlen. rewrite <- length_list_ascii in Hlen.
  destruct (list_ascii_of_string d) as [|c cs] eqn:E; [discriminate|].
  rewrite <- E in *. rewrite forallb_forall in *. intros c0 Hin.
  specialize (Hall c0 Hin). unfold Py.is_ascii_digit in Hall.
  unfold Py.isdigit_char. now rewrite Hall.
Qed.

Lemma NoDup_map_fst_filter (f : string * node -> bool) (es : list (string * node)) :
  NoDup (map fst es) -> NoDup (map fst (filter f es)).
Proof.
  induction es as [|e es IH]; simpl; intro H; [constructor|].
  inversion H as [|? ? Hn Hd]; subst.
  destruct (f e); simpl; [|now apply IH].
  constructor; [|now apply IH].
  intro Hin. apply Hn. apply in_map_iff in Hin. destruct Hin as [x [Hx Hin]].
  apply filter_In in Hin. apply in_map_iff. exists x. tauto.
Qed.

Lemma In_year_dirs (v : bool) (es : list (string * node)) (d : string) :
  NoDup (map fst es) ->
  (In d (year_dirs (Dir v es))
   <-> DDS.is_year_name d = true /\ Fs.is_dir (Dir v es) [d] = true).
Proof.
  intro Hnd. unfold year_dirs, Fs.is_dir. simpl.
  rewrite filter_In, in_map_iff. split.
  - intros [[[k c] [<- Hin]] Hy]. split; [assumption|].
    apply filter_In in Hin. destruct Hin as [Hin Hc]. simpl in *.
    rewrite (In_find_entry k es c Hnd Hin). now destruct c.
  - intros [Hy Hd]. split; [|assumption].
    destruct (Fs.find_entry d es) as [[st data | v' es']|] eqn:E; try discriminate.
    exists (d, Dir v' es'). split; [reflexivity|].
    apply filter_In. split; [now apply find_entry_In | reflexivity].
Qed.

(** C7, as the specification has it, fails for [move_files], whose walk
    leaves nothing out: it goes into the directory [2020] at the top of the
    source directory, without a diagnostic, and moves the file in it. *)
Lemma move_files_walks_year_directories :
  four_ascii_digits "2020" = true
  /\ exists st,
       FYO.move_files 3 Posix ["photos"] false false true sorted = Some st
       /\ moved_count st = 1
       /\ out (now st)
          = [Out (Moving ["photos"; "2020"; "a.jpg"] ["2020"; "photos"; "2020"; "a.jpg"])]
       /\ Fs.is_file (fs (now st)) ["2020"; "photos"; "2020"; "a.jpg"] = true
       /\ Fs.is_file (fs (now st)) ["photos"; "2020"; "a.jpg"] = false.
Proof.
  split; [reflexivity|]. eexists. split; [vm_compute; reflexivity|].
  repeat split; reflexivity.
Qed.

(** C7, amended.  The collecting walk of [organize_files] does not go into a
    directory directly below the source directory whose name is four
    digits: it prints one line for each such directory, in listing order,
    and collects every regular file of the tree except those inside them.
    A directory with such a name further down is walked like any other.
    ([move_files] walks every directory.) *)
Theorem scanner_skips_year_directories_at_the_top
        (source_path : path) (w : world) (v : bool) (es : list (string * node)) :
  wf (fs w) = true ->
  Fs.lookup (fs w) source_path = Some (Dir v es) ->
  exists w' files,
    DDS.collect source_path w = Some (w', files)
    /\ fs w' = fs w
    /\ out w' = out w ++ map (fun d => Out (SkippingYearDir d)) (year_dirs (Dir v es))
    /\ NoDup (year_dirs (Dir v es))
    /\ (forall d,
           In d (year_dirs (Dir v es))
           <-> DDS.is_year_name d = true /\ Fs.is_dir (fs w) (source_path ++ [d]) = true)
    /\ (forall d, four_ascii_digits d = true -> DDS.is_year_name d = true)
    /\ (forall f,
           In f files
           <-> exists rel,
                 rel <> [] /\ f = source_path ++ rel
                 /\ Fs.is_file (fs w) (source_path ++ rel) = true
                 /\ match rel with
                    | d :: _ :: _ => DDS.is_year_name d
                    | _ => false
                    end = false).
Proof.
  intros Hwf Hn.
  assert (Hwfn : wf (Dir v es) = true) by now apply (wf_lookup _ _ _ Hwf Hn).
  pose proof Hwfn as Hnd. apply wf_Dir in Hnd. destruct Hnd as [Hnd _].
  exists {| fs := fs w;
            out := out w ++ map (fun d => Out (SkippingYearDir d))
                                (year_dirs (Dir v es)) |},
         (top_files source_path (Dir v es)).
  split; [now apply DDS_collect_spec|].
  split; [reflexivity|]. split; [reflexivity|]. split; [|split; [|split]].
  - unfold year_dirs. apply NoDup_filter. now apply NoDup_map_fst_filter.
  - intro d. rewrite (In_year_dirs v es d Hnd).
    unfold Fs.is_dir. now rewrite lookup_app, Hn.
  - apply four_ascii_digits_year_name.
  - intro f. rewrite (In_top_files source_path (Dir v es) f Hwfn).
    split; intros [rel [H1 [H2 [H3 H4]]]]; exists rel; repeat split; try assumption;
      unfold Fs.is_file in *; rewrite lookup_app, Hn in *; assumption.
Qed.

Lemma scanner_skips_year_directories_at_the_top_witness :
  exists w' files,
    DDS.collect ["photos"] sorted = Some (w', files)
    /\ fs w' = fs sorted
    /\ out w' = out sorted
                ++ map (fun d => Out (SkippingYearDir d))
                       (year_dirs (Dir true [("2020", Dir true [("a.jpg", File (stamp 1577836800) "a")])]))
    /\ NoDup (year_dirs (Dir true [("2020", Dir true [("a.jpg", File (stamp 1577836800) "a")])]))
    /\ (forall d,
           In d (year_dirs (Dir true [("2020", Dir true [("a.jpg", File (stamp 1577836800) "a")])]))
           <-> DDS.is_year_name d = true /\ Fs.is_dir (fs sorted) (["photos"] ++ [d]) = true)
    /\ (forall d, four_ascii_digits d = true -> DDS.is_year_name d = true)
    /\ (forall f,
           In f files
           <-> exists rel,
                 rel <> [] /\ f = ["photos"] ++ rel
                 /\ Fs.is_file (fs sorted) (["photos"] ++ rel) = true
                 /\ match rel with
                    | d :: _ :: _ => DDS.is_year_name d
                    | _ => false
                    end = false).
Proof.
  apply (scanner_skips_year_directories_at_the_top ["photos"] sorted true); reflexivity.
Defined.

(** ** Counters *)

(** C6, as the specification has it, fails for a dry run of [move_files]:
    the two files of the example are found and reported, and neither
    counter moves. *)
Lemma dry_run_of_move_files_counts_nothing :
  exists st,
    FYO.move_files 3 Posix ["photos"] false true false photos = Some st
    /\ out (now st)
       = [Out (WouldMove ["photos"; "a.jpg"] ["2020"; "photos"; "a.jpg"]);
          Out (WouldMove ["photos"; "sub"; "b.jpg"] ["2021"; "photos"; "sub"; "b.jpg"])]
    /\ moved_count st = 0
    /\ error_count st = 0.
Proof. eexists. split; [vm_compute; reflexivity|]. repeat split; reflexivity. Qed.

(** The outcome of one turn of the processing loop of [organize_files]. *)
Lemma DDS_process_file_outcome (plat : platform) (dry_run : bool)
      (source_path : path) (st : progress) (f : path) :
  let st' := DDS.process_file plat dry_run source_path st f in
  (exists year rel,
      creation_year plat f (now st) = (Ok year, now st)
      /\ f = source_path ++ rel
      /\ out (now st') = out (now st) ++ [Out (Moving rel (Py.str year :: rel))]
      /\ (if dry_run then fs (now st') = fs (now st)
          else
            exists t1 rd,
              Fs.mkdir_p (fs (now st))
                         (Path.parent (source_path ++ [Py.str year] ++ rel)) = Ok t1
              /\ Shutil.move f (source_path ++ [Py.str year] ++ rel) t1
                 = (Ok rd, fs (now st'))
              /\ (wf (fs (now st)) = true -> transferred t1 f rd (fs (now st'))))
      /\ moved_count st' = moved_count st + 1
      /\ error_count st' = error_count st)
  \/ (exists e w1,
         DDS.try_block plat dry_run source_path f (now st) = (Raise e, w1)
         /\ now st' = print (Err (ProcessingError f e)) w1
         /\ (w1 = print (Err (CreationDateError f e)) (now st)
             \/ (w1 = now st /\ forall rel, f <> source_path ++ rel)
             \/ (dry_run = false
                 /\ exists year rel,
                     creation_year plat f (now st) = (Ok year, now st)
                     /\ f = source_path ++ rel
                     /\ out w1 = out (now st) ++ [Out (Moving rel (Py.str year :: rel))]))
         /\ moved_count st' = moved_count st
         /\ error_count st' = error_count st + 1).
Proof.
  intro st'. unfold st', DDS.process_file.
  destruct (creation_year plat f (now st)) as [[year|e] w0] eqn:Ey.
  2:{ right. exists e, w0. rewrite (DDS_try_block_no_year _ _ _ _ _ _ _ Ey).
      repeat split; try reflexivity. left.
      revert Ey. unfold creation_year. repeat case_match; congruence. }
  destruct (creation_year_Ok _ _ _ _ _ Ey) as [-> _].
  destruct (Path.relative_to f source_path) as [rel|e] eqn:Er.
  2:{ right. exists e, (now st).
      assert (Et : DDS.try_block plat dry_run source_path f (now st) = (Raise e, now st)).
      { unfold DDS.try_block, DDS.get_file_creation_date, bind, of_res.
        now rewrite Ey, Er. }
      rewrite Et. repeat split; try reflexivity. right. left.
      split; [reflexivity|]. intros rel ->. now rewrite relative_to_app in Er. }
  apply relative_to_inv in Er. subst f.
  rewrite (DDS_try_block_run plat dry_run source_path rel year _ _ Ey). cbv zeta.
  destruct dry_run.
  { left. exists year, rel. cbn [now moved_count error_count out fs print set_fs].
    repeat split; auto. }
  destruct (Fs.mkdir_p (fs (now st)) _) as [t1|e] eqn:Em.
  2:{ right. eexists. eexists. split; [reflexivity|].
      cbn [now moved_count error_count out fs print set_fs].
      repeat split; try reflexivity. right. right. split; [reflexivity|].
      exists year, rel. repeat split; auto. }
  destruct (Shutil.move _ _ t1) as [[rd|e] t2] eqn:Ev.
  - left. exists year, rel. cbn [now moved_count error_count out fs print set_fs].
    repeat split; try reflexivity; try assumption.
    exists t1, rd. split; [exact Em|]. split; [exact Ev|].
    intro Hwf. apply (move_effect t1 _ _ rd t2 (wf_mkdir_p _ _ _ Hwf Em) Ev).
  - right. eexists. eexists. split; [reflexivity|].
    cbn [now moved_count error_count out fs print set_fs].
    repeat split; try reflexivity. right. right. split; [reflexivity|].
    exists year, rel. repeat split; auto.
Qed.

(** The outcome of one turn of the inner loop of [move_files]. *)
Lemma FYO_process_file_outcome (plat : platform) (copy dry_run full_path : bool)
      (source_path root_path : path) (st : progress) (filename : string) :
  let f := root_path ++ [filename] in
  let anchor := Path.parent source_path in
  let st' := FYO.process_file plat copy dry_run full_path source_path root_path
                              st filename in
  (exists year rel,
      creation_year plat f (now st) = (Ok year, now st)
      /\ f = anchor ++ rel
      /\ let dest := anchor ++ [Py.str year] ++ rel in
         let a := if full_path then f else rel in
         let b := if full_path then dest else Py.str year :: rel in
         if dry_run then
           now st' = print (Out (WouldMove a b)) (now st)
           /\ moved_count st' = moved_count st
           /\ error_count st' = error_count st
         else
           out (now st') = out (now st) ++ [Out (Moving a b)]
           /\ (exists t1 rd,
                  Fs.mkdir_p (fs (now st)) (Path.parent dest) = Ok t1
                  /\ (if copy then Shutil.copy2 f dest t1 else Shutil.move f dest t1)
                     = (Ok rd, fs (now st'))
                  /\ (copy = false -> wf (fs (now st)) = true ->
                      transferred t1 f rd (fs (now st'))))
           /\ moved_count st' = moved_count st + 1
           /\ error_count st' = error_count st)
  \/ (exists e w1,
         FYO.try_block plat copy dry_run full_path source_path f (now st) = (Raise e, w1)
         /\ now st' = print (Out (ProcessingError f e)) w1
         /\ (w1 = print (Err (CreationDateError f e)) (now st)
             \/ (w1 = now st /\ forall rel, f <> anchor ++ rel)
             \/ (dry_run = false
                 /\ exists year rel,
                     creation_year plat f (now st) = (Ok year, now st)
                     /\ f = anchor ++ rel
                     /\ out w1
                        = out (now st)
                          ++ [Out (Moving
                                     (if full_path then f else rel)
                                     (if full_path then anchor ++ [Py.str year] ++ rel
                                      else Py.str year :: rel))]))
         /\ moved_count st' = moved_count st
         /\ error_count st' = error_count st + 1).
Proof.
  intros f anchor st'. unfold st', FYO.process_file. fold f.
  destruct (creation_year plat f (now st)) as [[year|e] w0] eqn:Ey.
  2:{ right. exists e, w0.
      assert (Et : FYO.try_block plat copy dry_run full_path source_path f (now st)
                   = (Raise e, w0)).
      { unfold FYO.try_block, FYO.file_creation_date, bind. now rewrite Ey. }
      rewrite Et. repeat split; try reflexivity. left.
      revert Ey. unfold creation_year. repeat case_match; congruence. }
  destruct (creation_year_Ok _ _ _ _ _ Ey) as [-> _].
  destruct (Path.relative_to f anchor) as [rel|e] eqn:Er.
  2:{ right. exists e, (now st).
      assert (Et : FYO.try_block plat copy dry_run full_path source_path f (now st)
                   = (Raise e, now st)).
      { unfold FYO.try_block, FYO.file_creation_date, bind, of_res.
        fold anchor. now rewrite Ey, Er. }
      rewrite Et. repeat split; try reflexivity. right. left.
      split; [reflexivity|]. intros rel E. rewrite E, relative_to_app in Er.
      discriminate. }
  apply relative_to_inv in Er. rewrite Er in *.
  pose proof (FYO_try_block_run plat copy dry_run full_path source_path rel year
                                _ _ Ey) as Et.
  cbv zeta in Et. fold anchor in Et. rewrite Et.
  destruct dry_run.
  { left. exists year, rel. cbn [now moved_count error_count out fs print set_fs].
    repeat split; auto. }
  destruct (Fs.mkdir_p (fs (now st)) _) as [t1|e] eqn:Em.
  2:{ right. eexists. eexists. split; [reflexivity|].
      cbn [now moved_count error_count out fs print set_fs].
      repeat split; try reflexivity. right. right. split; [reflexivity|].
      exists year, rel. repeat split; auto. }
  destruct (if copy then Shutil.copy2 _ _ t1 else Shutil.move _ _ t1)
    as [[rd|e] t2] eqn:Ev.
  - left. exists year, rel. cbn [now moved_count error_count out fs print set_fs].
    repeat split; try reflexivity; try assumption.
    exists t1, rd. split; [exact Em|]. split; [exact Ev|].
    intros -> Hwf. apply (move_effect t1 _ _ rd t2 (wf_mkdir_p _ _ _ Hwf Em) Ev).
  - right. eexists. eexists. split; [reflexivity|].
    cbn [now moved_count error_count out fs print set_fs].
    repeat split; try reflexivity. right. right. split; [reflexivity|].
    exists year, rel. repeat split; auto.
Qed.

(** The processing loop of [organize_files] prints one "Error processing"
    line for every error it counts. *)
Lemma DDS_process_file_errors (plat : platform) (dry_run : bool)
      (source_path : path) (st : progress) (f : path) :
  let st' := DDS.process_file plat dry_run source_path st f in
  exists ls,
    out (now st') = out (now st) ++ ls
    /\ error_count st' = error_count st + List.length (filter is_error_line ls).
Proof.
  intro st'.
  destruct (DDS_process_file_outcome plat dry_run source_path st f)
    as [[year [rel [_ [_ [Ho [_ [_ He]]]]]]] | [e [w1 [_ [Hn [Hw [_ He]]]]]]];
    fold st' in Ho || fold st' in Hn, He.
  - fold st' in He. eexists. split; [exact Ho|]. simpl. lia.
  - destruct Hw as [-> | [[-> _] | [_ [year [rel [_ [_ Ho]]]]]]].
    + exists [Err (CreationDateError f e); Err (ProcessingError f e)].
      rewrite Hn, He. simpl. rewrite <- app_assoc. auto.
    + exists [Err (ProcessingError f e)]. rewrite Hn, He. auto.
    + exists [Out (Moving rel (Py.str year :: rel)); Err (ProcessingError f e)].
      rewrite Hn, He. simpl. rewrite Ho, <- app_assoc. auto.
Qed.

Lemma DDS_process_all_errors (plat : platform) (dry_run : bool) (source_path : path)
      (files : list path) (w : world) :
  let st := DDS.process_all plat dry_run source_path files w in
  exists ls,
    out (now st) = out w ++ ls
    /\ error_count st = List.length (filter is_error_line ls).
Proof.
  unfold DDS.process_all.
  set (st0 := {| now := w; moved_count := 0; error_count := 0 |}).
  enough (H : forall st,
             exists ls,
               out (now (fold_left (DDS.process_file plat dry_run source_path) files st))
               = out (now st) ++ ls
               /\ error_count (fold_left (DDS.process_file plat dry_run source_path)
                                         files st)
                  = error_count st + List.length (filter is_error_line ls)).
  { exact (H st0). }
  induction files as [|f files IH]; intro st; simpl.
  - exists []. rewrite app_nil_r. simpl. auto.
  - destruct (IH (DDS.process_file plat dry_run source_path st f)) as [ls [Ho He]].
    destruct (DDS_process_file_errors plat dry_run source_path st f) as [ls1 [Ho1 He1]].
    exists (ls1 ++ ls). rewrite Ho, Ho1, He, He1, filter_app, length_app, app_assoc.
    split; [reflexivity | lia].
Qed.

(** C6, amended.  One turn of the processing loop of [organize_files], with
    or without the dry-run flag, ends in one of two ways and never at the
    skip.  Either the file is below the source directory and its year was
    read: the "Moving" line is printed and nothing else, a dry run leaves
    the tree as it was and a real run has created the directory of the
    destination and [shutil.move] has put the file there, and the step adds
    one to the count of files and nothing to the count of errors.  Or the
    [try] block raised: "Error processing" is printed on standard error
    after what the block had printed, and the step adds one to the count of
    errors and nothing to the count of files.  Over the whole loop the two
    counts add up to the number of files, and the count of errors is the
    number of "Error processing" lines.  One turn of the loop of
    [move_files] in move or copy mode ends in the same two ways, with the
    error line on standard output; in a dry run the file is reported
    ("Would move") and neither count changes, or the block raised and the
    step counts as an error. *)
Theorem every_file_is_counted_once :
  (forall plat dry_run source_path st f,
      let st' := DDS.process_file plat dry_run source_path st f in
      (exists year rel,
          creation_year plat f (now st) = (Ok year, now st)
          /\ f = source_path ++ rel
          /\ out (now st') = out (now st) ++ [Out (Moving rel (Py.str year :: rel))]
          /\ (if dry_run then fs (now st') = fs (now st)
              else
                exists t1 rd,
                  Fs.mkdir_p (fs (now st))
                             (Path.parent (source_path ++ [Py.str year] ++ rel)) = Ok t1
                  /\ Shutil.move f (source_path ++ [Py.str year] ++ rel) t1
                     = (Ok rd, fs (now st'))
                  /\ (wf (fs (now st)) = true -> transferred t1 f rd (fs (now st'))))
          /\ moved_count st' = moved_count st + 1
          /\ error_count st' = error_count st)
      \/ (exists e w1,
             DDS.try_block plat dry_run source_path f (now st) = (Raise e, w1)
             /\ now st' = print (Err (ProcessingError f e)) w1
             /\ (w1 = print (Err (CreationDateError f e)) (now st)
                 \/ (w1 = now st /\ forall rel, f <> source_path ++ rel)
                 \/ (dry_run = false
                     /\ exists year rel,
                         creation_year plat f (now st) = (Ok year, now st)
                         /\ f = source_path ++ rel
                         /\ out w1
                            = out (now st) ++ [Out (Moving rel (Py.str year :: rel))]))
             /\ moved_count st' = moved_count st
             /\ error_count st' = error_count st + 1))
  /\ (forall plat dry_run source_path files w,
         let st := DDS.process_all plat dry_run source_path files w in
         moved_count st + error_count st = List.length files
         /\ exists ls,
             out (now st) = out w ++ ls
             /\ error_count st = List.length (filter is_error_line ls))
  /\ (forall plat copy dry_run full_path source_path root_path st filename,
         let f := root_path ++ [filename] in
         let anchor := Path.parent source_path in
         let st' := FYO.process_file plat copy dry_run full_path source_path root_path
                                     st filename in
         (exists year rel,
             creation_year plat f (now st) = (Ok year, now st)
             /\ f = anchor ++ rel
             /\ let dest := anchor ++ [Py.str year] ++ rel in
                let a := if full_path then f else rel in
                let b := if full_path then dest else Py.str year :: rel in
                if dry_run then
                  now st' = print (Out (WouldMove a b)) (now st)
                  /\ moved_count st' = moved_count st
                  /\ error_count st' = error_count st
                else
                  out (now st') = out (now st) ++ [Out (Moving a b)]
                  /\ (exists t1 rd,
                         Fs.mkdir_p (fs (now st)) (Path.parent dest) = Ok t1
                         /\ (if copy then Shutil.copy2 f dest t1
                             else Shutil.move f dest t1)
                            = (Ok rd, fs (now st'))
                         /\ (copy = false -> wf (fs (now st)) = true ->
                             transferred t1 f rd (fs (now st'))))
                  /\ moved_count st' = moved_count st + 1
                  /\ error_count st' = error_count st)
         \/ (exists e w1,
                FYO.try_block plat copy dry_run full_path source_path f (now st)
                = (Raise e, w1)
                /\ now st' = print (Out (ProcessingError f e)) w1
                /\ (w1 = print (Err (CreationDateError f e)) (now st)
                    \/ (w1 = now st /\ forall rel, f <> anchor ++ rel)
                    \/ (dry_run = false
                        /\ exists year rel,
                            creation_year plat f (now st) = (Ok year, now st)
                            /\ f = anchor ++ rel
                            /\ out w1
                               = out (now st)
                                 ++ [Out (Moving
                                            (if full_path then f else rel)
                                            (if full_path then anchor ++ [Py.str year] ++ rel
                                             else Py.str year :: rel))]))
                /\ moved_count st' = moved_count st
                /\ error_count st' = error_count st + 1)).
Proof.
  split; [|split].
  - intros. apply DDS_process_file_outcome.
  - intros plat dry_run source_path files w st. split.
    + apply DDS_process_all_counts.
    + apply DDS_process_all_errors.
  - intros. apply FYO_process_file_outcome.
Qed.

Lemma every_file_is_counted_once_witness :
  let st := {| now := photos; moved_count := 0; error_count := 0 |} in
  let st' := DDS.process_file Posix false ["photos"] st ["photos"; "a.jpg"] in
  moved_count st' = 1
  /\ error_count st' = 0
  /\ out (now st') = [Out (Moving ["a.jpg"] ["2020"; "a.jpg"])]
  /\ Fs.lookup (fs (now st')) ["photos"; "2020"; "a.jpg"]
     = Some (File (stamp 1577836800) "a").
Proof.
  intros st st'.
  destruct (proj1 every_file_is_counted_once Posix false ["photos"] st
                  ["photos"; "a.jpg"])
    as [[year [rel [Hy [Hf [Ho [Hmv [Hc He]]]]]]] | [e [w1 [Ht _]]]].
  - cbv beta iota in Hmv. destruct Hmv as [t1 [rd [Hm [Hv Ht]]]].
    vm_compute in Hy. injection Hy as <-.
    apply (app_inv_head ["photos"]) in Hf. subst rel.
    vm_compute in Hm. injection Hm as <-.
    destruct (Ht eq_refl) as [[s [data [Hs Hd]]] _ _].
    vm_compute in Hv. injection Hv as <-.
    vm_compute in Hs. injection Hs as <- <-.
    split; [exact Hc|]. split; [exact He|]. split; [exact Ho | exact Hd].
  - vm_compute in Ht. discriminate Ht.
Defined.

(** ** The exit status *)

(** C5, as the specification has it, fails for [folder_year_organiser]: on
    a directory that does not exist its walk finds nothing, the summary is
    printed on standard output and the exit status is zero. *)
Lemma move_files_accepts_a_missing_directory :
  Fs.exists_ photos_tree ["nowhere"] = false
  /\ FYO.main 0 Posix ["nowhere"] false false false photos
     = Some (0%Z, {| fs := photos_tree;
                     out := [Out JobCompleted; Out (FilesProcessed 0)] |}).
Proof. split; reflexivity. Qed.

(** C5, amended.  [disk_date_separator] ends with a status that is not zero
    exactly when the directory is missing or is not a directory; it then
    has printed one line, on standard error, and has left the tree alone.
    Otherwise it goes through every file of the list, however many fail:
    the counters add up to the length of the list, the summary is printed
    and the status is zero.  [folder_year_organiser] ends with status zero
    whenever it ends. *)
Theorem exit_status_tells_only_a_bad_directory :
  (forall plat directory dry_run w,
      wf (fs w) = true ->
      exists status w',
        DDS.main plat directory dry_run w = Some (status, w')
        /\ (status <> 0%Z <-> Fs.is_dir (fs w) directory = false)
        /\ (Fs.is_dir (fs w) directory = false ->
            status = 1%Z /\ fs w' = fs w /\ exists m, out w' = out w ++ [Err m])
        /\ (forall v es,
               Fs.lookup (fs w) directory = Some (Dir v es) ->
               let files := top_files directory (Dir v es) in
               let st := DDS.process_all plat dry_run directory files
                                         (DDS_scanned directory dry_run w (Dir v es)) in
               status = 0%Z
               /\ moved_count st + error_count st = List.length files
               /\ (if dry_run then w' = DDS_summary st
                   else DDS.cleanup_empty_dirs directory (DDS_summary st) = Some w')))
  /\ (forall fuel plat directory copy dry_run full_path w status w',
         FYO.main fuel plat directory copy dry_run full_path w = Some (status, w') ->
         status = 0%Z).
Proof.
  split.
  - intros plat directory dry_run w Hwf. unfold DDS.main.
    destruct (Fs.lookup (fs w) directory) as [[st data | v es]|] eqn:El.
    + unfold DDS.organize_files, Fs.exists_, Fs.is_dir. rewrite El. simpl.
      eexists. eexists. split; [reflexivity|]. simpl.
      split; [split; [reflexivity | discriminate]|].
      split; [|discriminate]. intros _. repeat split. eauto.
    + destruct (DDS_organize_files_runs plat directory dry_run w v es Hwf El)
        as [w' [E Hw']].
      rewrite E. exists 0%Z, w'. split; [reflexivity|].
      unfold Fs.is_dir. rewrite El. split; [split; [tauto | discriminate]|].
      split; [discriminate|].
      intros v0 es0 H0. injection H0 as <- <-. cbv zeta.
      split; [reflexivity|]. split; [apply DDS_process_all_counts | exact Hw'].
    + unfold DDS.organize_files, Fs.exists_, Fs.is_dir. rewrite El. simpl.
      eexists. eexists. split; [reflexivity|]. simpl.
      split; [split; [reflexivity | discriminate]|].
      split; [|discriminate]. intros _. repeat split. eauto.
  - intros fuel plat directory copy dry_run full_path w status w'. unfold FYO.main.
    destruct (FYO.move_files fuel plat directory copy dry_run full_path w);
      [|discriminate].
    intro H. now injection H as <- _.
Qed.

Lemma exit_status_tells_only_a_bad_directory_witness :
  exists status w',
    DDS.main Posix ["photos"] false photos = Some (status, w')
    /\ (status <> 0%Z <-> Fs.is_dir (fs photos) ["photos"] = false)
    /\ (Fs.is_dir (fs photos) ["photos"] = false ->
        status = 1%Z /\ fs w' = fs photos /\ exists m, out w' = out photos ++ [Err m])
    /\ (forall v es,
           Fs.lookup (fs photos) ["photos"] = Some (Dir v es) ->
           let files := top_files ["photos"] (Dir v es) in
           let st := DDS.process_all Posix false ["photos"] files
                                     (DDS_scanned ["photos"] false photos (Dir v es)) in
           status = 0%Z
           /\ moved_count st + error_count st = List.length files
           /\ (if false then w' = DDS_summary st
               else DDS.cleanup_empty_dirs ["photos"] (DDS_summary st) = Some w')).
Proof.
  apply (proj1 exit_status_tells_only_a_bad_directory Posix ["photos"] false photos).
  reflexivity.
Defined.

(** ** A destination that is taken *)

Lemma lookup_parent (t : node) (p : path) (n : node) :
  p <> [] ->
  Fs.lookup t p = Some n ->
  exists w es,
    Fs.lookup t (Path.parent p) = Some (Dir w es)
    /\ Fs.find_entry (Path.name p) es = Some n.
Proof.
  intros Hp H. rewrite (path_split_last p Hp), lookup_app in H.
  destruct (Fs.lookup t (Path.parent p)) as [[st data | w es]|]; try discriminate.
  exists w, es. split; [reflexivity|]. simpl in H.
  now destruct (Fs.find_entry (Path.name p) es).
Qed.

Lemma lookup_parent_is_dir (t : node) (p : path) (n : node) :
  p <> [] -> Fs.lookup t p = Some n -> Fs.is_dir t (Path.parent p) = true.
Proof.
  intros Hp H. destruct (lookup_parent t p n Hp H) as [w [es [E _]]].
  unfold Fs.is_dir. now rewrite E.
Qed.

Lemma alter_dir_Raise (f : bool -> list (string * node) -> res (list (string * node)))
      (t : node) (p : path) (e : exn) :
  Fs.alter_dir f t p = Raise e ->
  e = NotADirectoryError \/ e = FileNotFoundError \/ exists w es, f w es = Raise e.
Proof.
  revert t. induction p as [|c p IH]; intros t; simpl.
  - destruct t as [st data | w es]; [intro H; injection H as <-; auto|].
    destruct (f w es) as [es'|e'] eqn:Ef; [discriminate|].
    intro H. injection H as <-. right. right. eauto.
  - destruct t as [st data | w es]; [intro H; injection H as <-; auto|].
    destruct (Fs.find_entry c es) as [n|]; [|intro H; injection H as <-; auto].
    destruct (Fs.alter_dir f n p) as [n'|e'] eqn:Ea; [discriminate|].
    intro H. injection H as <-. now apply (IH n).
Qed.

(** Every error of [os.rename] is an [OSError]. *)
Lemma os_rename_raises_OSError (t : node) (src dst : path) (e : exn) :
  Fs.os_rename t src dst = Raise e -> is_OSError e = true.
Proof.
  unfold Fs.os_rename, Fs.os_unlink.
  destruct (Fs.lookup t src) as [[st data | v ds]|];
    try (intro H; injection H as <-; reflexivity).
  destruct (Path.eqb src dst); [discriminate|].
  destruct dst as [|c dst]; [intro H; injection H as <-; reflexivity|].
  destruct (Fs.alter_dir _ t (Path.parent (c :: dst))) as [t1|e1] eqn:E1.
  - destruct src as [|c' src]; [intro H; injection H as <-; reflexivity|].
    destruct (Fs.alter_dir _ t1 (Path.parent (c' :: src))) as [t2|e2] eqn:E2;
      [discriminate|].
    intro H. injection H as <-. apply alter_dir_Raise in E2.
    destruct E2 as [-> | [-> | [w [es E2]]]]; try reflexivity.
    repeat case_match; try discriminate; now injection E2 as <-.
  - intro H. injection H as <-. apply alter_dir_Raise in E1.
    destruct E1 as [-> | [-> | [w [es E1]]]]; try reflexivity.
    repeat case_match; try discriminate; now injection E1 as <-.
Qed.

Lemma os_unlink_run (t : node) (p : path) (es : list (string * node))
      (st : stat_result) (data : string) :
  p <> [] ->
  Fs.lookup t (Path.parent p) = Some (Dir true es) ->
  Fs.find_entry (Path.name p) es = Some (File st data) ->
  Fs.os_unlink t p
  = Ok (graft t (Path.parent p) (Dir true (Fs.remove_entry (Path.name p) es))).
Proof.
  intros Hp H Hf. unfold Fs.os_unlink. destruct p as [|c p]; [contradiction|].
  rewrite (alter_dir_run _ t _ true es H). now rewrite Hf.
Qed.

Lemma write_file_over (t : node) (p : path) (st st1 : stat_result) (data data1 : string) :
  p <> [] ->
  Fs.lookup t p = Some (File st1 data1) ->
  exists t1, Fs.write_file t p st data = Ok t1.
Proof.
  intros Hp H. destruct (lookup_parent t p _ Hp H) as [w [es [E Hf]]].
  unfold Fs.write_file. destruct p as [|c p]; [contradiction|].
  rewrite (alter_dir_run _ t _ w es E), Hf. eauto.
Qed.

Lemma unlink_gone (t : node) (src : path) (t2 : node) :
  wf t = true -> Fs.os_unlink t src = Ok t2 -> Fs.lookup t2 src = None.
Proof.
  intros Hwf H. apply os_unlink_Ok in H.
  destruct H as [es [st [data [Hne [Hp [Hc ->]]]]]].
  rewrite (graft_parent_lookup _ _ _ _ _ Hne Hp). apply find_remove_same.
  apply (wf_lookup _ _ _ Hwf) in Hp. now apply wf_Dir in Hp.
Qed.

(** Moving a regular file onto a regular file goes through when entries may
    be taken out of the directory of the source. *)
Lemma rename_or_copy_onto_file (t : node) (src dst : path)
      (st st1 : stat_result) (data data1 : string) :
  wf t = true ->
  Fs.lookup t src = Some (File st data) ->
  Fs.lookup t dst = Some (File st1 data1) ->
  src <> dst ->
  dir_flag t (Path.parent src) = Some true ->
  exists t2,
    Shutil.rename_or_copy src dst t = (Ok dst, t2)
    /\ wf t2 = true
    /\ Fs.lookup t2 dst = Some (File st data)
    /\ Fs.lookup t2 src = None.
Proof.
  intros Hwf Hs Hd Hne Hflag.
  assert (Hnd : Fs.is_dir t dst = false) by (unfold Fs.is_dir; now rewrite Hd).
  assert (Hsrc : src <> []).
  { intros ->. simpl in Hs. injection Hs as ->.
    destruct dst; [contradiction | discriminate]. }
  assert (Hdst : dst <> []).
  { intros ->. simpl in Hd. injection Hd as ->.
    destruct src; [contradiction | discriminate]. }
  unfold Shutil.rename_or_copy.
  destruct (Fs.os_rename t src dst) as [t'|e] eqn:Er.
  - destruct (rename_effect t src dst t' Hwf Er) as [[[st' [d' [Hs' Hd']]] [Hw _] _] Hgone].
    exists t'. rewrite Hs in Hs'. injection Hs' as <- <-. auto.
  - rewrite (os_rename_raises_OSError _ _ _ _ Er).
    unfold Fs.is_dir at 1. rewrite Hs.
    unfold bind, syscall, ret.
    destruct (Shutil.copy2 src dst t) as [[d'|e1] t1] eqn:Ec.
    + destruct (copy2_effect t src dst d' t1 Hwf Hnd Ec)
        as [-> [_ [Hstep [[st' [data' [Hs' [Hd' Hs1]]]] _]]]].
      rewrite Hs in Hs'. injection Hs' as <- <-.
      assert (Hwf1 : wf t1 = true) by now apply Hstep.
      assert (Hflag1 : dir_flag t1 (Path.parent src) = Some true) by now apply Hstep.
      unfold dir_flag in Hflag1.
      destruct (Fs.lookup t1 (Path.parent src)) as [[? ?|w es1]|] eqn:Ep; try discriminate.
      injection Hflag1 as ->.
      rewrite (os_unlink_run t1 src es1 st data Hsrc Ep).
      * eexists. split; [reflexivity|].
        assert (Eu : Fs.os_unlink t1 src
                     = Ok (graft t1 (Path.parent src)
                                 (Dir true (Fs.remove_entry (Path.name src) es1)))).
        { apply (os_unlink_run t1 src es1 st data Hsrc Ep).
          now rewrite <- (lookup_parent_name _ _ _ _ Hsrc Ep). }
        destruct (unlink_effect t1 src _ Hwf1 Eu) as [[Uwf _] [_ Ukept]].
        split; [now apply Uwf|]. split.
        -- apply Ukept; [congruence | assumption].
        -- now apply (unlink_gone t1 src).
      * now rewrite <- (lookup_parent_name _ _ _ _ Hsrc Ep).
    + exfalso. revert Ec. unfold Shutil.copy2. rewrite Hnd.
      assert (Eq : Path.eqb src dst = false) by now apply path_eqb_neq.
      rewrite Eq, andb_false_r, Hs.
      destruct (write_file_over t dst st st1 data data1 Hdst Hd) as [t1' ->].
      discriminate.
Qed.

(** Copying a regular file onto a regular file goes through. *)
Lemma copy2_onto_file (t : node) (src dst : path)
      (st st1 : stat_result) (data data1 : string) :
  wf t = true ->
  Fs.lookup t src = Some (File st data) ->
  Fs.lookup t dst = Some (File st1 data1) ->
  src <> dst ->
  exists t1,
    Shutil.copy2 src dst t = (Ok dst, t1)
    /\ wf t1 = true
    /\ Fs.lookup t1 dst = Some (File st data)
    /\ Fs.lookup t1 src = Some (File st data).
Proof.
  intros Hwf Hs Hd Hne.
  assert (Hnd : Fs.is_dir t dst = false) by (unfold Fs.is_dir; now rewrite Hd).
  assert (Hdst : dst <> []).
  { intros ->. simpl in Hd. injection Hd as ->.
    destruct src; [contradiction | discriminate]. }
  destruct (Shutil.copy2 src dst t) as [[d'|e1] t1] eqn:Ec.
  - destruct (copy2_effect t src dst d' t1 Hwf Hnd Ec)
      as [-> [_ [Hstep [[st' [data' [Hs' [Hd' Hs1]]]] _]]]].
    rewrite Hs in Hs'. injection Hs' as <- <-.
    exists t1. split; [reflexivity|]. split; [now apply Hstep | auto].
  - exfalso. revert Ec. unfold Shutil.copy2. rewrite Hnd.
    assert (Eq : Path.eqb src dst = false) by now apply path_eqb_neq.
    rewrite Eq, andb_false_r, Hs.
    destruct (write_file_over t dst st st1 data data1 Hdst Hd) as [t1' ->].
    discriminate.
Qed.

Lemma move_onto_file (t : node) (src dst : path)
      (st st1 : stat_result) (data data1 : string) :
  wf t = true ->
  Fs.lookup t src = Some (File st data) ->
  Fs.lookup t dst = Some (File st1 data1) ->
  src <> dst ->
  dir_flag t (Path.parent src) = Some true ->
  exists t2,
    on_fs (syscall (fun t => Fs.mkdir_p t (Path.parent dst))) {| fs := t; out := [] |}
    = (Ok tt, {| fs := t; out := [] |})
    /\ Shutil.move src dst t = (Ok dst, t2)
    /\ wf t2 = true
    /\ Fs.lookup t2 dst = Some (File st data)
    /\ Fs.lookup t2 src = None.
Proof.
  intros Hwf Hs Hd Hne Hflag.
  assert (Hdst : dst <> []).
  { intros ->. simpl in Hd. injection Hd as ->.
    destruct src; [contradiction | discriminate]. }
  destruct (rename_or_copy_onto_file t src dst st st1 data data1 Hwf Hs Hd Hne Hflag)
    as [t2 [E H2]].
  exists t2. split; [|split; [|exact H2]].
  - unfold on_fs, syscall. simpl.
    now rewrite (mkdir_p_existing t _ (lookup_parent_is_dir t dst _ Hdst Hd)).
  - unfold Shutil.move, Fs.is_dir. now rewrite Hd.
Qed.

(** A file cannot be taken out of a directory that does not allow it. *)
Lemma os_unlink_refused (t : node) (p : path) (st : stat_result) (data : string) :
  Fs.lookup t p = Some (File st data) ->
  dir_flag t (Path.parent p) = Some false ->
  Fs.os_unlink t p = Raise PermissionError.
Proof.
  intros Hp Hflag. unfold dir_flag in Hflag.
  destruct (Fs.lookup t (Path.parent p)) as [[? ?|w es]|] eqn:E; try discriminate.
  injection Hflag as ->.
  assert (Hne : p <> []).
  { intros ->. simpl in *. congruence. }
  rewrite (lookup_parent_name _ _ _ _ Hne E) in Hp.
  unfold Fs.os_unlink. destruct p as [|c p]; [contradiction|].
  now rewrite (alter_dir_run _ t _ false es E), Hp.
Qed.

Lemma os_rename_refused (t : node) (src dst : path)
      (st st1 : stat_result) (data data1 : string) :
  Fs.lookup t src = Some (File st data) ->
  Fs.lookup t dst = Some (File st1 data1) ->
  src <> dst ->
  dir_flag t (Path.parent src) = Some false ->
  exists e, Fs.os_rename t src dst = Raise e.
Proof.
  intros Hs Hd Hne Hflag. unfold Fs.os_rename. rewrite Hs.
  assert (Eq : Path.eqb src dst = false) by now apply path_eqb_neq.
  rewrite Eq. destruct dst as [|c0 dst0]; [now eexists|].
  set (dst := c0 :: dst0) in *.
  destruct (Fs.alter_dir _ t (Path.parent dst)) as [t1|e] eqn:Ea; [|now eexists].
  apply alter_dir_Ok in Ea. destruct Ea as [w [es [es' [Hp [Hf ->]]]]].
  assert (Hdne : dst <> []) by discriminate.
  assert (Hnotdir : forall v ds, Fs.find_entry (Path.name dst) es <> Some (Dir v ds)).
  { intros v ds E. rewrite E in Hf. discriminate. }
  assert (Hes' : es' = Fs.set_entry (Path.name dst) (File st data) es).
  { destruct (Fs.find_entry (Path.name dst) es) as [[? ?|? ?]|];
      destruct w; try discriminate; now injection Hf as <-. }
  subst es'.
  rewrite (os_unlink_refused _ src st data); [now eexists| |].
  - apply files_kept_after_set; try assumption; try reflexivity.
    now rewrite <- (path_split_last dst Hdne).
  - now apply dirs_after_set.
Qed.

(** Moving a regular file onto a regular file out of a directory that does
    not allow it: the rename is refused, the copy replaces the destination,
    and taking the source away is refused. *)
Lemma rename_or_copy_refused (t : node) (src dst : path)
      (st st1 : stat_result) (data data1 : string) :
  wf t = true ->
  Fs.lookup t src = Some (File st data) ->
  Fs.lookup t dst = Some (File st1 data1) ->
  src <> dst ->
  dir_flag t (Path.parent src) = Some false ->
  exists t1,
    Shutil.rename_or_copy src dst t = (Raise PermissionError, t1)
    /\ Shutil.move src dst t = (Raise PermissionError, t1)
    /\ Fs.lookup t1 dst = Some (File st data)
    /\ Fs.lookup t1 src = Some (File st data).
Proof.
  intros Hwf Hs Hd Hne Hflag.
  assert (Hnd : Fs.is_dir t dst = false) by (unfold Fs.is_dir; now rewrite Hd).
  assert (Hmv : Shutil.move src dst t = Shutil.rename_or_copy src dst t).
  { unfold Shutil.move. now rewrite Hnd. }
  rewrite Hmv. unfold Shutil.rename_or_copy.
  destruct (os_rename_refused t src dst st st1 data data1 Hs Hd Hne Hflag) as [e Er].
  rewrite Er, (os_rename_raises_OSError _ _ _ _ Er).
  unfold Fs.is_dir at 1 2. rewrite Hs.
  unfold bind, syscall, ret.
  destruct (copy2_onto_file t src dst st st1 data data1 Hwf Hs Hd Hne)
    as [t1 [Ec [Hwf1 [Hd1 Hs1]]]].
  rewrite Ec.
  destruct (copy2_effect t src dst dst t1 Hwf Hnd Ec) as [_ [_ [Hstep _]]].
  rewrite (os_unlink_refused t1 src st data Hs1); [|now apply Hstep].
  exists t1. auto.
Qed.

(** C10, as the specification has it, fails where the file cannot be taken
    out of its directory: the rename is refused, [shutil.move] copies the
    file over the one at the destination, whose contents are gone, and then
    fails to delete the source.  The step is counted as an error and
    "Error processing" is printed; the file is still where it was. *)
Lemma replacing_from_a_closed_directory_is_an_error :
  let st' := DDS.process_file Posix false ["photos"] kept ["photos"; "a.jpg"] in
  Fs.lookup (fs (now kept)) ["photos"; "2020"; "a.jpg"]
  = Some (File (stamp 1262304000) "old")
  /\ Fs.lookup (fs (now st')) ["photos"; "2020"; "a.jpg"]
     = Some (File (stamp 1577836800) "new")
  /\ Fs.lookup (fs (now st')) ["photos"; "a.jpg"]
     = Some (File (stamp 1577836800) "new")
  /\ moved_count st' = 0
  /\ error_count st' = 1
  /\ out (now st')
     = [Out (Moving ["a.jpg"] ["2020"; "a.jpg"]);
        Err (ProcessingError ["photos"; "a.jpg"] PermissionError)].
Proof. vm_compute. repeat split; reflexivity. Qed.

(** C10, amended.  When the destination of a file is a regular file that is
    already there, the transfer puts the file in its place and the contents
    that were at the destination are gone.  Where the directory of the file
    allows taking it out, and for every copy ([move_files] with the copy
    flag), this is silent: the step counts as a move, no error is counted
    and the only line printed is the "Moving" line; after a move the source
    is gone, a copy leaves it as it was.  Where the directory of the file
    does not allow taking it out, a move still replaces the destination but
    ends in [PermissionError]: the source stays, the step is counted as an
    error and "Error processing" is printed after the "Moving" line. *)
Theorem taken_destination_is_replaced_silently :
  (forall plat source_path st file_path rel year s data s1 data1,
      wf (fs (now st)) = true ->
      Fs.lookup (fs (now st)) file_path = Some (File s data) ->
      creation_year plat file_path (now st) = (Ok year, now st) ->
      Path.relative_to file_path source_path = Ok rel ->
      Fs.lookup (fs (now st)) (DDS.new_file_path source_path year rel)
      = Some (File s1 data1) ->
      dir_flag (fs (now st)) (Path.parent file_path) = Some true ->
      let st' := DDS.process_file plat false source_path st file_path in
      Fs.lookup (fs (now st')) (DDS.new_file_path source_path year rel)
      = Some (File s data)
      /\ Fs.lookup (fs (now st')) file_path = None
      /\ moved_count st' = moved_count st + 1
      /\ error_count st' = error_count st
      /\ out (now st') = out (now st) ++ [Out (Moving rel (Py.str year :: rel))])
  /\ (forall plat copy full_path source_path root_path filename st rel year
             s data s1 data1,
         let file_path := root_path ++ [filename] in
         wf (fs (now st)) = true ->
         Fs.lookup (fs (now st)) file_path = Some (File s data) ->
         creation_year plat file_path (now st) = (Ok year, now st) ->
         Path.relative_to file_path (Path.parent source_path) = Ok rel ->
         Fs.lookup (fs (now st)) (FYO.new_file_path source_path year rel)
         = Some (File s1 data1) ->
         (copy = false -> dir_flag (fs (now st)) (Path.parent file_path) = Some true) ->
         let st' := FYO.process_file plat copy false full_path source_path
                                     root_path st filename in
         Fs.lookup (fs (now st')) (FYO.new_file_path source_path year rel)
         = Some (File s data)
         /\ Fs.lookup (fs (now st')) file_path
            = (if copy then Some (File s data) else None)
         /\ moved_count st' = moved_count st + 1
         /\ error_count st' = error_count st
         /\ exists a b, out (now st') = out (now st) ++ [Out (Moving a b)])
  /\ (forall plat source_path st file_path rel year s data s1 data1,
         wf (fs (now st)) = true ->
         Fs.lookup (fs (now st)) file_path = Some (File s data) ->
         creation_year plat file_path (now st) = (Ok year, now st) ->
         Path.relative_to file_path source_path = Ok rel ->
         Fs.lookup (fs (now st)) (DDS.new_file_path source_path year rel)
         = Some (File s1 data1) ->
         dir_flag (fs (now st)) (Path.parent file_path) = Some false ->
         let st' := DDS.process_file plat false source_path st file_path in
         Fs.lookup (fs (now st')) (DDS.new_file_path source_path year rel)
         = Some (File s data)
         /\ Fs.lookup (fs (now st')) file_path = Some (File s data)
         /\ moved_count st' = moved_count st
         /\ error_count st' = error_count st + 1
         /\ out (now st')
            = out (now st)
              ++ [Out (Moving rel (Py.str year :: rel));
                  Err (ProcessingError file_path PermissionError)])
  /\ (forall plat full_path source_path root_path filename st rel year
             s data s1 data1,
         let file_path := root_path ++ [filename] in
         wf (fs (now st)) = true ->
         Fs.lookup (fs (now st)) file_path = Some (File s data) ->
         creation_year plat file_path (now st) = (Ok year, now st) ->
         Path.relative_to file_path (Path.parent source_path) = Ok rel ->
         Fs.lookup (fs (now st)) (FYO.new_file_path source_path year rel)
         = Some (File s1 data1) ->
         dir_flag (fs (now st)) (Path.parent file_path) = Some false ->
         let st' := FYO.process_file plat false false full_path source_path
                                     root_path st filename in
         Fs.lookup (fs (now st')) (FYO.new_file_path source_path year rel)
         = Some (File s data)
         /\ Fs.lookup (fs (now st')) file_path = Some (File s data)
         /\ moved_count st' = moved_count st
         /\ error_count st' = error_count st + 1
         /\ exists a b,
             out (now st')
             = out (now st)
               ++ [Out (Moving a b);
                   Out (ProcessingError file_path PermissionError)]).
Proof.
  split; [|split; [|split]].
  - intros plat source_path st file_path rel year s data s1 data1
           Hwf Hs Hy Hr Hd Hflag st'.
    assert (Hne : file_path <> DDS.new_file_path source_path year rel).
    { apply path_eqb_neq. now apply DDS_destination_differs. }
    destruct (move_onto_file _ _ _ s s1 data data1 Hwf Hs Hd Hne Hflag)
      as [t2 [Hm [Hv [_ [Hd2 Hs2]]]]].
    unfold on_fs, syscall in Hm. simpl in Hm.
    destruct (Fs.mkdir_p (fs (now st)) _) as [t1|e] eqn:Em; [|discriminate].
    injection Hm as Ht1. subst t1.
    unfold st', DDS.process_file, DDS.try_block, DDS.get_file_creation_date,
      bind, of_res, ret, say, on_fs, syscall.
    rewrite Hy, Hr, (DDS_destination_differs _ _ _ year Hr). simpl.
    rewrite Em. simpl. rewrite Hv. simpl. auto.
  - intros plat copy full_path source_path root_path filename st rel year
           s data s1 data1 file_path Hwf Hs Hy Hr Hd Hflag st'.
    assert (Hne : file_path <> FYO.new_file_path source_path year rel).
    { now apply FYO_destination_differs. }
    assert (Hdst : FYO.new_file_path source_path year rel <> []).
    { intros E. rewrite E in Hd. simpl in Hd. injection Hd as Ht.
      rewrite Ht in Hs. unfold file_path in Hs.
      destruct root_path; discriminate. }
    assert (Hmk : Fs.mkdir_p (fs (now st))
                             (Path.parent (FYO.new_file_path source_path year rel))
                  = Ok (fs (now st))).
    { apply mkdir_p_existing. now apply (lookup_parent_is_dir _ _ _ Hdst Hd). }
    assert (Hnew : Path.relative_to (FYO.new_file_path source_path year rel)
                                    (Path.parent source_path)
                   = Ok (Py.str year :: rel)).
    { unfold FYO.new_file_path. now rewrite <- app_assoc, relative_to_app. }
    assert (Hmove : copy = false ->
                    exists t2,
                      Shutil.move file_path (FYO.new_file_path source_path year rel)
                                  (fs (now st))
                      = (Ok (FYO.new_file_path source_path year rel), t2)
                      /\ Fs.lookup t2 (FYO.new_file_path source_path year rel)
                         = Some (File s data)
                      /\ Fs.lookup t2 file_path = None).
    { intro Hc.
      destruct (rename_or_copy_onto_file _ _ _ s s1 data data1 Hwf Hs Hd Hne
                  (Hflag Hc)) as [t2 [Em [_ [Hd2 Hs2]]]].
      exists t2. split; [|auto]. unfold Shutil.move, Fs.is_dir. now rewrite Hd. }
    destruct (copy2_onto_file _ _ _ s s1 data data1 Hwf Hs Hd Hne)
      as [t1 [Ec [_ [Hd1 Hs1]]]].
    unfold st', FYO.process_file, FYO.try_block, FYO.file_creation_date, FYO.shown,
      bind, of_res, ret, say, on_fs, syscall.
    fold file_path. rewrite Hy.
    cbn -[FYO.new_file_path Path.parent Path.relative_to Fs.mkdir_p Shutil.copy2
          Shutil.move Fs.lookup Py.str].
    rewrite Hr.
    destruct full_path;
      cbn -[FYO.new_file_path Path.parent Path.relative_to Fs.mkdir_p Shutil.copy2
            Shutil.move Fs.lookup Py.str];
      rewrite ?Hr, ?Hnew;
      cbn -[FYO.new_file_path Path.parent Path.relative_to Fs.mkdir_p Shutil.copy2
            Shutil.move Fs.lookup Py.str];
      rewrite Hmk;
      (destruct copy;
       [ cbn -[FYO.new_file_path Path.parent Path.relative_to Fs.mkdir_p Shutil.copy2
               Shutil.move Fs.lookup Py.str];
         rewrite Ec
       | destruct (Hmove eq_refl) as [t2 [Em [Hd2 Hs2]]];
         cbn -[FYO.new_file_path Path.parent Path.relative_to Fs.mkdir_p Shutil.copy2
               Shutil.move Fs.lookup Py.str];
         rewrite Em ]);
      cbn -[FYO.new_file_path Path.parent Path.relative_to Fs.lookup Py.str];
      repeat split; auto; eexists; eexists; reflexivity.
  - intros plat source_path st file_path rel year s data s1 data1
           Hwf Hs Hy Hr Hd Hflag st'.
    assert (Hne : file_path <> DDS.new_file_path source_path year rel).
    { apply path_eqb_neq. now apply DDS_destination_differs. }
    assert (Hdst : DDS.new_file_path source_path year rel <> []).
    { unfold DDS.new_file_path. now destruct source_path. }
    destruct (rename_or_copy_refused _ _ _ s s1 data data1 Hwf Hs Hd Hne Hflag)
      as [t1 [_ [Hv [Hd1 Hs1]]]].
    unfold st', DDS.process_file, DDS.try_block, DDS.get_file_creation_date,
      bind, of_res, ret, say, on_fs, syscall.
    rewrite Hy, Hr, (DDS_destination_differs _ _ _ year Hr). simpl.
    rewrite (mkdir_p_existing _ _ (lookup_parent_is_dir _ _ _ Hdst Hd)). simpl.
    rewrite Hv. simpl. rewrite <- app_assoc. auto.
  - intros plat full_path source_path root_path filename st rel year
           s data s1 data1 file_path Hwf Hs Hy Hr Hd Hflag st'.
    assert (Hne : file_path <> FYO.new_file_path source_path year rel).
    { now apply FYO_destination_differs. }
    assert (Hdst : FYO.new_file_path source_path year rel <> []).
    { unfold FYO.new_file_path. now destruct (Path.parent source_path). }
    destruct (rename_or_copy_refused _ _ _ s s1 data data1 Hwf Hs Hd Hne Hflag)
      as [t1 [_ [Hv [Hd1 Hs1]]]].
    pose proof (relative_to_inv _ _ _ Hr) as Hf.
    unfold st', FYO.process_file. fold file_path. rewrite Hf in Hy |- *.
    rewrite (FYO_try_block_run plat false false full_path source_path rel year
                               _ _ Hy).
    cbv zeta. unfold FYO.new_file_path in *. rewrite <- app_assoc in Hd, Hv, Hd1.
    assert (Hdst' : Path.parent source_path ++ [Py.str year] ++ rel <> []).
    { now destruct (Path.parent source_path). }
    rewrite (mkdir_p_existing _ _ (lookup_parent_is_dir _ _ _ Hdst' Hd)).
    rewrite Hf in Hv, Hs1. rewrite Hv.
    cbn [now moved_count error_count out fs print set_fs].
    rewrite <- (app_assoc (Path.parent source_path) [Py.str year] rel).
    repeat split; auto. eexists. eexists. now rewrite <- app_assoc.
Qed.

Lemma taken_destination_is_replaced_silently_witness :
  let st' := DDS.process_file Posix false ["photos"] taken ["photos"; "a.jpg"] in
  Fs.lookup (fs (now st')) (DDS.new_file_path ["photos"] 2020 ["a.jpg"])
  = Some (File (stamp 1577836800) "new")
  /\ Fs.lookup (fs (now st')) ["photos"; "a.jpg"] = None
  /\ moved_count st' = moved_count taken + 1
  /\ error_count st' = error_count taken
  /\ out (now st') = out (now taken) ++ [Out (Moving ["a.jpg"] (Py.str 2020 :: ["a.jpg"]))].
Proof.
  apply (proj1 taken_destination_is_replaced_silently Posix ["photos"] taken
               ["photos"; "a.jpg"] ["a.jpg"] 2020%Z
               (stamp 1577836800) "new" (stamp 1262304000) "old");
    reflexivity.
Defined.

(** ** Running twice *)

(** The reconciliation pass finds nothing to do in a tree it has been
    through. *)
Lemma clean_idempotent (n : node) :
  forall rel, clean rel (clean rel n) = clean rel n.
Proof.
  induction n as [st data | v es IH] using node_induction; intro rel; [reflexivity|].
  simpl. f_equal. rewrite Forall_forall in IH.
  induction es as [|[k c] es IHes]; [reflexivity|].
  simpl. rewrite flat_map_app.
  rewrite IHes by (intros e He; apply IH; now right).
  f_equal.
  destruct (removable (rel ++ [k]) v (clean (rel ++ [k]) c)) eqn:Er; [reflexivity|].
  simpl. rewrite (IH (k, c) (or_introl eq_refl)). simpl. now rewrite Er.
Qed.

Lemma fromtimestamp_year_range (t y : Z) :
  Py.fromtimestamp_year t = Ok y -> (1 <= y <= 9999)%Z.
Proof.
  unfold Py.fromtimestamp_year.
  destruct ((1 <=? _) && (_ <=? 9999))%Z eqn:E; [|discriminate].
  intro H. injection H as <-. apply andb_true_iff in E. lia.
Qed.

(** A year of four digits is written as a year directory is named. *)
Lemma str_of_four_digit_year (y : Z) :
  (1000 <= y <= 9999)%Z -> DDS.is_year_name (Py.str y) = true.
Proof.
  intro H.
  assert (Hall : forallb (fun n => DDS.is_year_name (Py.str (Z.of_nat n + 1000)))
                         (seq 0 (Z.to_nat 9000)) = true) by (vm_compute; reflexivity).
  rewrite forallb_forall in Hall.
  specialize (Hall (Z.to_nat (y - 1000))).
  replace (Z.of_nat (Z.to_nat (y - 1000)) + 1000)%Z with y in Hall by lia.
  apply Hall. apply in_seq. lia.
Qed.

Lemma collectable_top_files (source_path : path) (t n : node) (q : path) :
  wf t = true ->
  Fs.lookup t source_path = Some n ->
  (In q (top_files source_path n) <-> collectable source_path t q).
Proof.
  intros Hwf Hn. rewrite (In_top_files source_path n q (wf_lookup _ _ _ Hwf Hn)).
  unfold collectable.
  split; intros [rel [H1 [H2 [H3 H4]]]]; exists rel; repeat split; try assumption;
    subst q; unfold Fs.is_file in *; rewrite lookup_app, Hn in *; assumption.
Qed.

Lemma DDS_try_block_success (plat : platform) (source_path f : path)
      (w w' : world) (r : DDS.ending) :
  DDS.try_block plat false source_path f w = (Ok r, w') ->
  exists y rel t1 rd,
    creation_year plat f w = (Ok y, w)
    /\ Path.relative_to f source_path = Ok rel
    /\ Fs.mkdir_p (fs w) (Path.parent (DDS.new_file_path source_path y rel)) = Ok t1
    /\ Shutil.move f (DDS.new_file_path source_path y rel) t1 = (Ok rd, fs w').
Proof.
  unfold DDS.try_block, DDS.get_file_creation_date, bind, of_res, ret, say, on_fs, syscall.
  destruct (creation_year plat f w) as [[y|e] w1] eqn:Ey; [|discriminate].
  destruct (creation_year_Ok _ _ _ _ _ Ey) as [-> _].
  destruct (Path.relative_to f source_path) as [rel|e] eqn:Er; [|discriminate].
  rewrite (DDS_destination_differs _ _ _ y Er). simpl.
  destruct (Fs.mkdir_p (fs w) _) as [t1|e] eqn:Em; [|discriminate]. simpl.
  destruct (Shutil.move f _ t1) as [[rd|e] t2] eqn:Ev; [|discriminate]. simpl.
  intro H. injection H as _ <-. simpl.
  exists y, rel, t1, rd. auto.
Qed.

Lemma pruned_year_first (d : string) (rel tl : path) :
  rel <> [] -> DDS.is_year_name d = true -> pruned (d :: rel ++ tl) = true.
Proof. intros Hrel Hd. destruct rel; [contradiction | exact Hd]. Qed.

Lemma sorting_step (plat : platform) (source_path : path) (st : progress)
      (f : path) (rest : list path) :
  sorting plat source_path (fs (now st)) (f :: rest) ->
  error_count (DDS.process_file plat false source_path st f) = error_count st ->
  sorting plat source_path
          (fs (now (DDS.process_file plat false source_path st f))) rest.
Proof.
  intros [Hwf Hdir Hleft Hpaths Hyears]. unfold DDS.process_file.
  destruct (DDS.try_block plat false source_path f (now st)) as [[r|e] w'] eqn:Et;
    [| simpl; lia].
  assert (Hfs : fs (now match r with
                        | DDS.Continue =>
                            {| now := w'; moved_count := moved_count st;
                               error_count := error_count st |}
                        | DDS.Counted =>
                            {| now := w'; moved_count := moved_count st + 1;
                               error_count := error_count st |}
                        end) = fs w') by now destruct r.
  rewrite Hfs. intros _. clear Hfs.
  destruct (DDS_try_block_success _ _ _ _ _ _ Et) as [y [rel [t1 [rd [Hy [Hr [Hm Hv]]]]]]].
  destruct (creation_year_Ok _ _ _ _ _ Hy) as [_ [s [data [Hs Hys]]]].
  pose proof (relative_to_inv _ _ _ Hr) as Hf.
  assert (Hrel : rel <> []).
  { intros ->. rewrite app_nil_r in Hf. subst f.
    unfold Fs.is_dir in Hdir. now rewrite Hs in Hdir. }
  destruct (Hpaths f (or_introl eq_refl)) as [rel0 [Hf0 Hp0]].
  assert (rel0 = rel) by (rewrite Hf in Hf0; now apply app_inv_head in Hf0).
  subst rel0.
  assert (Hcf : collectable source_path (fs (now st)) f).
  { exists rel. repeat split; try assumption. unfold Fs.is_file. now rewrite Hs. }
  assert (Hyear : DDS.is_year_name (Py.str y) = true).
  { apply str_of_four_digit_year. split.
    - now apply (Hyears f s data y).
    - unfold year_of_stat in Hys. now apply fromtimestamp_year_range in Hys. }
  pose proof (mkdir_p_step _ _ _ Hm) as Hstep1.
  assert (Hwf1 : wf t1 = true) by now apply Hstep1.
  destruct (move_effect t1 f _ rd (fs w') Hwf1 Hv) as [[_ Hstep2 Hfiles] Hrd].
  assert (Hold : forall q s' d',
             Fs.lookup (fs w') q = Some (File s' d') ->
             collectable source_path (fs w') q ->
             q <> f /\ Fs.lookup (fs (now st)) q = Some (File s' d')).
  { intros q s' d' Hq [rel' [Hrel' [Hq' [_ Hp']]]].
    destruct (Hfiles q s' d' Hq) as [[Hqrd _] | [Hqf Hq1]].
    - exfalso. unfold DDS.new_file_path in Hrd. rewrite <- app_assoc in Hrd.
      simpl in Hrd.
      destruct Hrd as [[Erd _] | [Erd _]]; rewrite Erd in Hqrd; rewrite Hqrd in Hq'.
      + apply app_inv_head in Hq'. subst rel'.
        rewrite <- (app_nil_r rel) in Hp'.
        now rewrite (pruned_year_first _ rel [] Hrel Hyear) in Hp'.
      + rewrite <- app_assoc in Hq'. apply app_inv_head in Hq'. subst rel'.
        cbn [app] in Hp'.
        now rewrite (pruned_year_first _ rel _ Hrel Hyear) in Hp'.
    - split; [assumption|]. now apply (mkdir_p_files _ _ _ Hm). }
  assert (Hcoll : forall q, collectable source_path (fs w') q ->
                            q <> f /\ collectable source_path (fs (now st)) q).
  { intros q Hc. pose proof Hc as [rel' [Hrel' [Hq' [Hfile Hp']]]].
    apply is_file_lookup in Hfile. destruct Hfile as [s' [d' Hq]].
    destruct (Hold q s' d' Hq Hc) as [Hne Hq0]. split; [assumption|].
    exists rel'. repeat split; try assumption. unfold Fs.is_file. now rewrite Hq0. }
  split.
  - now apply Hstep2.
  - apply (file_step_is_dir t1); [assumption|].
    now apply (file_step_is_dir (fs (now st))).
  - intros q Hc. destruct (Hcoll q Hc) as [Hne Hc0].
    destruct (Hleft q Hc0) as [E | Hin]; [congruence | assumption].
  - intros q Hin. apply Hpaths. now right.
  - intros q s' d' y' Hc Hq Hy'.
    destruct (Hold q s' d' Hq Hc) as [_ Hq0]. destruct (Hcoll q Hc) as [_ Hc0].
    now apply (Hyears q s' d' y').
Qed.

Lemma DDS_errors_grow (plat : platform) (dry_run : bool) (source_path : path)
      (files : list path) (st : progress) :
  error_count st
  <= error_count (fold_left (DDS.process_file plat dry_run source_path) files st).
Proof.
  revert st. induction files as [|f files IH]; intro st; simpl; [lia|].
  specialize (IH (DDS.process_file plat dry_run source_path st f)).
  pose proof (DDS_process_file_counts plat dry_run source_path st f) as Hc.
  simpl in Hc. lia.
Qed.

Lemma sorting_done (plat : platform) (source_path : path) (files : list path) :
  forall st,
    sorting plat source_path (fs (now st)) files ->
    error_count (fold_left (DDS.process_file plat false source_path) files st)
    = error_count st ->
    sorting plat source_path
            (fs (now (fold_left (DDS.process_file plat false source_path) files st))) [].
Proof.
  induction files as [|f files IH]; intros st Hs He; simpl in *; [assumption|].
  pose proof (DDS_errors_grow plat false source_path files
                (DDS.process_file plat false source_path st f)) as Hg.
  pose proof (DDS_process_file_counts plat false source_path st f) as Hc.
  simpl in Hc.
  apply IH; [apply sorting_step; [assumption | lia] | lia].
Qed.

Lemma sorting_start (plat : platform) (source_path : path) (t : node)
      (v : bool) (es : list (string * node)) :
  wf t = true ->
  Fs.lookup t source_path = Some (Dir v es) ->
  four_digit_years plat t (top_files source_path (Dir v es)) = true ->
  sorting plat source_path t (top_files source_path (Dir v es)).
Proof.
  intros Hwf Hn Hy. split.
  - assumption.
  - unfold Fs.is_dir. now rewrite Hn.
  - intros q Hc. now apply (collectable_top_files source_path t (Dir v es) q Hwf Hn).
  - intros q Hin. apply (collectable_top_files source_path t (Dir v es) q Hwf Hn) in Hin.
    destruct Hin as [rel [_ [Hq [_ Hp]]]]. now exists rel.
  - intros q s data y Hc Hq Hys.
    apply (collectable_top_files source_path t (Dir v es) q Hwf Hn) in Hc.
    unfold four_digit_years in Hy. rewrite forallb_forall in Hy.
    specialize (Hy q Hc). rewrite Hq, Hys in Hy. lia.
Qed.

(** C3, as the specification has it, fails.  In the first run of
    [organize_files] the file [a.jpg] cannot be moved, because a file
    called [2020] is in the way, and then that file is moved to [2021]; the
    second run moves [a.jpg], so its tree is not the tree of the first
    run. *)
Lemma second_run_moves_what_was_blocked :
  exists w1 w2,
    DDS.organize_files Posix ["photos"] false blocked = Some (Returned, w1)
    /\ DDS.organize_files Posix ["photos"] false w1 = Some (Returned, w2)
    /\ Fs.is_file (fs w1) ["photos"; "a.jpg"] = true
    /\ Fs.is_file (fs w2) ["photos"; "a.jpg"] = false
    /\ Fs.is_file (fs w2) ["photos"; "2020"; "a.jpg"] = true
    /\ fs w2 <> fs w1.
Proof.
  eexists. eexists. split; [vm_compute; reflexivity|].
  split; [vm_compute; reflexivity|].
  repeat split; try reflexivity. discriminate.
Qed.

Lemma move_files_nests_deeper_each_run :
  exists st1 st2,
    FYO.move_files 3 Posix ["2020"] false false true
                   {| fs := year_named_tree; out := [] |} = Some st1
    /\ FYO.move_files 3 Posix ["2020"] false false true (now st1) = Some st2
    /\ moved_count st1 = 1 /\ moved_count st2 = 1
    /\ Fs.is_file (fs (now st1)) ["2020"; "2020"; "a.jpg"] = true
    /\ Fs.is_file (fs (now st2)) ["2020"; "2020"; "a.jpg"] = false
    /\ Fs.is_file (fs (now st2)) ["2020"; "2020"; "2020"; "a.jpg"] = true.
Proof.
  eexists. eexists. split; [vm_compute; reflexivity|].
  split; [vm_compute; reflexivity|]. repeat split; reflexivity.
Qed.

(** [move_files] with the copy flag copies the same files again in a second
    run. *)
Lemma copy_mode_copies_again :
  exists st1 st2,
    FYO.move_files 3 Posix ["photos"] true false true photos = Some st1
    /\ FYO.move_files 3 Posix ["photos"] true false true (now st1) = Some st2
    /\ moved_count st1 = 2 /\ moved_count st2 = 2
    /\ fs (now st2) = fs (now st1).
Proof.
  eexists. eexists. split; [vm_compute; reflexivity|].
  split; [vm_compute; reflexivity|]. repeat split; reflexivity.
Qed.

Lemma clean_Dir (rel : path) (v : bool) (es : list (string * node)) :
  exists es', clean rel (Dir v es) = Dir v es'.
Proof. simpl. eauto. Qed.

(** C3, amended.  When a run of [organize_files] without the dry-run flag,
    on a directory of a well-formed tree, counts no error and the years of
    the files it lists have four digits, a second run lists no file, moves
    nothing and leaves the tree as the first run left it. *)
Theorem second_run_of_organize_files_changes_nothing
        (plat : platform) (source_path : path) (w : world)
        (v : bool) (es : list (string * node)) :
  wf (fs w) = true ->
  Fs.lookup (fs w) source_path = Some (Dir v es) ->
  four_digit_years plat (fs w) (top_files source_path (Dir v es)) = true ->
  error_count (DDS.process_all plat false source_path
                               (top_files source_path (Dir v es))
                               (DDS_scanned source_path false w (Dir v es))) = 0 ->
  exists w1 w2 n1 skipped removed,
    DDS.organize_files plat source_path false w = Some (Returned, w1)
    /\ DDS.organize_files plat source_path false w1 = Some (Returned, w2)
    /\ fs w2 = fs w1
    /\ Fs.lookup (fs w1) source_path = Some n1
    /\ top_files source_path n1 = []
    /\ out w2 = out w1 ++ [Out (Organizing source_path)]
                       ++ map (fun d => Out (SkippingYearDir d)) skipped
                       ++ [Out (Found 0); Out Completed; Out (FilesProcessed 0)]
                       ++ removal_lines removed.
Proof.
  intros Hwf Hn Hyears Herr.
  set (files := top_files source_path (Dir v es)) in *.
  set (st := DDS.process_all plat false source_path files
                             (DDS_scanned source_path false w (Dir v es))) in *.
  destruct (DDS_organize_files_runs plat source_path false w v es Hwf Hn)
    as [w1 [E1 Hc1]].
  fold files in Hc1. fold st in Hc1.
  (* the tree after the processing loop *)
  assert (Hsorted : sorting plat source_path (fs (now st)) []).
  { unfold st, DDS.process_all. apply sorting_done.
    - apply (sorting_start plat source_path (fs w) v es Hwf Hn Hyears).
    - exact Herr. }
  destruct Hsorted as [Hwfm Hdirm Hleft _ _].
  unfold Fs.is_dir in Hdirm.
  destruct (Fs.lookup (fs (now st)) source_path) as [[? ?|vm esm]|] eqn:Hnm;
    try discriminate.
  (* the first reconciliation *)
  assert (Hwfs : wf (fs (DDS_summary st)) = true) by now rewrite DDS_summary_fs.
  destruct (DDS_cleanup_spec source_path (DDS_summary st) (Dir vm esm) Hwfs)
    as [w1' [Ec1 Hfs1]]; [now rewrite DDS_summary_fs|].
  rewrite Hc1 in Ec1. injection Ec1 as <-. rewrite DDS_summary_fs in Hfs1.
  destruct (DDS_cleanup_keeps source_path _ w1 Hwfs Hc1) as [Hwf1 _ Hnew _ _].
  destruct (clean_Dir [] vm esm) as [es1 Hclean].
  assert (Hn1 : Fs.lookup (fs w1) source_path = Some (Dir vm es1)).
  { rewrite Hfs1, <- Hclean. now apply (graft_lookup_at _ _ (Dir vm esm)). }
  assert (Hempty : top_files source_path (Dir vm es1) = []).
  { destruct (top_files source_path (Dir vm es1)) as [|q l] eqn:El; [reflexivity|].
    exfalso.
    assert (Hq : In q (top_files source_path (Dir vm es1))) by (rewrite El; now left).
    apply (collectable_top_files source_path (fs w1) _ q Hwf1 Hn1) in Hq.
    destruct Hq as [rel [Hrel [Hq [Hfile Hp]]]].
    apply (Hleft q). exists rel. repeat split; try assumption.
    apply is_file_lookup in Hfile. destruct Hfile as [s [d Hl]].
    apply Hnew in Hl. rewrite DDS_summary_fs in Hl.
    unfold Fs.is_file. now rewrite Hl. }
  (* the second run *)
  destruct (DDS_organize_files_runs plat source_path false w1 vm es1 Hwf1 Hn1)
    as [w2 [E2 Hc2]].
  rewrite Hempty in Hc2. unfold DDS.process_all in Hc2. simpl fold_left in Hc2.
  set (st2 := {| now := DDS_scanned source_path false w1 (Dir vm es1);
                 moved_count := 0; error_count := 0 |}) in *.
  assert (Hwfs2 : wf (fs (DDS_summary st2)) = true) by exact Hwf1.
  destruct (DDS_cleanup_spec source_path (DDS_summary st2) (Dir vm es1) Hwfs2 Hn1)
    as [w2' [Ec2 Hfs2]].
  rewrite Hc2 in Ec2. injection Ec2 as <-.
  destruct (DDS_cleanup_keeps source_path _ w2 Hwfs2 Hc2) as [_ _ _ _ [rels Hout2]].
  exists w1, w2, (Dir vm es1), (year_dirs (Dir vm es1)), rels.
  split; [assumption|]. split; [assumption|]. split; [|split; [assumption|split]].
  - rewrite Hfs2. change (fs (DDS_summary st2)) with (fs w1).
    assert (Hc : clean [] (Dir vm es1) = Dir vm es1).
    { rewrite <- Hclean. apply clean_idempotent. }
    rewrite Hc. now apply graft_same.
  - assumption.
  - rewrite Hout2. unfold st2, DDS_summary, DDS_scanned, DDS_banner, print.
    rewrite Hempty. simpl. rewrite <- !app_assoc. reflexivity.
Qed.

Lemma second_run_of_organize_files_changes_nothing_witness :
  exists w1 w2 n1 skipped removed,
    DDS.organize_files Posix ["photos"] false photos = Some (Returned, w1)
    /\ DDS.organize_files Posix ["photos"] false w1 = Some (Returned, w2)
    /\ fs w2 = fs w1
    /\ Fs.lookup (fs w1) ["photos"] = Some n1
    /\ top_files ["photos"] n1 = []
    /\ out w2 = out w1 ++ [Out (Organizing ["photos"])]
                       ++ map (fun d => Out (SkippingYearDir d)) skipped
                       ++ [Out (Found 0); Out Completed; Out (FilesProcessed 0)]
                       ++ removal_lines removed.
Proof.
  apply (second_run_of_organize_files_changes_nothing Posix ["photos"] photos true
           [("a.jpg", File (stamp 1577836800) "a");
            ("sub", Dir true [("b.jpg", File (stamp 1609459200) "b")])]);
    vm_compute; reflexivity.
Defined.

(** The directory of a year below 1000 is not a year directory for the
    collecting walk: the second run moves the file again. *)
Lemma year_of_three_digits_is_sorted_again :
  exists w1 w2,
    DDS.organize_files Posix ["photos"] false {| fs := old_tree; out := [] |}
    = Some (Returned, w1)
    /\ DDS.organize_files Posix ["photos"] false w1 = Some (Returned, w2)
    /\ Fs.is_file (fs w1) ["photos"; "999"; "a.jpg"] = true
    /\ Fs.is_file (fs w2) ["photos"; "999"; "a.jpg"] = false
    /\ Fs.is_file (fs w2) ["photos"; "999"; "999"; "a.jpg"] = true.
Proof.
  eexists. eexists. split; [vm_compute; reflexivity|].
  split; [vm_compute; reflexivity|]. repeat split; reflexivity.
Qed.

(** * Further properties *)

(** ** The Dater *)





(** ** The reconciliation pass, once more *)



(** ** Where the files are after a step *)







(** ** Beside the source directory, or inside it *)



(** ** Every file once *)






(** ** The flags of [move_files] *)





